(** * Bedrock monitoring: the anomaly detector of [bedrock_monitor.py]

    A shallow embedding of [BedrockMonitor.collect_usage_metrics],
    [BedrockMonitor._get_cloudwatch_metric], [BedrockMonitor.detect_anomalies],
    [BedrockMonitor.send_alert] and [lambda_handler], and the properties of
    the detector that the specification states.

    Conventions of the embedding:
    - Python numbers (the [Sum] and [Average] statistics, means, deviations,
      thresholds) are real numbers; rounding of binary floating point is not
      modelled.
    - A [datetime] is its number of microseconds since the epoch (an integer),
      a [timedelta] a number of microseconds.
    - The AWS clients are oracles: a CloudWatch request either yields its
      datapoints or raises; an SNS publish either succeeds or raises.
    - Exceptions, the mutable locals of a method ([metrics], [anomalies]) and
      the records handed to [logger] are threaded by a small monad. *)

From Stdlib Require Import Reals Lra String DecimalString ZArith Lia Bool Arith List
  Permutation.
From Equations Require Import Equations.
Import ListNotations.

Open Scope string_scope.
Open Scope list_scope.
Open Scope R_scope.

(** ** Python built-ins used by the module *)

Module Py.

(** The exceptions that the arithmetic and the [statistics] module raise. *)
Inductive exn : Type :=
| ZeroDivisionError
| StatisticsError (msg : string).

(** [str(e)] *)
Definition str (e : exn) : string :=
  match e with
  | ZeroDivisionError => "division by zero"
  | StatisticsError msg => msg
  end.

(** [x > y] on numbers. *)
Definition gtb (x y : R) : bool := if Rlt_dec y x then true else false.

(** [sum(xs)]: left to right, from [0]. *)
Definition sum (xs : list R) : R := fold_left Rplus xs 0.

(** [x / y]: true division, which raises on a zero divisor. *)
Definition div (x y : R) : exn + R :=
  if Req_dec_T y 0 then inl ZeroDivisionError else inr (x / y).

(** [statistics.mean(xs)] *)
Definition mean (xs : list R) : exn + R :=
  match xs with
  | [] => inl (StatisticsError "mean requires at least one data point")
  | _ => inr (sum xs / INR (length xs))
  end.

(** [statistics.stdev(xs)]: the sample standard deviation. *)
Definition stdev (xs : list R) : exn + R :=
  if (length xs <? 2)%nat
  then inl (StatisticsError "stdev requires at least two data points")
  else
    let m := sum xs / INR (length xs) in
    let ss := sum (map (fun x => (x - m) * (x - m)) xs) in
    inr (sqrt (ss / INR (length xs - 1))).

End Py.

(** ** Log records *)

Inductive level : Type := INFO | WARNING | ERROR.

Definition log_record : Type := (level * string)%type.

(** ** A monad for method bodies

    A computation runs on the mutable locals [S] of the method; it returns a
    value or raises, leaves the locals as they are at that point, and yields
    the records it logged. *)

Definition M (S A : Type) : Type := S -> (Py.exn + A) * S * list log_record.

Definition ret {S A} (a : A) : M S A := fun s => (inr a, s, []).

Definition bind {S A B} (c : M S A) (f : A -> M S B) : M S B :=
  fun s =>
    match c s with
    | (inl e, s1, l1) => (inl e, s1, l1)
    | (inr a, s1, l1) =>
        match f a s1 with
        | (r, s2, l2) => (r, s2, l1 ++ l2)
        end
    end.

(** A Python expression that may raise. *)
Definition eval {S A} (r : Py.exn + A) : M S A := fun s => (r, s, []).

Definition get {S} : M S S := fun s => (inr s, s, []).

Definition modify {S} (f : S -> S) : M S unit := fun s => (inr tt, f s, []).

(** [logger.info], [logger.warning], [logger.error] *)
Definition logger {S} (lv : level) (msg : string) : M S unit :=
  fun s => (inr tt, s, [(lv, msg)]).

(** A call of a method that handles its own exceptions: it returns a value
    and the records it logged. *)
Definition call {S A} (c : A * list log_record) : M S A :=
  fun s => (inr (fst c), s, snd c).

(** [try: c  except Exception as e: h e] *)
Definition try_except {S} (c : M S unit) (h : Py.exn -> M S unit) : M S unit :=
  fun s =>
    match c s with
    | (inl e, s1, l1) =>
        match h e s1 with
        | (r, s2, l2) => (r, s2, l1 ++ l2)
        end
    | (inr a, s1, l1) => (inr a, s1, l1)
    end.

Declare Scope py_scope.
Delimit Scope py_scope with py.
Notation "x <- c ;; k" := (bind c (fun x => k))
  (at level 61, c at next level, right associativity) : py_scope.
Notation "c ;; k" := (bind c (fun _ => k))
  (at level 61, right associativity) : py_scope.
Open Scope py_scope.

(** ** Time *)

(** [timedelta(hours=1)] and [timedelta(days=7)], in microseconds. *)
Definition hours (n : Z) : Z := (n * 3600000000)%Z.
Definition days (n : Z) : Z := (n * 24 * 3600000000)%Z.

(** [t.replace(minute=0, second=0, microsecond=0)] *)
Definition replace_minute_second_microsecond (t : Z) : Z :=
  (t - t mod hours 1)%Z.

(** The windows visited by
    [while current_time < end_time: next_time = current_time + timedelta(hours=1); ...; current_time = next_time]:
    the pairs [(current_time, next_time)] in the order of the iterations.
    The loops of [detect_anomalies] test only the time, so the windows do not
    depend on what is fetched. *)
Equations hourly_windows (current_time end_time : Z) : list (Z * Z)
  by wf (Z.to_nat (end_time - current_time)) lt :=
hourly_windows current_time end_time with Z_lt_dec current_time end_time := {
  | left _ =>
      (current_time, (current_time + hours 1)%Z)
        :: hourly_windows (current_time + hours 1)%Z end_time
  | right _ => [] }.
Next Obligation. unfold hours. lia. Qed.

(** ** CloudWatch *)

(** What [cloudwatch_client.get_metric_statistics] does on a request: the
    [Datapoints] of the response, each reduced to the value of the statistic
    asked for, or an exception. *)
Inductive statistics_response : Type :=
| Datapoints (points : list R)
| Raises (msg : string).

(** Namespace, MetricName, StartTime, EndTime, Period, Statistics. *)
Definition cloudwatch : Type :=
  string -> string -> Z -> Z -> Z -> string -> statistics_response.

(** The [metrics] dictionary. The three [defaultdict] entries
    ([model_usage], [error_distribution], [hourly_usage]) are created empty
    and never written; [success_rate] is a key that the method adds, so it
    is absent ([None]) until then. *)
Record metrics : Type := {
  total_invocations : R;
  total_errors : R;
  total_input_tokens : R;
  total_output_tokens : R;
  avg_duration : R;
  success_rate : option R
}.

Definition metrics_init : metrics :=
  {| total_invocations := 0; total_errors := 0; total_input_tokens := 0;
     total_output_tokens := 0; avg_duration := 0; success_rate := None |}.

Definition set_total_invocations (v : R) (m : metrics) : metrics :=
  {| total_invocations := v; total_errors := total_errors m;
     total_input_tokens := total_input_tokens m;
     total_output_tokens := total_output_tokens m;
     avg_duration := avg_duration m; success_rate := success_rate m |}.

Definition set_total_errors (v : R) (m : metrics) : metrics :=
  {| total_invocations := total_invocations m; total_errors := v;
     total_input_tokens := total_input_tokens m;
     total_output_tokens := total_output_tokens m;
     avg_duration := avg_duration m; success_rate := success_rate m |}.

Definition set_total_input_tokens (v : R) (m : metrics) : metrics :=
  {| total_invocations := total_invocations m; total_errors := total_errors m;
     total_input_tokens := v;
     total_output_tokens := total_output_tokens m;
     avg_duration := avg_duration m; success_rate := success_rate m |}.

Definition set_total_output_tokens (v : R) (m : metrics) : metrics :=
  {| total_invocations := total_invocations m; total_errors := total_errors m;
     total_input_tokens := total_input_tokens m;
     total_output_tokens := v;
     avg_duration := avg_duration m; success_rate := success_rate m |}.

Definition set_avg_duration (v : R) (m : metrics) : metrics :=
  {| total_invocations := total_invocations m; total_errors := total_errors m;
     total_input_tokens := total_input_tokens m;
     total_output_tokens := total_output_tokens m;
     avg_duration := v; success_rate := success_rate m |}.

Definition set_success_rate (v : R) (m : metrics) : metrics :=
  {| total_invocations := total_invocations m; total_errors := total_errors m;
     total_input_tokens := total_input_tokens m;
     total_output_tokens := total_output_tokens m;
     avg_duration := avg_duration m; success_rate := Some v |}.

(** An entry of [anomalies]. [timestamp] holds the [datetime] whose
    [isoformat()] the code stores. *)
Record anomaly : Type := {
  type : string;
  current_value : R;
  threshold : R;
  baseline_mean : R;
  timestamp : Z;
  severity : string
}.

Section Monitor.

Variable cloudwatch_client : cloudwatch.

Definition _get_cloudwatch_metric
    (namespace metric_name : string) (start_time end_time : Z)
    (statistic : string) : list R * list log_record :=
  match cloudwatch_client namespace metric_name start_time end_time 300%Z statistic with
  | Datapoints points => (points, [])
  | Raises msg =>
      ([], [(ERROR, ("Error getting CloudWatch metric " ++ metric_name ++ ": " ++ msg)%string)])
  end.

(** The [try] block of [collect_usage_metrics], on the local [metrics]. *)
Definition collect_usage_metrics_try (start_time end_time : Z) : M metrics unit :=
  invocations <- call (_get_cloudwatch_metric "AWS/Bedrock" "Invocations" start_time end_time "Sum") ;;
  modify (set_total_invocations (Py.sum invocations)) ;;
  errors <- call (_get_cloudwatch_metric "AWS/Bedrock" "Errors" start_time end_time "Sum") ;;
  modify (set_total_errors (Py.sum errors)) ;;
  input_tokens <- call (_get_cloudwatch_metric "AWS/Bedrock" "InputTokens" start_time end_time "Sum") ;;
  modify (set_total_input_tokens (Py.sum input_tokens)) ;;
  output_tokens <- call (_get_cloudwatch_metric "AWS/Bedrock" "OutputTokens" start_time end_time "Sum") ;;
  modify (set_total_output_tokens (Py.sum output_tokens)) ;;
  duration <- call (_get_cloudwatch_metric "AWS/Bedrock" "Duration" start_time end_time "Average") ;;
  match duration with
  | [] => ret tt
  | _ => avg <- eval (Py.mean duration) ;; modify (set_avg_duration avg)
  end ;;
  m <- get ;;
  if Py.gtb (total_invocations m) 0
  then
    q <- eval (Py.div (total_invocations m - total_errors m) (total_invocations m)) ;;
    modify (set_success_rate (q * 100))
  else modify (set_success_rate 0).

Definition collect_usage_metrics (start_time end_time : Z)
    : metrics * list log_record :=
  match
    try_except (collect_usage_metrics_try start_time end_time)
      (fun e => logger ERROR ("Error collecting usage metrics: " ++ Py.str e)%string)
      metrics_init
  with
  | (_, m, l) => (m, l)
  end.

(** ** The detector *)

(** The loop that fills [baseline_metrics]: one [collect_usage_metrics] call
    per window, its [total_invocations] appended. *)
Fixpoint collect_baseline {S : Type} (windows : list (Z * Z))
    (baseline_metrics : list R) : M S (list R) :=
  match windows with
  | [] => ret baseline_metrics
  | (current_time, next_time) :: rest =>
      hourly_metrics <- call (collect_usage_metrics current_time next_time) ;;
      collect_baseline rest (baseline_metrics ++ [total_invocations hourly_metrics])
  end.

(** The loop that fills [baseline_error_rates]: the windows are fetched
    again, and a window without invocations adds nothing. *)
Fixpoint collect_error_rates {S : Type} (windows : list (Z * Z))
    (baseline_error_rates : list R) : M S (list R) :=
  match windows with
  | [] => ret baseline_error_rates
  | (current_time, next_time) :: rest =>
      hourly_metrics <- call (collect_usage_metrics current_time next_time) ;;
      if Py.gtb (total_invocations hourly_metrics) 0
      then
        q <- eval (Py.div (total_errors hourly_metrics) (total_invocations hourly_metrics)) ;;
        collect_error_rates rest (baseline_error_rates ++ [q * 100])
      else collect_error_rates rest baseline_error_rates
  end.

(** [x if c else y] on the two severities. *)
Definition severity_of (value threshold : R) : string :=
  if Py.gtb value (threshold * 1.5) then "high" else "medium".

(** The error-rate check, entered when the current hour has invocations. *)
Definition check_error_rate (threshold_multiplier : R)
    (start_time end_time current_hour_start : Z) (current_metrics : metrics)
    : M (list anomaly) unit :=
  q <- eval (Py.div (total_errors current_metrics) (total_invocations current_metrics)) ;;
  let current_error_rate := q * 100 in
  baseline_error_rates <-
    collect_error_rates (hourly_windows start_time (end_time - hours 1)%Z) [] ;;
  match baseline_error_rates with
  | [] => ret tt
  | _ =>
      baseline_error_mean <- eval (Py.mean baseline_error_rates) ;;
      baseline_error_stdev <-
        (if (1 <? length baseline_error_rates)%nat
         then eval (Py.stdev baseline_error_rates) else ret 0) ;;
      let error_threshold :=
        baseline_error_mean + threshold_multiplier * baseline_error_stdev in
      if Py.gtb current_error_rate error_threshold && Py.gtb current_error_rate 5
      then
        modify (fun anomalies => anomalies ++ [
          {| type := "high_error_rate";
             current_value := current_error_rate;
             threshold := error_threshold;
             baseline_mean := baseline_error_mean;
             timestamp := current_hour_start;
             severity := severity_of current_error_rate error_threshold |} ])
      else ret tt
  end.

(** The [try] block from the test of the baseline length on (the code after
    the first loop), on the local [anomalies]. [utcnow] is the reading of the
    clock at the second [datetime.utcnow()]. *)
Definition detect_anomalies_checks (threshold_multiplier : R)
    (start_time end_time utcnow : Z) (baseline_metrics : list R)
    : M (list anomaly) unit :=
  if (length baseline_metrics <? 24)%nat
  then logger WARNING "Insufficient data for anomaly detection"
  else
    baseline_mean <- eval (Py.mean baseline_metrics) ;;
    baseline_stdev <- eval (Py.stdev baseline_metrics) ;;
    let threshold := baseline_mean + threshold_multiplier * baseline_stdev in
    let current_hour_start := replace_minute_second_microsecond utcnow in
    let current_hour_end := (current_hour_start + hours 1)%Z in
    current_metrics <- call (collect_usage_metrics current_hour_start current_hour_end) ;;
    (if Py.gtb (total_invocations current_metrics) threshold
     then
       modify (fun anomalies => anomalies ++ [
         {| type := "high_usage";
            current_value := total_invocations current_metrics;
            threshold := threshold;
            baseline_mean := baseline_mean;
            timestamp := current_hour_start;
            severity := severity_of (total_invocations current_metrics) threshold |} ])
     else ret tt) ;;
    if Py.gtb (total_invocations current_metrics) 0
    then check_error_rate threshold_multiplier start_time end_time
           current_hour_start current_metrics
    else ret tt.

(** The whole [try] block: [utcnow_1] and [utcnow_2] are the two readings of
    the clock, in the order of the calls. *)
Definition detect_anomalies_try (threshold_multiplier : R) (utcnow_1 utcnow_2 : Z)
    : M (list anomaly) unit :=
  let end_time := utcnow_1 in
  let start_time := (end_time - days 7)%Z in
  baseline_metrics <- collect_baseline (hourly_windows start_time end_time) [] ;;
  detect_anomalies_checks threshold_multiplier start_time end_time utcnow_2
    baseline_metrics.

(** [except Exception as e: logger.error(...)] and [return anomalies]. *)
Definition run_detection (try_block : M (list anomaly) unit)
    : list anomaly * list log_record :=
  match
    try_except try_block
      (fun e => logger ERROR ("Error detecting anomalies: " ++ Py.str e)%string)
      []
  with
  | (_, anomalies, l) => (anomalies, l)
  end.

Definition detect_anomalies (threshold_multiplier : R) (utcnow_1 utcnow_2 : Z)
    : list anomaly * list log_record :=
  run_detection (detect_anomalies_try threshold_multiplier utcnow_1 utcnow_2).

(** The detection run from the point where [baseline_metrics] holds the
    given samples. *)
Definition detect_anomalies_from (threshold_multiplier : R)
    (start_time end_time utcnow : Z) (baseline_metrics : list R)
    : list anomaly * list log_record :=
  run_detection
    (detect_anomalies_checks threshold_multiplier start_time end_time utcnow
       baseline_metrics).

End Monitor.

(** ** Alerts *)

(** What [sns_client.publish] does on a request. *)
Inductive publish_outcome : Type :=
| Published
| PublishRaises (msg : string).

(** TopicArn, Message, Subject. *)
Definition publish_request : Type := (string * string * string)%type.

Definition sns : Type := publish_request -> publish_outcome.

(** What a [send_alert] call leaves behind: the value returned, the publish
    requests made and the records logged. *)
Record alert_result : Type := {
  returned : bool;
  published : list publish_request;
  alert_log : list log_record
}.

Section Alerts.

(** [self.sns_topic_arn = os.getenv('SNS_TOPIC_ARN')] *)
Variable sns_topic_arn : option string.
Variable sns_client : sns.

Definition send_alert (message subject : string) : alert_result :=
  match sns_topic_arn with
  | None | Some EmptyString =>
      {| returned := false; published := [];
         alert_log := [(WARNING, "SNS topic ARN not configured, cannot send alert")] |}
  | Some arn =>
      let request := (arn, message, subject) in
      match sns_client request with
      | Published =>
          {| returned := true; published := [request];
             alert_log := [(INFO, ("Alert sent successfully: " ++ subject)%string)] |}
      | PublishRaises msg =>
          {| returned := false; published := [request];
             alert_log := [(ERROR, ("Error sending alert: " ++ msg)%string)] |}
      end
  end.

(** ** The scheduled handler *)

Variable cloudwatch_client : cloudwatch.

(** The formatting of a number by an f-string, plain ([{x}]) and with two
    decimals ([{x:.2f}]): Python's, taken as given. *)
Variable format_number : R -> string.
Variable format_2f : R -> string.

(** [publish_custom_metrics] and [analyze_user_behaviour] handle their own
    exceptions; the handler drops the result of the first and reads only
    [unique_users] (with default [0]) from the second. Both are taken as
    given: the records they log and the count read. *)
Variable publish_custom_metrics : metrics -> bool * list log_record.
Variable analyze_user_behavior : Z * list log_record.

(** The line feed of the message. *)
Definition newline : string := String (Ascii.ascii_of_nat 10) EmptyString.

(** [len(anomalies)] in an f-string. *)
Definition format_len (n : nat) : string :=
  NilEmpty.string_of_uint (Nat.to_uint n).

Definition alert_line (a : anomaly) : string :=
  ("- " ++ type a ++ ": Current value " ++ format_number (current_value a) ++ ", "
   ++ "Threshold: " ++ format_2f (threshold a) ++ ", Severity: " ++ severity a
   ++ newline)%string.

Definition alert_message (anomalies : list anomaly) : string :=
  fold_left (fun msg a => (msg ++ alert_line a)%string) anomalies
    ("Detected " ++ format_len (length anomalies) ++ " anomalies in Bedrock usage:"
     ++ newline ++ newline)%string.

(** The response of the handler, the JSON body as its fields. *)
Record handler_response : Type := {
  statusCode : Z;
  metrics_collected : nat;
  anomalies_detected : nat;
  unique_users : Z
}.

(** What a run of the handler leaves behind. *)
Record handler_result : Type := {
  response : handler_response;
  alerts : list publish_request;
  handler_log : list log_record
}.

(** [len(metrics)]: the eight keys the dictionary starts with, and
    [success_rate] when it was added. *)
Definition len_metrics (m : metrics) : nat :=
  match success_rate m with
  | Some _ => 9
  | None => 8
  end.

(** [lambda_handler], on the three readings of the clock: its own and the two
    of [detect_anomalies]. Every call in its [try] block handles its own
    exceptions, so the response is the one built there. *)
Definition lambda_handler (utcnow_0 utcnow_1 utcnow_2 : Z) : handler_result :=
  let end_time := utcnow_0 in
  let start_time := (end_time - hours 1)%Z in
  let '(metrics, log_1) := collect_usage_metrics cloudwatch_client start_time end_time in
  let '(_, log_2) := publish_custom_metrics metrics in
  let '(anomalies, log_3) := detect_anomalies cloudwatch_client 2 utcnow_1 utcnow_2 in
  let sent :=
    match anomalies with
    | [] => {| returned := false; published := []; alert_log := [] |}
    | _ => send_alert (alert_message anomalies) "Bedrock Usage Anomaly Detected"
    end in
  let '(users, log_4) := analyze_user_behavior in
  {| response :=
       {| statusCode := 200;
          metrics_collected := len_metrics metrics;
          anomalies_detected := length anomalies;
          unique_users := users |};
     alerts := published sent;
     handler_log := log_1 ++ log_2 ++ log_3 ++ alert_log sent ++ log_4 |}.

End Alerts.


(** ** Quantities of a detection run

    The values that the loops and the checks of [detect_anomalies] compute,
    named so that the statements below can speak of them. Each is tied to the
    code by a lemma of the next part. *)

(** The window that an iteration, or the check of the current hour, asks
    [collect_usage_metrics] for, and what comes back. *)
Definition window_metrics (cw : cloudwatch) (w : Z * Z) : metrics :=
  fst (collect_usage_metrics cw (fst w) (snd w)).

Definition window_log (cw : cloudwatch) (w : Z * Z) : list log_record :=
  snd (collect_usage_metrics cw (fst w) (snd w)).

(** The seven days before the first reading of the clock, hour by hour. *)
Definition baseline_windows (utcnow_1 : Z) : list (Z * Z) :=
  hourly_windows (utcnow_1 - days 7)%Z utcnow_1.

(** [baseline_metrics] at the end of the first loop. *)
Definition baseline_metrics_of (cw : cloudwatch) (utcnow_1 : Z) : list R :=
  map (fun w => total_invocations (window_metrics cw w)) (baseline_windows utcnow_1).

(** The current hour: [(current_hour_start, current_hour_end)]. *)
Definition current_window (utcnow : Z) : Z * Z :=
  (replace_minute_second_microsecond utcnow,
   (replace_minute_second_microsecond utcnow + hours 1)%Z).

(** [errors / invocations * 100] *)
Definition error_rate (m : metrics) : R :=
  total_errors m / total_invocations m * 100.

(** What a list of fetched windows adds to [baseline_error_rates]. *)
Definition error_rates (ms : list metrics) : list R :=
  flat_map (fun m => if Py.gtb (total_invocations m) 0 then [error_rate m] else []) ms.

(** The windows of the second loop, which stops an hour early. *)
Definition error_windows (start_time end_time : Z) : list (Z * Z) :=
  hourly_windows start_time (end_time - hours 1)%Z.

(** [baseline_error_rates] at the end of the second loop. *)
Definition baseline_error_rates_of (cw : cloudwatch) (start_time end_time : Z) : list R :=
  error_rates (map (window_metrics cw) (error_windows start_time end_time)).

(** The value of [statistics.mean] and of [statistics.stdev] where they do
    not raise. *)
Definition mean_of (xs : list R) : R := Py.sum xs / INR (length xs).

Definition stdev_of (xs : list R) : R :=
  sqrt (Py.sum (map (fun x => (x - mean_of xs) * (x - mean_of xs)) xs)
        / INR (length xs - 1)).

(** [threshold] and [error_threshold]. *)
Definition usage_threshold (threshold_multiplier : R) (baseline_metrics : list R) : R :=
  mean_of baseline_metrics + threshold_multiplier * stdev_of baseline_metrics.

Definition error_threshold_of (threshold_multiplier : R) (baseline_error_rates : list R) : R :=
  mean_of baseline_error_rates
  + threshold_multiplier
    * (if (1 <? length baseline_error_rates)%nat then stdev_of baseline_error_rates else 0).

(** The anomalies of one kind in a result. *)
Definition of_type (t : string) (anomalies : list anomaly) : list anomaly :=
  filter (fun a => String.eqb (type a) t) anomalies.

(** The record that the usage check appends, and the one that the error-rate
    check appends. *)
Definition usage_record (threshold_multiplier : R) (baseline_metrics : list R)
    (current_metrics : metrics) (current_hour_start : Z) : anomaly :=
  {| type := "high_usage";
     current_value := total_invocations current_metrics;
     threshold := usage_threshold threshold_multiplier baseline_metrics;
     baseline_mean := mean_of baseline_metrics;
     timestamp := current_hour_start;
     severity := severity_of (total_invocations current_metrics)
                   (usage_threshold threshold_multiplier baseline_metrics) |}.

Definition error_record (threshold_multiplier : R) (baseline_error_rates : list R)
    (current_metrics : metrics) (current_hour_start : Z) : anomaly :=
  {| type := "high_error_rate";
     current_value := error_rate current_metrics;
     threshold := error_threshold_of threshold_multiplier baseline_error_rates;
     baseline_mean := mean_of baseline_error_rates;
     timestamp := current_hour_start;
     severity := severity_of (error_rate current_metrics)
                   (error_threshold_of threshold_multiplier baseline_error_rates) |}.

(** What the usage check and the error-rate check append to [anomalies]. *)
Definition usage_check (threshold_multiplier : R) (baseline_metrics : list R)
    (current_metrics : metrics) (current_hour_start : Z) : list anomaly :=
  if Py.gtb (total_invocations current_metrics)
       (usage_threshold threshold_multiplier baseline_metrics)
  then [usage_record threshold_multiplier baseline_metrics current_metrics
          current_hour_start]
  else [].

Definition error_check (threshold_multiplier : R) (baseline_error_rates : list R)
    (current_metrics : metrics) (current_hour_start : Z) : list anomaly :=
  match baseline_error_rates with
  | [] => []
  | _ =>
      if Py.gtb (error_rate current_metrics)
           (error_threshold_of threshold_multiplier baseline_error_rates)
         && Py.gtb (error_rate current_metrics) 5
      then [error_record threshold_multiplier baseline_error_rates current_metrics
              current_hour_start]
      else []
  end.

(** The series that an anomaly is judged against: the error rates of the
    baseline for [high_error_rate], the invocation counts otherwise. *)
Definition judged_against (cw : cloudwatch) (start_time end_time : Z)
    (baseline_metrics : list R) (a : anomaly) : list R :=
  if String.eqb (type a) "high_error_rate"
  then baseline_error_rates_of cw start_time end_time
  else baseline_metrics.

(** The shape of a result: at most one anomaly of each kind, no other kind,
    and one of the two severities. *)
Definition well_formed (anomalies : list anomaly) : Prop :=
  (length anomalies <= 2)%nat
  /\ (length (of_type "high_usage" anomalies) <= 1)%nat
  /\ (length (of_type "high_error_rate" anomalies) <= 1)%nat
  /\ Forall (fun a => type a = "high_usage" \/ type a = "high_error_rate") anomalies
  /\ Forall (fun a => severity a = "medium" \/ severity a = "high") anomalies.

(** Two sources answer alike on a window. *)
Definition agree_on (cw_1 cw_2 : cloudwatch) (w : Z * Z) : Prop :=
  forall metric_name statistic : string,
    cw_1 "AWS/Bedrock" metric_name (fst w) (snd w) 300%Z statistic
    = cw_2 "AWS/Bedrock" metric_name (fst w) (snd w) 300%Z statistic.

(** ** Sources for the examples *)

(** A source that has no datapoints at all. *)
Definition silent : cloudwatch := fun _ _ _ _ _ _ => Datapoints [].

(** A source that answers with the invocations and errors given for the start
    of the window, and has no other datapoints. *)
Definition source (invocations errors : Z -> list R) : cloudwatch :=
  fun _ metric_name start_time _ _ _ =>
    if String.eqb metric_name "Invocations" then Datapoints (invocations start_time)
    else if String.eqb metric_name "Errors" then Datapoints (errors start_time)
    else Datapoints [].

(** A source that raises for every window that starts before [t] and
    reports five of everything from then on. *)
Definition outage_until (t : Z) : cloudwatch :=
  fun _ _ start_time _ _ _ =>
    if (start_time <? t)%Z then Raises "ThrottlingException" else Datapoints [5].

(** Ten invocations in the first hour of the week and in the current hour,
    half of the current ones failed; nothing in between. *)
Definition quiet_week : cloudwatch :=
  source (fun s => if (s =? 0)%Z || (s =? hours 168)%Z then [10] else [])
         (fun s => if (s =? hours 168)%Z then [5] else []).

(** A hundred invocations every hour, two errors in the current hour only. *)
Definition two_percent : cloudwatch :=
  source (fun _ => [100]) (fun s => if (s =? hours 168)%Z then [2] else []).

(** Ten invocations in the hour that starts at [0], thirty-one in any other. *)
Definition ten_then_thirty_one : cloudwatch :=
  source (fun s => if (s =? 0)%Z then [10] else [31]) (fun _ => []).

(** [silent], but raising outside the namespace that the monitor reads. *)
Definition silent_bedrock_only : cloudwatch :=
  fun namespace _ _ _ _ _ =>
    if String.eqb namespace "AWS/Bedrock" then Datapoints [] else Raises "AccessDenied".

(** An SNS client that always raises, and one that always publishes. *)
Definition sns_down : sns := fun _ => PublishRaises "EndpointConnectionError".
Definition sns_up : sns := fun _ => Published.

(** Ten invocations in every window, and an [Errors] metric that cannot be
    read. *)
Definition errors_unavailable : cloudwatch :=
  fun _ metric_name _ _ _ _ =>
    if String.eqb metric_name "Errors" then Raises "AccessDenied"
    else if String.eqb metric_name "Invocations" then Datapoints [10]
    else Datapoints [].
(** ** Custom metrics *)

(** A value of a [metrics] dictionary, as far as
    [isinstance(value, (int, float))] tells values apart: a number, a boolean
    (an [int] to Python), or anything else. *)
Inductive value : Type :=
| Number (x : R)
| Boolean (b : bool)
| Other.

(** [isinstance(value, (int, float))] *)
Definition isinstance_int_float (v : value) : bool :=
  match v with
  | Number _ => true
  | Boolean _ => true
  | Other => false
  end.

(** An entry of [metric_data]; [Dimensions] as its pairs of [Name] and
    [Value]. *)
Record metric_datum : Type := {
  MetricName : string;
  Value : value;
  Unit : string;
  Dimensions : list (string * string)
}.

(** What [cloudwatch_client.put_metric_data] does on a request. *)
Inductive put_outcome : Type :=
| Accepted
| PutRaises (msg : string).

(** Namespace, MetricData. *)
Definition put_request : Type := (string * list metric_datum)%type.

Definition cloudwatch_put : Type := put_request -> put_outcome.

(** [range(0, stop, step)], for a positive [step]. *)
Definition range_step (stop step : nat) : list nat :=
  map (fun j => (j * step)%nat) (seq 0 ((stop + step - 1) / step)).

(** [xs[i:j]], for [0 <= i <= j]. *)
Definition slice {A : Type} (xs : list A) (i j : nat) : list A :=
  firstn (j - i) (skipn i xs).

(** The items of the dictionary that [collect_usage_metrics] returns, in the
    order of insertion. *)
Definition metrics_items (m : metrics) : list (string * value) :=
  [ ("total_invocations", Number (total_invocations m));
    ("total_errors", Number (total_errors m));
    ("total_input_tokens", Number (total_input_tokens m));
    ("total_output_tokens", Number (total_output_tokens m));
    ("avg_duration", Number (avg_duration m));
    ("model_usage", Other);
    ("error_distribution", Other);
    ("hourly_usage", Other) ]
  ++ match success_rate m with
     | Some rate => [("success_rate", Number rate)]
     | None => []
     end.

(** CloudWatch accepts a batch sent to the namespace of the monitor. *)
Definition accepts (put_metric_data : cloudwatch_put) (batch : list metric_datum) : Prop :=
  put_metric_data ("Custom/Bedrock", batch) = Accepted.

(** Forty-five numbered metrics, a dictionary that needs three batches. *)
Definition forty_five_metrics : list (string * value) :=
  map (fun n : nat => (format_len n, Number (INR n))) (seq 0 45).

(** CloudWatch on a good day, and on a day on which it throttles. *)
Definition put_accepting : cloudwatch_put := fun _ => Accepted.
Definition put_throttling : cloudwatch_put := fun _ => PutRaises "Throttling".

(** What a [publish_custom_metrics] call leaves behind: the value returned,
    the requests made to CloudWatch and the records logged. *)
Record publish_result : Type := {
  publish_returned : bool;
  put_requests : list put_request;
  publish_log : list log_record
}.

Section CustomMetrics.

(** [self.environment = os.getenv('ENVIRONMENT', 'prod')] *)
Variable environment : string.
Variable put_metric_data : cloudwatch_put.

(** The first loop of [publish_custom_metrics]. *)
Definition metric_data_of (metrics : list (string * value)) : list metric_datum :=
  flat_map
    (fun item : string * value =>
       if isinstance_int_float (snd item)
       then [ {| MetricName := fst item;
                 Value := snd item;
                 Unit := "Count";
                 Dimensions := [("Environment", environment)] |} ]
       else [])
    metrics.

(** The batches of the second loop: [metric_data[i:i+20]] for [i] in
    [range(0, len(metric_data), 20)]. *)
Definition batches_of (metric_data : list metric_datum) : list (list metric_datum) :=
  map (fun i => slice metric_data i (i + 20)) (range_step (length metric_data) 20).

(** The second loop: one request per batch, until one raises. It gives the
    requests made and the message of the exception, if any. *)
Fixpoint put_batches (batches : list (list metric_datum))
    : list put_request * option string :=
  match batches with
  | [] => ([], None)
  | batch :: rest =>
      let request := ("Custom/Bedrock", batch) in
      match put_metric_data request with
      | Accepted =>
          match put_batches rest with
          | (made, failure) => (request :: made, failure)
          end
      | PutRaises msg => ([request], Some msg)
      end
  end.

Definition publish_custom_metrics (metrics : list (string * value)) : publish_result :=
  let metric_data := metric_data_of metrics in
  match put_batches (batches_of metric_data) with
  | (made, None) =>
      {| publish_returned := true; put_requests := made;
         publish_log :=
           [(INFO, ("Published " ++ format_len (length metric_data)
                    ++ " custom metrics to CloudWatch")%string)] |}
  | (made, Some msg) =>
      {| publish_returned := false; put_requests := made;
         publish_log :=
           [(ERROR, ("Error publishing custom metrics: " ++ msg)%string)] |}
  end.

End CustomMetrics.

(** ** Cost analysis *)

(** An entry of [model_pricing]: the price of an input token and of an output
    token. *)
Record pricing : Type := {
  input : R;
  output : R
}.

Definition model_pricing : list (string * pricing) :=
  [ ("anthropic.claude-v2", {| input := 0.00001102; output := 0.00003268 |});
    ("amazon.titan-text-express-v1", {| input := 0.0000008; output := 0.0000016 |});
    ("ai21.j2-ultra-v1", {| input := 0.000015; output := 0.000015 |});
    ("cohere.command-text-v14", {| input := 0.000015; output := 0.000015 |}) ].

(** The dictionary under the key [token_usage]. *)
Record token_usage_dict : Type := {
  input_tokens : R;
  output_tokens : R
}.

(** The [cost_analysis] dictionary. [input_token_cost] and
    [output_token_cost] are keys that the method adds. *)
Record cost_analysis : Type := {
  total_estimated_cost : R;
  cost_by_model : list (string * R);
  cost_by_day : list (string * R);
  token_usage : token_usage_dict;
  input_token_cost : option R;
  output_token_cost : option R
}.

Definition cost_analysis_init : cost_analysis :=
  {| total_estimated_cost := 0; cost_by_model := []; cost_by_day := [];
     token_usage := {| input_tokens := 0; output_tokens := 0 |};
     input_token_cost := None; output_token_cost := None |}.

Definition set_input_tokens (v : R) (c : cost_analysis) : cost_analysis :=
  {| total_estimated_cost := total_estimated_cost c;
     cost_by_model := cost_by_model c; cost_by_day := cost_by_day c;
     token_usage := {| input_tokens := v;
                       output_tokens := output_tokens (token_usage c) |};
     input_token_cost := input_token_cost c;
     output_token_cost := output_token_cost c |}.

Definition set_output_tokens (v : R) (c : cost_analysis) : cost_analysis :=
  {| total_estimated_cost := total_estimated_cost c;
     cost_by_model := cost_by_model c; cost_by_day := cost_by_day c;
     token_usage := {| input_tokens := input_tokens (token_usage c);
                       output_tokens := v |};
     input_token_cost := input_token_cost c;
     output_token_cost := output_token_cost c |}.

Definition set_total_estimated_cost (v : R) (c : cost_analysis) : cost_analysis :=
  {| total_estimated_cost := v;
     cost_by_model := cost_by_model c; cost_by_day := cost_by_day c;
     token_usage := token_usage c;
     input_token_cost := input_token_cost c;
     output_token_cost := output_token_cost c |}.

Definition set_input_token_cost (v : R) (c : cost_analysis) : cost_analysis :=
  {| total_estimated_cost := total_estimated_cost c;
     cost_by_model := cost_by_model c; cost_by_day := cost_by_day c;
     token_usage := token_usage c;
     input_token_cost := Some v;
     output_token_cost := output_token_cost c |}.

Definition set_output_token_cost (v : R) (c : cost_analysis) : cost_analysis :=
  {| total_estimated_cost := total_estimated_cost c;
     cost_by_model := cost_by_model c; cost_by_day := cost_by_day c;
     token_usage := token_usage c;
     input_token_cost := input_token_cost c;
     output_token_cost := Some v |}.

(** The [try] block of [generate_cost_analysis], on the local
    [cost_analysis]. *)
Definition generate_cost_analysis_try (cw : cloudwatch) (start_time end_time : Z)
    : M cost_analysis unit :=
  metrics <- call (collect_usage_metrics cw start_time end_time) ;;
  modify (set_input_tokens (total_input_tokens metrics)) ;;
  modify (set_output_tokens (total_output_tokens metrics)) ;;
  avg_input_price <- eval (Py.mean (map (fun p => input (snd p)) model_pricing)) ;;
  avg_output_price <- eval (Py.mean (map (fun p => output (snd p)) model_pricing)) ;;
  let input_cost := total_input_tokens metrics * avg_input_price in
  let output_cost := total_output_tokens metrics * avg_output_price in
  modify (set_total_estimated_cost (input_cost + output_cost)) ;;
  modify (set_input_token_cost input_cost) ;;
  modify (set_output_token_cost output_cost).

(** [generate_cost_analysis], on the reading of the clock. *)
Definition generate_cost_analysis (cw : cloudwatch) (days_back utcnow : Z)
    : cost_analysis * list log_record :=
  let end_time := utcnow in
  let start_time := (end_time - days days_back)%Z in
  match
    try_except (generate_cost_analysis_try cw start_time end_time)
      (fun e => logger ERROR ("Error generating cost analysis: " ++ Py.str e)%string)
      cost_analysis_init
  with
  | (_, c, l) => (c, l)
  end.

(** ** The range of dates

    A [datetime] lies between [datetime.min], 0001-01-01 00:00:00, and
    [datetime.max], 9999-12-31 23:59:59.999999, and a [timedelta] holds at
    most 999999999 days; arithmetic that leaves these bounds raises
    [OverflowError]. The epoch is 1970-01-01 00:00:00. The monitor only
    steps back by hours and by a week; the reporter steps back by
    [days_back] days, a parameter, and catches what that raises. *)

Definition datetime_min : Z := (-62135596800000000)%Z.
Definition datetime_max : Z := 253402300799999999%Z.

(** What the [try] blocks of the reporter catch. *)
Inductive exception : Type :=
| Builtin (e : Py.exn)
| OverflowError.

Definition and_then {A B : Type} (r : exception + A) (f : A -> exception + B)
    : exception + B :=
  match r with
  | inl e => inl e
  | inr a => f a
  end.

(** [timedelta(days=n)] *)
Definition timedelta_days (n : Z) : exception + Z :=
  if (Z.abs n <=? 999999999)%Z then inr (days n) else inl OverflowError.

(** [t + delta] and [t - delta], on a [datetime] and a [timedelta]. *)
Definition datetime_add (t delta : Z) : exception + Z :=
  if ((datetime_min <=? t + delta) && (t + delta <=? datetime_max))%Z
  then inr (t + delta)%Z
  else inl OverflowError.

Definition datetime_sub (t delta : Z) : exception + Z := datetime_add t (- delta).

(** ** The trends of the reporter *)

(** [day_start] and [day_end] in iteration [i] of [_calculate_error_trend],
    on the reading [now] of the clock. *)
Definition day_window (now : Z) (i : nat) : exception + (Z * Z) :=
  and_then (timedelta_days (Z.of_nat i + 1)) (fun delta =>
  and_then (datetime_sub now delta) (fun day_start =>
  and_then (timedelta_days 1) (fun one_day =>
  and_then (datetime_add day_start one_day) (fun day_end =>
  inr (day_start, day_end))))).

(** The loop of [_calculate_error_trend] over the iterations that are left:
    [daily_error_rates] at its end, or the exception that ends it, and the
    records logged. [utcnow i] is the reading of the clock in iteration
    [i]. *)
Fixpoint daily_error_rates_loop (cw : cloudwatch) (utcnow : nat -> Z)
    (iterations : list nat) (daily_error_rates : list R)
    : (exception + list R) * list log_record :=
  match iterations with
  | [] => (inr daily_error_rates, [])
  | i :: rest =>
      match day_window (utcnow i) i with
      | inl e => (inl e, [])
      | inr (day_start, day_end) =>
          let (daily_metrics, l) := collect_usage_metrics cw day_start day_end in
          if Py.gtb (total_invocations daily_metrics) 0
          then
            match Py.div (total_errors daily_metrics) (total_invocations daily_metrics) with
            | inl e => (inl (Builtin e), l)
            | inr q =>
                let (r, l') :=
                  daily_error_rates_loop cw utcnow rest (daily_error_rates ++ [q * 100]) in
                (r, l ++ l')
            end
          else
            let (r, l') := daily_error_rates_loop cw utcnow rest daily_error_rates in
            (r, l ++ l')
      end
  end.

(** [BedrockReporter._calculate_error_trend] *)
Definition _calculate_error_trend (cw : cloudwatch) (utcnow : nat -> Z)
    (days_back : Z) : string * list log_record :=
  match daily_error_rates_loop cw utcnow (seq 0 (Z.to_nat days_back)) [] with
  | (inl _, l) => ("Unknown", l)
  | (inr daily_error_rates, l) =>
      (if (2 <=? length daily_error_rates)%nat
       then
         if Py.gtb (nth 0 daily_error_rates 0) (last daily_error_rates 0)
         then "Improving"
         else if Py.gtb (last daily_error_rates 0) (nth 0 daily_error_rates 0)
         then "Worsening"
         else "Stable"
       else "Insufficient Data",
       l)
  end.

(** The day that iteration [i] asks for when no date leaves the range: it
    starts [i + 1] days before the reading of the clock. *)
Definition day_of (utcnow : nat -> Z) (i : nat) : Z * Z :=
  let day_start := (utcnow i - days (Z.of_nat i + 1))%Z in
  (day_start, (day_start + days 1)%Z).

Definition day_windows (utcnow : nat -> Z) (days_back : Z) : list (Z * Z) :=
  map (day_of utcnow) (seq 0 (Z.to_nat days_back)).

(** A call of [generate_cost_analysis], as its caller sees it. The line
    [start_time = end_time - timedelta(days=days_back)] stands before the
    [try] of the method, so what it raises reaches the caller; where it does
    not raise, the method goes on as [generate_cost_analysis] describes. *)
Definition generate_cost_analysis_call (cw : cloudwatch) (days_back utcnow : Z)
    : exception + cost_analysis * list log_record :=
  and_then (timedelta_days days_back) (fun delta =>
  and_then (datetime_sub utcnow delta) (fun _ =>
  inr (generate_cost_analysis cw days_back utcnow))).

(** [BedrockReporter._calculate_cost_trend], on the readings of the clock of
    its two [generate_cost_analysis] calls. *)
Definition _calculate_cost_trend (cw : cloudwatch) (utcnow_1 utcnow_2 : Z)
    (days_back : Z) : string * list log_record :=
  match generate_cost_analysis_call cw days_back utcnow_1 with
  | inl _ => ("Unknown", [])
  | inr current_cost =>
      match generate_cost_analysis_call cw (days_back * 2)%Z utcnow_2 with
      | inl _ => ("Unknown", snd current_cost)
      | inr previous_cost =>
          let current_total := total_estimated_cost (fst current_cost) in
          let previous_total := total_estimated_cost (fst previous_cost) / 2 in
          (if Py.gtb previous_total 0
           then
             match Py.div (current_total - previous_total) previous_total with
             | inl _ => "Unknown"
             | inr q =>
                 let change := q * 100 in
                 if Py.gtb change 10 then "Increasing"
                 else if Py.gtb (-10) change then "Decreasing"
                 else "Stable"
             end
           else "Insufficient Data",
           snd current_cost ++ snd previous_cost)
      end
  end.

(** The start of the period of a [generate_cost_analysis] call is a date. *)
Definition period_in_range (utcnow days_back : Z) : Prop :=
  (Z.abs days_back <= 999999999
   /\ datetime_min <= utcnow - days days_back <= datetime_max)%Z.

(** ** User behaviour *)

(** A dictionary with string keys, as its items in the order of insertion. *)
Definition dict (V : Type) : Type := list (string * V).

(** [d[k] = v] *)
Fixpoint dict_set {V : Type} (k : string) (v : V) (d : dict V) : dict V :=
  match d with
  | [] => [(k, v)]
  | (k', v') :: rest =>
      if String.eqb k k' then (k, v) :: rest else (k', v') :: dict_set k v rest
  end.

(** The value under [k], if the key is there. *)
Fixpoint dict_find {V : Type} (k : string) (d : dict V) : option V :=
  match d with
  | [] => None
  | (k', v') :: rest => if String.eqb k k' then Some v' else dict_find k rest
  end.

(** [d.get(k, default)] *)
Definition dict_get {V : Type} (k : string) (default : V) (d : dict V) : V :=
  match dict_find k d with
  | Some v => v
  | None => default
  end.

(** [sum(d.values())] *)
Definition values_total (d : dict Z) : Z := fold_right Z.add 0%Z (map snd d).

(** [s.add(x)], a set as the list of its elements. *)
Definition set_add (x : string) (s : list string) : list string :=
  if existsb (String.eqb x) s then s else s ++ [x].

(** A row of [result['results']]: its items, [field] and [value]. *)
Definition result_row : Type := list (string * string).

(** What [logs_client.get_query_results] answers to a poll: the results of a
    complete query, a failed query, any other status, or an exception. *)
Inductive query_poll : Type :=
| QueryComplete (results : list result_row)
| QueryFailed
| QueryPending
| PollRaises (msg : string).

(** What [logs_client.start_query] does: the [queryId] or an exception. *)
Inductive start_outcome : Type :=
| Started (queryId : string)
| StartRaises (msg : string).

(** The CloudWatch Logs client: [start_query] on logGroupName, startTime,
    endTime and queryString, and the answer to the [n]-th
    [get_query_results] for a queryId. *)
Record logs : Type := {
  start_query : string -> Z -> Z -> string -> start_outcome;
  get_query_results : nat -> string -> query_poll
}.

Module Behavior.

(** The [user_behavior] dictionary that [analyze_user_behavior] returns when
    it succeeds. *)
Record t : Type := {
  top_users : list (dict string);
  model_preferences : dict Z;
  unique_users : nat;
  total_requests : Z
}.

(** The same while the rows are read: [unique_users] is still the set. *)
Record building : Type := {
  rows_read : list (dict string);
  preferences : dict Z;
  users : list string;
  requests : Z
}.

End Behavior.

Section UserBehavior.

Variable logs_client : logs.

(** [int(s)] on a string: the integer, or the message of the [ValueError]. *)
Variable int : string -> string + Z.

(** [{item['field']: item['value'] for item in result_row}] *)
Definition row_data_of (row : result_row) : dict string :=
  fold_left (fun d item => dict_set (fst item) (snd item) d) row [].

(** [int(row_data.get('requestCount', 0))] *)
Definition request_count (row_data : dict string) : string + Z :=
  match dict_find "requestCount" row_data with
  | Some s => int s
  | None => inr 0%Z
  end.

(** The loop over the rows; it stops at the first [ValueError]. *)
Fixpoint process_rows (rows : list result_row) (b : Behavior.building)
    : string + Behavior.building :=
  match rows with
  | [] => inr b
  | result_row :: rest =>
      let row_data := row_data_of result_row in
      let user := dict_get "userIdentity.userName" "unknown" row_data in
      let model := dict_get "requestParameters.modelId" "unknown" row_data in
      match request_count row_data with
      | inl msg => inl msg
      | inr count =>
          process_rows rest
            {| Behavior.rows_read := Behavior.rows_read b ++ [row_data];
               Behavior.preferences :=
                 dict_set model
                   (dict_get model 0 (Behavior.preferences b) + count)%Z
                   (Behavior.preferences b);
               Behavior.users := set_add user (Behavior.users b);
               Behavior.requests := (Behavior.requests b + count)%Z |}
      end
  end.

(** The polling loop: the first answer, from poll [n] on, that is not a
    pending status, if it comes within [fuel] polls. *)
Fixpoint wait_for_results (query_id : string) (fuel n : nat) : option query_poll :=
  match fuel with
  | O => None
  | S fuel' =>
      match get_query_results logs_client n query_id with
      | QueryPending => wait_for_results query_id fuel' (S n)
      | answer => Some answer
      end
  end.

(** The query of [analyze_user_behavior], a string of six lines. *)
Definition insights_query : string :=
  (newline
   ++ "        fields @timestamp, userIdentity.userName, eventName, sourceIPAddress, requestParameters.modelId"
   ++ newline
   ++ "        | filter eventName like /Bedrock/"
   ++ newline
   ++ "        | stats count() as requestCount by userIdentity.userName, requestParameters.modelId"
   ++ newline
   ++ "        | sort requestCount desc"
   ++ newline
   ++ "        ")%string.

(** [int(t.timestamp())], for a clock in UTC. *)
Definition timestamp_seconds (t : Z) : Z := Z.quot t 1000000.

(** [analyze_user_behavior], on the reading of the clock. The method polls
    without a limit; [fuel] bounds the polls that the model follows, and the
    result is [None] when the query is still pending after them. Otherwise it
    is the dictionary returned ([None] for the empty one) and the records
    logged. *)
Definition analyze_user_behavior (environment : string) (utcnow hours_back : Z)
    (fuel : nat) : option (option Behavior.t * list log_record) :=
  let end_time := utcnow in
  let start_time := (end_time - hours hours_back)%Z in
  let log_group_name := ("/aws/bedrock/application-logs/" ++ environment)%string in
  match
    start_query logs_client log_group_name (timestamp_seconds start_time)
      (timestamp_seconds end_time) insights_query
  with
  | StartRaises msg =>
      Some (None, [(ERROR, ("Error analyzing user behavior: " ++ msg)%string)])
  | Started query_id =>
      match wait_for_results query_id fuel 0 with
      | None => None
      | Some QueryPending => None
      | Some QueryFailed => Some (None, [(ERROR, "CloudWatch Insights query failed")])
      | Some (PollRaises msg) =>
          Some (None, [(ERROR, ("Error analyzing user behavior: " ++ msg)%string)])
      | Some (QueryComplete results) =>
          match
            process_rows results
              {| Behavior.rows_read := []; Behavior.preferences := [];
                 Behavior.users := []; Behavior.requests := 0 |}
          with
          | inl msg =>
              Some (None, [(ERROR, ("Error analyzing user behavior: " ++ msg)%string)])
          | inr b =>
              Some (Some {| Behavior.top_users := Behavior.rows_read b;
                            Behavior.model_preferences := Behavior.preferences b;
                            Behavior.unique_users := length (Behavior.users b);
                            Behavior.total_requests := Behavior.requests b |},
                    [])
          end
      end
  end.

End UserBehavior.

(** ** Recommendations *)

(** [BedrockReporter._generate_recommendations]. [user_behavior] is [None]
    for the empty dictionary. *)
Definition _generate_recommendations (metrics : metrics)
    (user_behavior : option Behavior.t) (cost_analysis : cost_analysis)
    : list string :=
  let recommendations :=
    (if Py.gtb 95 (match success_rate metrics with Some rate => rate | None => 100 end)
     then ["Investigate error patterns - success rate below 95%"] else [])
    ++ (if Py.gtb (total_invocations metrics) 10000
        then ["Consider implementing caching to reduce API calls"] else [])
    ++ (if Py.gtb (total_estimated_cost cost_analysis) 1000
        then ["Review token usage patterns for cost optimization opportunities"]
        else [])
    ++ (let model_prefs :=
          match user_behavior with
          | Some b => Behavior.model_preferences b
          | None => []
          end in
        if (length model_prefs =? 1)%nat
        then ["Consider diversifying model usage for better resilience"] else [])
    ++ (if Py.gtb (avg_duration metrics) 30000
        then ["Investigate high response times - consider request optimization"]
        else []) in
  match recommendations with
  | [] => ["System performing well - continue monitoring"]
  | _ => recommendations
  end.

(** ** Inputs for the examples *)

(** Yesterday half of the requests failed, the day before a tenth. *)
Definition worse_yesterday : cloudwatch :=
  source (fun _ => [100])
         (fun s => if (s =? days 9)%Z then [50] else [10]).

(** A clock that reads the tenth day. *)
Definition day_ten : nat -> Z := fun _ => days 10.

(** A thousand input tokens and a thousand output tokens in every window. *)
Definition steady_tokens : cloudwatch :=
  fun _ metric_name _ _ _ _ =>
    if String.eqb metric_name "InputTokens" then Datapoints [1000]
    else if String.eqb metric_name "OutputTokens" then Datapoints [1000]
    else Datapoints [].

(** A Logs client whose queries stay in a pending status for ever. *)
Definition logs_pending : logs :=
  {| start_query := fun _ _ _ _ => Started "q-1";
     get_query_results := fun _ _ => QueryPending |}.

(** A Logs client that completes at the third poll with the given rows. *)
Definition logs_with (rows : list result_row) : logs :=
  {| start_query := fun _ _ _ _ => Started "q-1";
     get_query_results :=
       fun n _ => if (n <? 2)%nat then QueryPending else QueryComplete rows |}.

(** An [int] that reads the three counts of the example and rejects every
    other string. *)
Definition int_of_example (s : string) : string + Z :=
  if String.eqb s "3" then inr 3%Z
  else if String.eqb s "4" then inr 4%Z
  else if String.eqb s "5" then inr 5%Z
  else inl ("invalid literal for int() with base 10: " ++ s)%string.

(** Rows of two users and two models, and the same with a count that is not
    a number. *)
Definition example_rows : list result_row :=
  [ [("userIdentity.userName", "ana"); ("requestParameters.modelId", "claude");
     ("requestCount", "3")];
    [("userIdentity.userName", "ana"); ("requestParameters.modelId", "titan");
     ("requestCount", "4")];
    [("userIdentity.userName", "bo"); ("requestParameters.modelId", "claude");
     ("requestCount", "5")] ].

Definition broken_rows : list result_row :=
  example_rows ++ [[("userIdentity.userName", "cy"); ("requestCount", "many")]].

(** ** The built-ins *)

Lemma gtb_true (x y : R) : Py.gtb x y = true <-> x > y.
Proof.
  unfold Py.gtb. destruct (Rlt_dec y x) as [H | H]; split; intros H'.
  - exact H.
  - reflexivity.
  - discriminate.
  - contradiction.
Qed.

Lemma gtb_false (x y : R) : Py.gtb x y = false <-> x <= y.
Proof.
  unfold Py.gtb. destruct (Rlt_dec y x) as [H | H]; split; intros H'.
  - discriminate.
  - lra.
  - lra.
  - reflexivity.
Qed.

Lemma div_positive (x y : R) : Py.gtb y 0 = true -> Py.div x y = inr (x / y).
Proof.
  intros H%gtb_true. unfold Py.div. destruct (Req_dec_T y 0) as [E | E].
  - lra.
  - reflexivity.
Qed.

Lemma mean_defined (xs : list R) :
  (1 <= length xs)%nat -> Py.mean xs = inr (mean_of xs).
Proof.
  destruct xs as [| x xs]; simpl; intros H.
  - lia.
  - reflexivity.
Qed.

Lemma stdev_defined (xs : list R) :
  (2 <= length xs)%nat -> Py.stdev xs = inr (stdev_of xs).
Proof.
  intros H. unfold Py.stdev.
  destruct (Nat.ltb_spec (length xs) 2) as [L | L].
  - lia.
  - reflexivity.
Qed.

(** ** The two loops *)

Section Loops.

Variable cw : cloudwatch.

Lemma collect_baseline_run (S : Type) (windows : list (Z * Z)) :
  forall (acc : list R) (s : S),
    collect_baseline cw windows acc s
    = (inr (acc ++ map (fun w => total_invocations (window_metrics cw w)) windows),
       s, flat_map (window_log cw) windows).
Proof.
  induction windows as [| [c n] rest IH]; intros acc s; simpl.
  - unfold ret. now rewrite app_nil_r.
  - unfold bind at 1, call at 1. rewrite IH, <- app_assoc. reflexivity.
Qed.

Lemma collect_error_rates_run (S : Type) (windows : list (Z * Z)) :
  forall (acc : list R) (s : S),
    collect_error_rates cw windows acc s
    = (inr (acc ++ error_rates (map (window_metrics cw) windows)),
       s, flat_map (window_log cw) windows).
Proof.
  induction windows as [| [c n] rest IH]; intros acc s; simpl.
  - unfold ret. now rewrite app_nil_r.
  - unfold bind at 1, call at 1, window_metrics, window_log. simpl fst. simpl snd.
    destruct (Py.gtb (total_invocations (fst (collect_usage_metrics cw c n))) 0) eqn:G.
    + unfold bind at 1, eval. rewrite (div_positive _ _ G), IH, <- app_assoc.
      reflexivity.
    + rewrite IH. reflexivity.
Qed.

End Loops.
(** ** The collection of a window *)

Section Collection.

Variable cw : cloudwatch.
Variables start_time end_time : Z.

Let fetched (metric_name statistic : string) : list R :=
  fst (_get_cloudwatch_metric cw "AWS/Bedrock" metric_name start_time end_time statistic).
Let logged (metric_name statistic : string) : list log_record :=
  snd (_get_cloudwatch_metric cw "AWS/Bedrock" metric_name start_time end_time statistic).

(** The [try] block of [collect_usage_metrics] runs to its end, whatever
    CloudWatch answers. *)
Lemma collect_usage_metrics_try_run :
  collect_usage_metrics_try cw start_time end_time metrics_init
  = (inr tt,
     {| total_invocations := Py.sum (fetched "Invocations" "Sum");
        total_errors := Py.sum (fetched "Errors" "Sum");
        total_input_tokens := Py.sum (fetched "InputTokens" "Sum");
        total_output_tokens := Py.sum (fetched "OutputTokens" "Sum");
        avg_duration :=
          match fetched "Duration" "Average" with
          | [] => 0
          | _ => mean_of (fetched "Duration" "Average")
          end;
        success_rate :=
          Some (if Py.gtb (Py.sum (fetched "Invocations" "Sum")) 0
                then (Py.sum (fetched "Invocations" "Sum")
                      - Py.sum (fetched "Errors" "Sum"))
                     / Py.sum (fetched "Invocations" "Sum") * 100
                else 0) |},
     logged "Invocations" "Sum" ++ logged "Errors" "Sum"
     ++ logged "InputTokens" "Sum" ++ logged "OutputTokens" "Sum"
     ++ logged "Duration" "Average").
Proof.
  unfold collect_usage_metrics_try, fetched, logged.
  destruct (_get_cloudwatch_metric cw "AWS/Bedrock" "Invocations" start_time end_time "Sum")
    as [i li].
  destruct (_get_cloudwatch_metric cw "AWS/Bedrock" "Errors" start_time end_time "Sum")
    as [e le].
  destruct (_get_cloudwatch_metric cw "AWS/Bedrock" "InputTokens" start_time end_time "Sum")
    as [it lit].
  destruct (_get_cloudwatch_metric cw "AWS/Bedrock" "OutputTokens" start_time end_time "Sum")
    as [ot lot].
  destruct (_get_cloudwatch_metric cw "AWS/Bedrock" "Duration" start_time end_time "Average")
    as [d ld].
  unfold bind, call, modify, get, ret, eval. cbn [fst snd].
  destruct d as [| d0 d]; cbn [Py.mean total_invocations total_errors
    set_total_invocations set_total_errors set_total_input_tokens
    set_total_output_tokens set_avg_duration metrics_init];
    (destruct (Py.gtb (Py.sum i) 0) eqn:G;
     [rewrite (div_positive _ _ G) |]);
    unfold set_success_rate; cbn; rewrite ?app_nil_r; reflexivity.
Qed.

Lemma collect_usage_metrics_run :
  collect_usage_metrics cw start_time end_time
  = (snd (fst (collect_usage_metrics_try cw start_time end_time metrics_init)),
     snd (collect_usage_metrics_try cw start_time end_time metrics_init)).
Proof.
  unfold collect_usage_metrics, try_except.
  now rewrite collect_usage_metrics_try_run.
Qed.

End Collection.
(** ** The checks *)

Section Checks.

Variable cw : cloudwatch.
Variable threshold_multiplier : R.
Variables start_time end_time utcnow : Z.

Let current_metrics : metrics := window_metrics cw (current_window utcnow).
Let current_hour_start : Z := fst (current_window utcnow).

Lemma check_error_rate_run (anomalies : list anomaly) :
  Py.gtb (total_invocations current_metrics) 0 = true ->
  check_error_rate cw threshold_multiplier start_time end_time current_hour_start
    current_metrics anomalies
  = (inr tt,
     anomalies ++ error_check threshold_multiplier
                    (baseline_error_rates_of cw start_time end_time)
                    current_metrics current_hour_start,
     flat_map (window_log cw) (error_windows start_time end_time)).
Proof.
  intros G. unfold check_error_rate.
  unfold bind at 1, eval at 1. rewrite (div_positive _ _ G).
  unfold bind at 1. rewrite collect_error_rates_run. cbn [app].
  fold (error_windows start_time end_time).
  fold (baseline_error_rates_of cw start_time end_time).
  fold (error_rate current_metrics).
  unfold error_check.
  destruct (baseline_error_rates_of cw start_time end_time) as [| r rates] eqn:E.
  - unfold ret. now rewrite !app_nil_r.
  - unfold bind at 1, eval at 1. rewrite mean_defined by (simpl; lia).
    unfold bind at 1.
    assert (D : (if (1 <? length (r :: rates))%nat
                 then eval (Py.stdev (r :: rates)) else ret 0) anomalies
                = (inr (if (1 <? length (r :: rates))%nat
                        then stdev_of (r :: rates) else 0), anomalies, [])).
    { destruct (Nat.ltb_spec 1 (length (r :: rates))) as [L | L].
      - unfold eval. now rewrite stdev_defined by lia.
      - reflexivity. }
    rewrite D. fold (error_threshold_of threshold_multiplier (r :: rates)).
    destruct (Py.gtb (error_rate current_metrics)
                (error_threshold_of threshold_multiplier (r :: rates))
              && Py.gtb (error_rate current_metrics) 5).
    + unfold modify, error_record. now rewrite !app_nil_r.
    + unfold ret. now rewrite !app_nil_r.
Qed.

(** The run on a baseline that is too short. *)
Lemma detect_anomalies_from_short (baseline_metrics : list R) :
  (length baseline_metrics < 24)%nat ->
  detect_anomalies_from cw threshold_multiplier start_time end_time utcnow
    baseline_metrics
  = ([], [(WARNING, "Insufficient data for anomaly detection")]).
Proof.
  intros H. unfold detect_anomalies_from, run_detection, detect_anomalies_checks.
  destruct (Nat.ltb_spec (length baseline_metrics) 24) as [L | L].
  - reflexivity.
  - lia.
Qed.

(** The run on a baseline that is long enough: both checks, no exception. *)
Lemma detect_anomalies_checks_run (baseline_metrics : list R) :
  (24 <= length baseline_metrics)%nat ->
  detect_anomalies_checks cw threshold_multiplier start_time end_time utcnow
    baseline_metrics []
  = (inr tt,
     usage_check threshold_multiplier baseline_metrics current_metrics
       current_hour_start
     ++ (if Py.gtb (total_invocations current_metrics) 0
         then error_check threshold_multiplier
                (baseline_error_rates_of cw start_time end_time)
                current_metrics current_hour_start
         else []),
     window_log cw (current_window utcnow)
     ++ (if Py.gtb (total_invocations current_metrics) 0
         then flat_map (window_log cw) (error_windows start_time end_time)
         else [])).
Proof.
  intros H. unfold detect_anomalies_checks.
  destruct (Nat.ltb_spec (length baseline_metrics) 24) as [L | L]; [lia |].
  unfold bind at 1, eval at 1. rewrite mean_defined by lia.
  unfold bind at 1, eval at 1. rewrite stdev_defined by lia.
  unfold bind at 1, call at 1.
  fold (usage_threshold threshold_multiplier baseline_metrics).
  change (fst (collect_usage_metrics cw (replace_minute_second_microsecond utcnow)
                 (replace_minute_second_microsecond utcnow + hours 1)%Z))
    with current_metrics.
  change (snd (collect_usage_metrics cw (replace_minute_second_microsecond utcnow)
                 (replace_minute_second_microsecond utcnow + hours 1)%Z))
    with (window_log cw (current_window utcnow)).
  change (replace_minute_second_microsecond utcnow) with current_hour_start.
  unfold bind at 1, usage_check.
  destruct (Py.gtb (total_invocations current_metrics)
              (usage_threshold threshold_multiplier baseline_metrics)) eqn:U;
    [unfold modify at 1 | unfold ret at 1];
    (destruct (Py.gtb (total_invocations current_metrics) 0) eqn:G;
     [rewrite (check_error_rate_run _ G) | unfold ret]);
    simpl; now rewrite ?app_nil_r.
Qed.

Lemma detect_anomalies_from_long (baseline_metrics : list R) :
  (24 <= length baseline_metrics)%nat ->
  detect_anomalies_from cw threshold_multiplier start_time end_time utcnow
    baseline_metrics
  = (usage_check threshold_multiplier baseline_metrics current_metrics
       current_hour_start
     ++ (if Py.gtb (total_invocations current_metrics) 0
         then error_check threshold_multiplier
                (baseline_error_rates_of cw start_time end_time)
                current_metrics current_hour_start
         else []),
     window_log cw (current_window utcnow)
     ++ (if Py.gtb (total_invocations current_metrics) 0
         then flat_map (window_log cw) (error_windows start_time end_time)
         else [])).
Proof.
  intros H. unfold detect_anomalies_from, run_detection, try_except.
  now rewrite detect_anomalies_checks_run.
Qed.

End Checks.
(** ** The windows *)

Lemma hourly_windows_lt (current_time end_time : Z) :
  (current_time < end_time)%Z ->
  hourly_windows current_time end_time
  = (current_time, (current_time + hours 1)%Z)
      :: hourly_windows (current_time + hours 1)%Z end_time.
Proof.
  intros H. rewrite hourly_windows_equation_1.
  destruct (Z_lt_dec current_time end_time) as [L | L].
  - reflexivity.
  - contradiction.
Qed.

Lemma hourly_windows_ge (current_time end_time : Z) :
  (end_time <= current_time)%Z -> hourly_windows current_time end_time = [].
Proof.
  intros H. rewrite hourly_windows_equation_1.
  destruct (Z_lt_dec current_time end_time) as [L | L].
  - lia.
  - reflexivity.
Qed.

(** A span of [n] whole hours is cut into [n] windows, one per hour. *)
Lemma hourly_windows_whole (n : nat) :
  forall current_time : Z,
    hourly_windows current_time (current_time + hours (Z.of_nat n))%Z
    = map (fun i : nat =>
             ((current_time + hours (Z.of_nat i))%Z,
              (current_time + hours (Z.of_nat (S i)))%Z))
          (seq 0 n).
Proof.
  induction n as [| n IH]; intros c.
  - apply hourly_windows_ge. unfold hours. lia.
  - rewrite hourly_windows_lt by (unfold hours; lia).
    replace (c + hours (Z.of_nat (S n)))%Z
      with ((c + hours 1) + hours (Z.of_nat n))%Z by (unfold hours; lia).
    rewrite IH. cbn [seq map]. f_equal.
    + f_equal; unfold hours; lia.
    + rewrite <- seq_shift, map_map. apply map_ext. intros i.
      f_equal; unfold hours; lia.
Qed.

Lemma baseline_windows_whole (utcnow_1 : Z) :
  baseline_windows utcnow_1
  = map (fun i : nat =>
           ((utcnow_1 - days 7 + hours (Z.of_nat i))%Z,
            (utcnow_1 - days 7 + hours (Z.of_nat (S i)))%Z))
        (seq 0 168).
Proof.
  unfold baseline_windows. rewrite <- hourly_windows_whole. f_equal.
  unfold days, hours. lia.
Qed.

Lemma error_windows_whole (utcnow_1 : Z) :
  error_windows (utcnow_1 - days 7)%Z utcnow_1
  = map (fun i : nat =>
           ((utcnow_1 - days 7 + hours (Z.of_nat i))%Z,
            (utcnow_1 - days 7 + hours (Z.of_nat (S i)))%Z))
        (seq 0 167).
Proof.
  unfold error_windows. rewrite <- hourly_windows_whole. f_equal.
  unfold days, hours. lia.
Qed.

(** The first loop of [detect_anomalies] always gathers 168 samples. *)
Lemma baseline_metrics_length (cw : cloudwatch) (utcnow_1 : Z) :
  length (baseline_metrics_of cw utcnow_1) = 168%nat.
Proof.
  unfold baseline_metrics_of.
  now rewrite baseline_windows_whole, !length_map, length_seq.
Qed.

(** The windows of the second loop are among those of the first. *)
Lemma hourly_windows_incl (n : nat) :
  forall (current_time end_1 end_2 : Z) (w : Z * Z),
    (Z.to_nat (end_1 - current_time) <= n)%nat ->
    (end_1 <= end_2)%Z ->
    In w (hourly_windows current_time end_1) ->
    In w (hourly_windows current_time end_2).
Proof.
  induction n as [| n IH]; intros c e1 e2 w Hn He Hin.
  - rewrite hourly_windows_ge in Hin by lia. contradiction.
  - destruct (Z_lt_dec c e1) as [L | L].
    + rewrite hourly_windows_lt in Hin by exact L.
      rewrite hourly_windows_lt by lia.
      destruct Hin as [Hin | Hin].
      * left. exact Hin.
      * right. apply (IH _ e1); [unfold hours; lia | exact He | exact Hin].
    + rewrite hourly_windows_ge in Hin by lia. contradiction.
Qed.

Lemma error_windows_incl (utcnow_1 : Z) (w : Z * Z) :
  In w (error_windows (utcnow_1 - days 7)%Z utcnow_1) ->
  In w (baseline_windows utcnow_1).
Proof.
  unfold error_windows, baseline_windows.
  apply (hourly_windows_incl _ _ _ _ _ (Nat.le_refl _)).
  unfold hours. lia.
Qed.

(** ** The whole run *)

Lemma detect_anomalies_unfold (cw : cloudwatch) (threshold_multiplier : R)
    (utcnow_1 utcnow_2 : Z) :
  detect_anomalies cw threshold_multiplier utcnow_1 utcnow_2
  = (fst (detect_anomalies_from cw threshold_multiplier (utcnow_1 - days 7)%Z
            utcnow_1 utcnow_2 (baseline_metrics_of cw utcnow_1)),
     flat_map (window_log cw) (baseline_windows utcnow_1)
     ++ snd (detect_anomalies_from cw threshold_multiplier (utcnow_1 - days 7)%Z
               utcnow_1 utcnow_2 (baseline_metrics_of cw utcnow_1))).
Proof.
  unfold detect_anomalies, detect_anomalies_from, run_detection, try_except,
    detect_anomalies_try.
  unfold bind at 1. rewrite collect_baseline_run. cbn [app].
  fold (baseline_windows utcnow_1). fold (baseline_metrics_of cw utcnow_1).
  destruct (detect_anomalies_checks cw threshold_multiplier (utcnow_1 - days 7)
              utcnow_1 utcnow_2 (baseline_metrics_of cw utcnow_1) [])
    as [[[e | []] anomalies] l]; simpl.
  - now rewrite app_assoc.
  - reflexivity.
Qed.

Lemma detect_anomalies_anomalies (cw : cloudwatch) (threshold_multiplier : R)
    (utcnow_1 utcnow_2 : Z) :
  fst (detect_anomalies cw threshold_multiplier utcnow_1 utcnow_2)
  = fst (detect_anomalies_from cw threshold_multiplier (utcnow_1 - days 7)%Z
           utcnow_1 utcnow_2 (baseline_metrics_of cw utcnow_1)).
Proof. now rewrite detect_anomalies_unfold. Qed.

(** The anomalies of a run are those of the checks on its 168 samples. *)
Lemma detect_anomalies_result (cw : cloudwatch) (threshold_multiplier : R)
    (utcnow_1 utcnow_2 : Z) :
  fst (detect_anomalies cw threshold_multiplier utcnow_1 utcnow_2)
  = usage_check threshold_multiplier (baseline_metrics_of cw utcnow_1)
      (window_metrics cw (current_window utcnow_2)) (fst (current_window utcnow_2))
    ++ (if Py.gtb (total_invocations (window_metrics cw (current_window utcnow_2))) 0
        then error_check threshold_multiplier
               (baseline_error_rates_of cw (utcnow_1 - days 7)%Z utcnow_1)
               (window_metrics cw (current_window utcnow_2))
               (fst (current_window utcnow_2))
        else []).
Proof.
  rewrite detect_anomalies_unfold. cbn [fst].
  rewrite detect_anomalies_from_long by (rewrite baseline_metrics_length; lia).
  reflexivity.
Qed.
(** ** The example sources *)

Lemma source_metrics (invocations errors : Z -> list R) (w : Z * Z) :
  total_invocations (window_metrics (source invocations errors) w)
  = Py.sum (invocations (fst w))
  /\ total_errors (window_metrics (source invocations errors) w)
     = Py.sum (errors (fst w))
  /\ window_log (source invocations errors) w = [].
Proof.
  unfold window_metrics, window_log.
  rewrite collect_usage_metrics_run, collect_usage_metrics_try_run.
  repeat split.
Qed.

Lemma silent_metrics (w : Z * Z) :
  total_invocations (window_metrics silent w) = 0
  /\ total_errors (window_metrics silent w) = 0
  /\ window_log silent w = [].
Proof.
  unfold window_metrics, window_log.
  rewrite collect_usage_metrics_run, collect_usage_metrics_try_run.
  repeat split.
Qed.

Lemma sum_one (x : R) : Py.sum [x] = x.
Proof. unfold Py.sum. simpl. lra. Qed.

Lemma sum_none : Py.sum [] = 0.
Proof. reflexivity. Qed.

Lemma flat_map_nil (A B : Type) (f : A -> list B) (l : list A) :
  (forall x, In x l -> f x = []) -> flat_map f l = [].
Proof.
  induction l as [| x l IH]; intros H; simpl.
  - reflexivity.
  - rewrite (H x) by now left. apply IH. intros y Hy. apply H. now right.
Qed.

Lemma sum_repeat (x : R) (n : nat) : Py.sum (repeat x n) = INR n * x.
Proof.
  unfold Py.sum.
  assert (G : forall a, fold_left Rplus (repeat x n) a = a + INR n * x).
  { induction n as [| n IH]; intros a.
    - simpl. lra.
    - cbn [repeat fold_left]. rewrite IH, S_INR. lra. }
  rewrite G. lra.
Qed.

Lemma mean_of_repeat (x : R) (n : nat) : (0 < n)%nat -> mean_of (repeat x n) = x.
Proof.
  intros H. unfold mean_of. rewrite sum_repeat, repeat_length.
  assert (INR n <> 0) by (apply not_0_INR; lia). field. assumption.
Qed.

Lemma stdev_of_repeat (x : R) (n : nat) : (0 < n)%nat -> stdev_of (repeat x n) = 0.
Proof.
  intros H. unfold stdev_of. rewrite (mean_of_repeat x n H), map_repeat.
  replace ((x - x) * (x - x)) with 0 by lra.
  rewrite sum_repeat, Rmult_0_r. unfold Rdiv. rewrite Rmult_0_l. apply sqrt_0.
Qed.

Lemma usage_threshold_repeat (k x : R) (n : nat) :
  (0 < n)%nat -> usage_threshold k (repeat x n) = x.
Proof.
  intros H. unfold usage_threshold.
  rewrite (mean_of_repeat x n H), (stdev_of_repeat x n H). lra.
Qed.
(** ** What the checks append *)

Section Appended.

Variables (k : R) (series : list R) (m : metrics) (stamp : Z).

Lemma in_usage_check (a : anomaly) :
  In a (usage_check k series m stamp) ->
  a = usage_record k series m stamp
  /\ total_invocations m > usage_threshold k series.
Proof.
  unfold usage_check.
  destruct (Py.gtb (total_invocations m) (usage_threshold k series)) eqn:G;
    intros H.
  - destruct H as [H | []]. split; [now symmetry | now apply gtb_true].
  - contradiction.
Qed.

Lemma in_error_check (a : anomaly) :
  In a (error_check k series m stamp) ->
  a = error_record k series m stamp
  /\ (1 <= length series)%nat
  /\ error_rate m > error_threshold_of k series
  /\ error_rate m > 5.
Proof.
  unfold error_check. destruct series as [| r rates] eqn:E; [contradiction |].
  rewrite <- E.
  destruct (Py.gtb (error_rate m) (error_threshold_of k series)) eqn:G1;
    destruct (Py.gtb (error_rate m) 5) eqn:G2; simpl; intros H;
    try contradiction.
  destruct H as [H | []].
  repeat split; [now symmetry | subst series; simpl; lia | |];
    now apply gtb_true.
Qed.

Lemma usage_check_length : (length (usage_check k series m stamp) <= 1)%nat.
Proof.
  unfold usage_check.
  destruct (Py.gtb (total_invocations m) (usage_threshold k series)); simpl; lia.
Qed.

Lemma error_check_length : (length (error_check k series m stamp) <= 1)%nat.
Proof.
  unfold error_check. destruct series as [| r rates]; [simpl; lia |].
  destruct (Py.gtb (error_rate m) (error_threshold_of k (r :: rates))
            && Py.gtb (error_rate m) 5); simpl; lia.
Qed.

Lemma of_type_usage_check :
  of_type "high_usage" (usage_check k series m stamp) = usage_check k series m stamp
  /\ of_type "high_error_rate" (usage_check k series m stamp) = [].
Proof.
  unfold usage_check.
  destruct (Py.gtb (total_invocations m) (usage_threshold k series));
    split; reflexivity.
Qed.

Lemma of_type_error_check :
  of_type "high_usage" (error_check k series m stamp) = []
  /\ of_type "high_error_rate" (error_check k series m stamp)
     = error_check k series m stamp.
Proof.
  unfold error_check. destruct series as [| r rates]; [split; reflexivity |].
  destruct (Py.gtb (error_rate m) (error_threshold_of k (r :: rates))
            && Py.gtb (error_rate m) 5); split; reflexivity.
Qed.

Lemma severity_of_cases (value thr : R) :
  (severity_of value thr = "high" <-> value > thr * 1.5)
  /\ (severity_of value thr = "medium" <-> ~ value > thr * 1.5).
Proof.
  unfold severity_of. destruct (Py.gtb value (thr * 1.5)) eqn:G.
  - apply gtb_true in G. repeat split; intros H;
      try discriminate; try assumption; contradiction.
  - apply gtb_false in G. repeat split; intros H;
      try discriminate; try lra.
Qed.

End Appended.

Lemma of_type_app (t : string) (xs ys : list anomaly) :
  of_type t (xs ++ ys) = of_type t xs ++ of_type t ys.
Proof. apply filter_app. Qed.

(** The anomalies of a run from a given baseline, whatever its length. *)
Lemma detect_anomalies_from_cases (cw : cloudwatch) (k : R)
    (start_time end_time utcnow : Z) (baseline_metrics : list R) :
  let m := window_metrics cw (current_window utcnow) in
  let stamp := fst (current_window utcnow) in
  fst (detect_anomalies_from cw k start_time end_time utcnow baseline_metrics)
  = if (length baseline_metrics <? 24)%nat then []
    else usage_check k baseline_metrics m stamp
         ++ (if Py.gtb (total_invocations m) 0
             then error_check k (baseline_error_rates_of cw start_time end_time) m stamp
             else []).
Proof.
  intros m stamp.
  destruct (Nat.ltb_spec (length baseline_metrics) 24) as [L | L].
  - now rewrite detect_anomalies_from_short.
  - now rewrite detect_anomalies_from_long.
Qed.

Lemma well_formed_checks (k : R) (series rates : list R) (m : metrics)
    (stamp : Z) (b : bool) :
  well_formed (usage_check k series m stamp
               ++ (if b then error_check k rates m stamp else [])).
Proof.
  unfold well_formed.
  rewrite !of_type_app, !length_app.
  destruct (of_type_usage_check k series m stamp) as [U1 U2].
  rewrite U1, U2.
  pose proof (usage_check_length k series m stamp) as LU.
  assert (LE : (length (if b then error_check k rates m stamp else []) <= 1)%nat).
  { destruct b; [apply error_check_length | simpl; lia]. }
  assert (T : of_type "high_usage" (if b then error_check k rates m stamp else []) = []
              /\ of_type "high_error_rate" (if b then error_check k rates m stamp else [])
                 = (if b then error_check k rates m stamp else [])).
  { destruct b; [apply of_type_error_check | split; reflexivity]. }
  destruct T as [T1 T2]. rewrite T1, T2. simpl length.
  repeat split; try lia.
  - apply Forall_app. split.
    + apply Forall_forall. intros a [-> _]%in_usage_check. now left.
    + destruct b; [| constructor].
      apply Forall_forall. intros a [-> _]%in_error_check. now right.
  - apply Forall_app. split.
    + apply Forall_forall. intros a [-> _]%in_usage_check.
      unfold usage_record, severity_of; simpl.
      destruct (Py.gtb _ _); [now right | now left].
    + destruct b; [| constructor].
      apply Forall_forall. intros a [-> _]%in_error_check.
      unfold error_record, severity_of; simpl.
      destruct (Py.gtb _ _); [now right | now left].
Qed.
(** ** A week with one active hour *)

Lemma current_window_days_7 : current_window (days 7) = (hours 168, hours 169).
Proof. reflexivity. Qed.

Lemma quiet_week_current :
  total_invocations (window_metrics quiet_week (current_window (days 7))) = 10
  /\ total_errors (window_metrics quiet_week (current_window (days 7))) = 5.
Proof.
  rewrite current_window_days_7. unfold quiet_week.
  destruct (source_metrics
              (fun s => if (s =? 0)%Z || (s =? hours 168)%Z then [10] else [])
              (fun s => if (s =? hours 168)%Z then [5] else [])
              (hours 168, hours 169)) as (I & E & _).
  rewrite I, E. cbn [fst]. rewrite Z.eqb_refl, orb_true_r.
  split; apply sum_one.
Qed.

Lemma quiet_week_first_hour :
  total_invocations (window_metrics quiet_week (0%Z, hours 1)) = 10
  /\ total_errors (window_metrics quiet_week (0%Z, hours 1)) = 0.
Proof.
  unfold quiet_week.
  destruct (source_metrics
              (fun s => if (s =? 0)%Z || (s =? hours 168)%Z then [10] else [])
              (fun s => if (s =? hours 168)%Z then [5] else [])
              (0%Z, hours 1)) as (I & E & _).
  rewrite I, E. cbn [fst]. split; [apply sum_one | reflexivity].
Qed.

Lemma quiet_week_later_hours (i : nat) :
  (1 <= i < 167)%nat ->
  total_invocations
    (window_metrics quiet_week
       ((days 7 - days 7 + hours (Z.of_nat i))%Z,
        (days 7 - days 7 + hours (Z.of_nat (S i)))%Z)) = 0.
Proof.
  intros H. unfold quiet_week.
  match goal with
  | |- total_invocations (window_metrics (source ?f ?g) ?w) = _ =>
      destruct (source_metrics f g w) as (I & _ & _); rewrite I
  end.
  cbn [fst].
  replace ((days 7 - days 7 + hours (Z.of_nat i) =? 0)%Z) with false
    by (symmetry; apply Z.eqb_neq; unfold days, hours; lia).
  replace ((days 7 - days 7 + hours (Z.of_nat i) =? hours 168)%Z) with false
    by (symmetry; apply Z.eqb_neq; unfold days, hours; lia).
  reflexivity.
Qed.

Lemma gtb_0_0 : Py.gtb 0 0 = false.
Proof. apply gtb_false. lra. Qed.

Lemma gtb_10_0 : Py.gtb 10 0 = true.
Proof. apply gtb_true. lra. Qed.

(** Of the 167 windows of the second loop, only the first has invocations:
    the error-rate series has one sample. *)
Lemma quiet_week_error_rates :
  baseline_error_rates_of quiet_week (days 7 - days 7)%Z (days 7) = [0].
Proof.
  unfold baseline_error_rates_of. rewrite error_windows_whole.
  change (seq 0 167) with (0%nat :: seq 1 166).
  cbn [map]. unfold error_rates. cbn [flat_map].
  change ((days 7 - days 7 + hours (Z.of_nat 0))%Z) with 0%Z.
  change ((days 7 - days 7 + hours (Z.of_nat 1))%Z) with (hours 1).
  destruct quiet_week_first_hour as [I E].
  rewrite I, gtb_10_0. unfold error_rate at 1. rewrite I, E.
  rewrite flat_map_nil.
  - simpl. f_equal. lra.
  - intros m [w [<- [i [<- Hi%in_seq]]%in_map_iff]]%in_map_iff.
    rewrite quiet_week_later_hours by lia. now rewrite gtb_0_0.
Qed.

Lemma error_threshold_of_one (k x : R) : error_threshold_of k [x] = x.
Proof.
  unfold error_threshold_of, mean_of. rewrite sum_one. simpl. lra.
Qed.

Lemma quiet_week_error_check :
  error_check 2 [0] (window_metrics quiet_week (current_window (days 7)))
    (fst (current_window (days 7)))
  = [error_record 2 [0] (window_metrics quiet_week (current_window (days 7)))
       (fst (current_window (days 7)))].
Proof.
  destruct quiet_week_current as [I E].
  unfold error_check. rewrite error_threshold_of_one.
  unfold error_rate. rewrite I, E.
  replace (Py.gtb (5 / 10 * 100) 0) with true by (symmetry; apply gtb_true; lra).
  replace (Py.gtb (5 / 10 * 100) 5) with true by (symmetry; apply gtb_true; lra).
  reflexivity.
Qed.

Lemma quiet_week_anomaly :
  In (error_record 2 [0] (window_metrics quiet_week (current_window (days 7)))
        (fst (current_window (days 7))))
     (fst (detect_anomalies quiet_week 2 (days 7) (days 7))).
Proof.
  rewrite detect_anomalies_result. apply in_or_app. right.
  destruct quiet_week_current as [I _]. rewrite I, gtb_10_0.
  rewrite quiet_week_error_rates, quiet_week_error_check. now left.
Qed.

(** ** A steady week with a few errors in the current hour *)

Lemma two_percent_metrics (w : Z * Z) :
  total_invocations (window_metrics two_percent w) = 100
  /\ total_errors (window_metrics two_percent w)
     = if (fst w =? hours 168)%Z then 2 else 0.
Proof.
  unfold two_percent.
  match goal with
  | |- total_invocations (window_metrics (source ?f ?g) ?w) = _ /\ _ =>
      destruct (source_metrics f g w) as (I & E & _); rewrite I, E
  end.
  split; [apply sum_one |].
  destruct (fst w =? hours 168)%Z; [apply sum_one | reflexivity].
Qed.

Lemma two_percent_current :
  error_rate (window_metrics two_percent (current_window (days 7))) = 2.
Proof.
  rewrite current_window_days_7. unfold error_rate.
  destruct (two_percent_metrics (hours 168, hours 169)) as [I E].
  rewrite I, E. cbn [fst]. rewrite Z.eqb_refl. lra.
Qed.

Lemma error_rates_all_active (ms : list metrics) (x : R) :
  (forall m, In m ms -> Py.gtb (total_invocations m) 0 = true /\ error_rate m = x) ->
  error_rates ms = repeat x (length ms).
Proof.
  induction ms as [| m ms IH]; intros H.
  - reflexivity.
  - unfold error_rates. cbn [flat_map length repeat].
    destruct (H m (or_introl eq_refl)) as [G E]. rewrite G, E.
    cbn [app]. f_equal. apply IH. intros m' Hm'. apply H. now right.
Qed.

Lemma two_percent_error_rates :
  baseline_error_rates_of two_percent (days 7 - days 7)%Z (days 7) = repeat 0 167.
Proof.
  unfold baseline_error_rates_of. rewrite error_windows_whole.
  rewrite (error_rates_all_active _ 0).
  - now rewrite !length_map, length_seq.
  - intros m [w [<- [i [<- Hi%in_seq]]%in_map_iff]]%in_map_iff.
    match goal with
    | |- context [window_metrics two_percent ?w] =>
        destruct (two_percent_metrics w) as [I E]
    end.
    unfold error_rate. rewrite I, E. cbn [fst].
    replace ((days 7 - days 7 + hours (Z.of_nat i) =? hours 168)%Z) with false
      by (symmetry; apply Z.eqb_neq; unfold days, hours; lia).
    split; [apply gtb_true; lra | lra].
Qed.

Lemma error_threshold_of_repeat (k x : R) (n : nat) :
  (0 < n)%nat -> error_threshold_of k (repeat x n) = x.
Proof.
  intros H. unfold error_threshold_of.
  rewrite (mean_of_repeat x n H), (stdev_of_repeat x n H).
  destruct (1 <? length (repeat x n))%nat; lra.
Qed.

(** ** A flat baseline *)

Lemma ten_then_thirty_one_metrics (w : Z * Z) :
  total_invocations (window_metrics ten_then_thirty_one w)
  = if (fst w =? 0)%Z then 10 else 31.
Proof.
  unfold ten_then_thirty_one.
  match goal with
  | |- total_invocations (window_metrics (source ?f ?g) ?w) = _ =>
      destruct (source_metrics f g w) as (I & _ & _); rewrite I
  end.
  destruct (fst w =? 0)%Z; apply sum_one.
Qed.

(** On the baseline [[10]*24], a current hour of ten invocations is not
    flagged, by neither check. *)
Lemma flat_baseline_at_ten :
  fst (detect_anomalies_from ten_then_thirty_one 2 0 0 0 (repeat 10 24)) = [].
Proof.
  rewrite detect_anomalies_from_long by (rewrite repeat_length; lia).
  cbn [fst]. unfold usage_check.
  rewrite usage_threshold_repeat by lia.
  rewrite ten_then_thirty_one_metrics.
  change (fst (current_window 0) =? 0)%Z with true. cbv iota.
  replace (Py.gtb 10 10) with false by (symmetry; apply gtb_false; lra).
  rewrite gtb_10_0.
  unfold baseline_error_rates_of, error_windows.
  rewrite hourly_windows_ge by (unfold hours; lia).
  reflexivity.
Qed.

(** ** Error-rate checks that append nothing *)

Lemma error_check_low (k : R) (rates : list R) (m : metrics) (stamp : Z) :
  error_rate m <= 5 -> error_check k rates m stamp = [].
Proof.
  intros H%gtb_false. unfold error_check. destruct rates as [| r rates].
  - reflexivity.
  - now rewrite H, andb_false_r.
Qed.
(** ** What a run logs, and that it does not raise *)

Lemma get_cloudwatch_metric_log (cw : cloudwatch) (namespace metric_name : string)
    (start_time end_time : Z) (statistic : string) :
  Forall (fun r : log_record => fst r = ERROR)
    (snd (_get_cloudwatch_metric cw namespace metric_name start_time end_time statistic)).
Proof.
  unfold _get_cloudwatch_metric.
  destruct (cw namespace metric_name start_time end_time 300%Z statistic); simpl.
  - constructor.
  - constructor; [reflexivity | constructor].
Qed.

Lemma window_log_errors (cw : cloudwatch) (w : Z * Z) :
  Forall (fun r : log_record => fst r = ERROR) (window_log cw w).
Proof.
  unfold window_log.
  rewrite collect_usage_metrics_run, collect_usage_metrics_try_run. cbn [snd].
  repeat (apply Forall_app; split); apply get_cloudwatch_metric_log.
Qed.

Lemma windows_log_errors (cw : cloudwatch) (windows : list (Z * Z)) :
  Forall (fun r : log_record => fst r = ERROR) (flat_map (window_log cw) windows).
Proof.
  induction windows as [| w windows IH]; simpl.
  - constructor.
  - apply Forall_app. split; [apply window_log_errors | exact IH].
Qed.

(** The checks run to their end on every baseline. *)
Lemma detect_anomalies_checks_completes (cw : cloudwatch) (k : R)
    (start_time end_time utcnow : Z) (baseline_metrics : list R) :
  fst (fst (detect_anomalies_checks cw k start_time end_time utcnow
              baseline_metrics [])) = inr tt.
Proof.
  destruct (Nat.lt_ge_cases (length baseline_metrics) 24) as [L | L].
  - unfold detect_anomalies_checks.
    destruct (Nat.ltb_spec (length baseline_metrics) 24) as [L' | L'].
    + reflexivity.
    + lia.
  - now rewrite detect_anomalies_checks_run.
Qed.

(** So does the whole [try] block of [detect_anomalies]. *)
Lemma detect_anomalies_try_completes (cw : cloudwatch) (k : R) (utcnow_1 utcnow_2 : Z) :
  fst (fst (detect_anomalies_try cw k utcnow_1 utcnow_2 [])) = inr tt.
Proof.
  unfold detect_anomalies_try, bind. rewrite collect_baseline_run. cbn [app].
  fold (baseline_windows utcnow_1). fold (baseline_metrics_of cw utcnow_1).
  rewrite detect_anomalies_checks_run by (rewrite baseline_metrics_length; lia).
  reflexivity.
Qed.

(** ** Sources that answer alike *)

Lemma agree_on_collect (cw_1 cw_2 : cloudwatch) (w : Z * Z) :
  agree_on cw_1 cw_2 w ->
  collect_usage_metrics cw_1 (fst w) (snd w) = collect_usage_metrics cw_2 (fst w) (snd w).
Proof.
  intros H.
  assert (G : forall metric_name statistic : string,
            _get_cloudwatch_metric cw_1 "AWS/Bedrock" metric_name (fst w) (snd w) statistic
            = _get_cloudwatch_metric cw_2 "AWS/Bedrock" metric_name (fst w) (snd w) statistic).
  { intros metric_name statistic. unfold _get_cloudwatch_metric. now rewrite H. }
  unfold collect_usage_metrics, collect_usage_metrics_try.
  now rewrite (G "Invocations" "Sum"), (G "Errors" "Sum"), (G "InputTokens" "Sum"),
    (G "OutputTokens" "Sum"), (G "Duration" "Average").
Qed.

Lemma agree_on_window (cw_1 cw_2 : cloudwatch) (w : Z * Z) :
  agree_on cw_1 cw_2 w ->
  window_metrics cw_1 w = window_metrics cw_2 w
  /\ window_log cw_1 w = window_log cw_2 w.
Proof.
  intros H. unfold window_metrics, window_log.
  now rewrite (agree_on_collect _ _ _ H).
Qed.

Lemma flat_map_ext_in (A B : Type) (f g : A -> list B) (l : list A) :
  (forall x, In x l -> f x = g x) -> flat_map f l = flat_map g l.
Proof.
  intros H. rewrite !flat_map_concat_map. f_equal. now apply map_ext_in.
Qed.

(** ** An outage that ends with the current hour *)

Lemma outage_until_failed (t : Z) (w : Z * Z) :
  (fst w < t)%Z ->
  total_invocations (window_metrics (outage_until t) w) = 0.
Proof.
  intros H. unfold window_metrics.
  rewrite collect_usage_metrics_run, collect_usage_metrics_try_run.
  cbn [fst snd total_invocations]. unfold _get_cloudwatch_metric, outage_until.
  apply Z.ltb_lt in H. now rewrite H.
Qed.

Lemma outage_until_answered (t : Z) (w : Z * Z) :
  (t <= fst w)%Z ->
  total_invocations (window_metrics (outage_until t) w) = 5.
Proof.
  intros H. unfold window_metrics.
  rewrite collect_usage_metrics_run, collect_usage_metrics_try_run.
  cbn [fst snd total_invocations]. unfold _get_cloudwatch_metric, outage_until.
  apply Z.ltb_ge in H. rewrite H. apply sum_one.
Qed.

Lemma map_constant (A B : Type) (f : A -> B) (y : B) (l : list A) :
  (forall x, In x l -> f x = y) -> map f l = repeat y (length l).
Proof.
  induction l as [| x l IH]; intros H; simpl.
  - reflexivity.
  - rewrite (H x) by now left. f_equal. apply IH. intros z Hz. apply H. now right.
Qed.

Lemma outage_baseline :
  baseline_metrics_of (outage_until (hours 168)) (days 7) = repeat 0 168.
Proof.
  unfold baseline_metrics_of. rewrite baseline_windows_whole.
  rewrite (map_constant _ _ _ 0).
  - now rewrite length_map, length_seq.
  - intros w [i [<- Hi%in_seq]]%in_map_iff. apply outage_until_failed.
    cbn [fst]. unfold days, hours. lia.
Qed.

Lemma outage_error_rates :
  baseline_error_rates_of (outage_until (hours 168)) (days 7 - days 7)%Z (days 7) = [].
Proof.
  unfold baseline_error_rates_of, error_rates. rewrite error_windows_whole.
  apply flat_map_nil.
  intros m [w [<- [i [<- Hi%in_seq]]%in_map_iff]]%in_map_iff.
  rewrite outage_until_failed by (cbn [fst]; unfold days, hours; lia).
  now rewrite gtb_0_0.
Qed.

Lemma outage_false_alarm :
  fst (detect_anomalies (outage_until (hours 168)) 2 (days 7) (days 7))
  = [usage_record 2 (repeat 0 168)
       (window_metrics (outage_until (hours 168)) (current_window (days 7)))
       (hours 168)].
Proof.
  rewrite detect_anomalies_result, outage_baseline, outage_error_rates.
  rewrite current_window_days_7.
  unfold usage_check, error_check.
  rewrite usage_threshold_repeat by lia.
  rewrite outage_until_answered by (cbn [fst]; lia).
  replace (Py.gtb 5 0) with true by (symmetry; apply gtb_true; lra).
  reflexivity.
Qed.

Lemma errors_unavailable_invocations (w : Z * Z) :
  total_invocations (window_metrics errors_unavailable w) = 10.
Proof.
  unfold window_metrics.
  rewrite collect_usage_metrics_run, collect_usage_metrics_try_run.
  cbn [fst snd total_invocations]. unfold _get_cloudwatch_metric, errors_unavailable.
  cbn. apply sum_one.
Qed.
(** * The properties of the specification *)

(** ** Short baselines *)

(** C2. For every baseline of hourly invocation counts with fewer than 24
    samples, the detection returns the empty anomaly list, whatever the
    source answers for the current hour and whatever the threshold
    multiplier. *)
Theorem short_baseline_returns_nothing (cw : cloudwatch) (threshold_multiplier : R)
    (start_time end_time utcnow : Z) (baseline_metrics : list R) :
  (length baseline_metrics < 24)%nat ->
  fst (detect_anomalies_from cw threshold_multiplier start_time end_time utcnow
         baseline_metrics) = [].
Proof.
  intros H. now rewrite detect_anomalies_from_short.
Qed.

(** Twenty-three samples of ten, whatever the current hour holds. *)
Lemma short_baseline_returns_nothing_witness :
  (length (repeat 10 23) < 24)%nat
  /\ fst (detect_anomalies_from ten_then_thirty_one 2 0 0 (hours 1) (repeat 10 23)) = [].
Proof.
  split.
  - rewrite repeat_length. apply Nat.lt_succ_diag_r.
  - apply short_baseline_returns_nothing. rewrite repeat_length.
    apply Nat.lt_succ_diag_r.
Defined.

(** C1, as amended. With fewer than 24 invocation samples a run emits no
    anomaly at all, so an anomaly of either kind is appended only when the
    invocation baseline has at least 24 samples; a [high_error_rate] anomaly
    needs, of the error-rate series it is judged against, one sample only. *)
Theorem anomaly_needs_invocation_baseline (cw : cloudwatch) (threshold_multiplier : R)
    (start_time end_time utcnow : Z) (baseline_metrics : list R) :
  ((length baseline_metrics < 24)%nat ->
   fst (detect_anomalies_from cw threshold_multiplier start_time end_time utcnow
          baseline_metrics) = [])
  /\ forall a : anomaly,
       In a (fst (detect_anomalies_from cw threshold_multiplier start_time end_time
                    utcnow baseline_metrics)) ->
       (24 <= length baseline_metrics)%nat
       /\ (type a = "high_usage" \/ type a = "high_error_rate")
       /\ (type a = "high_error_rate" ->
           (1 <= length (baseline_error_rates_of cw start_time end_time))%nat).
Proof.
  split.
  - intros H. now rewrite detect_anomalies_from_short.
  - intros a. rewrite detect_anomalies_from_cases.
    destruct (Nat.ltb_spec (length baseline_metrics) 24) as [L | L];
      [contradiction |].
    intros [H | H]%in_app_or.
    + apply in_usage_check in H as [-> _]. repeat split.
      * exact L.
      * now left.
      * discriminate.
    + destruct (Py.gtb _ 0); [| contradiction].
      apply in_error_check in H as (-> & N & _). repeat split.
      * exact L.
      * now right.
      * intros _. exact N.
Qed.

(** ** The shape of a result *)

(** C10. A detection run returns at most two anomalies, at most one of type
    [high_usage] and at most one of type [high_error_rate], and each has the
    severity [medium] or [high]; so does a run from any given baseline. *)
Theorem at_most_one_of_each_kind (cw : cloudwatch) (threshold_multiplier : R)
    (utcnow_1 utcnow_2 : Z) :
  well_formed (fst (detect_anomalies cw threshold_multiplier utcnow_1 utcnow_2))
  /\ forall (start_time end_time : Z) (baseline_metrics : list R),
       well_formed
         (fst (detect_anomalies_from cw threshold_multiplier start_time end_time
                 utcnow_2 baseline_metrics)).
Proof.
  split.
  - rewrite detect_anomalies_result. apply well_formed_checks.
  - intros start_time end_time baseline_metrics.
    rewrite detect_anomalies_from_cases.
    destruct (length baseline_metrics <? 24)%nat.
    + unfold well_formed. simpl. repeat split; try lia; constructor.
    + apply well_formed_checks.
Qed.

(** C1, as stated, fails: in a week with a single active hour the error-rate
    series has one sample, and the run still emits a [high_error_rate]
    anomaly judged against it. *)
Lemma error_rate_anomaly_on_one_sample :
  exists a : anomaly,
    In a (fst (detect_anomalies quiet_week 2 (days 7) (days 7)))
    /\ type a = "high_error_rate"
    /\ judged_against quiet_week (days 7 - days 7)%Z (days 7)
         (baseline_metrics_of quiet_week (days 7)) a = [0]
    /\ ~ (24 <= length (judged_against quiet_week (days 7 - days 7)%Z (days 7)
                          (baseline_metrics_of quiet_week (days 7)) a))%nat.
Proof.
  eexists. split; [apply quiet_week_anomaly |].
  split; [reflexivity |].
  unfold judged_against. cbn [type error_record].
  change ("high_error_rate" =? "high_error_rate")%string with true. cbv iota.
  rewrite quiet_week_error_rates. split; [reflexivity | simpl; lia].
Qed.

(** The week with one active hour: 168 invocation samples, one error-rate
    sample. *)
Lemma anomaly_needs_invocation_baseline_witness :
  let a := error_record 2 [0] (window_metrics quiet_week (current_window (days 7)))
             (fst (current_window (days 7))) in
  In a (fst (detect_anomalies_from quiet_week 2 (days 7 - days 7)%Z (days 7) (days 7)
               (baseline_metrics_of quiet_week (days 7))))
  /\ (24 <= length (baseline_metrics_of quiet_week (days 7)))%nat
  /\ (1 <= length (baseline_error_rates_of quiet_week (days 7 - days 7)%Z (days 7)))%nat.
Proof.
  intros a.
  assert (H : In a (fst (detect_anomalies_from quiet_week 2 (days 7 - days 7)%Z
                           (days 7) (days 7)
                           (baseline_metrics_of quiet_week (days 7))))).
  { pose proof quiet_week_anomaly as H.
    rewrite detect_anomalies_anomalies in H. exact H. }
  split; [exact H |].
  destruct (proj2 (anomaly_needs_invocation_baseline quiet_week 2
                     (days 7 - days 7)%Z (days 7) (days 7)
                     (baseline_metrics_of quiet_week (days 7))) a H)
    as (L & _ & N).
  split; [exact L | exact (N eq_refl)].
Defined.

(** ** The error-rate anomaly *)

(** C3. A [high_error_rate] anomaly is emitted only when the current error
    rate exceeds both the statistical threshold (the mean of the baseline
    error rates plus the multiplier times their deviation) and 5 percent;
    when the current error rate is at most 5, none is emitted, whatever the
    statistical threshold. *)
Theorem high_error_rate_needs_five_percent (cw : cloudwatch)
    (threshold_multiplier : R) (utcnow_1 utcnow_2 : Z) :
  let m := window_metrics cw (current_window utcnow_2) in
  let rates := baseline_error_rates_of cw (utcnow_1 - days 7)%Z utcnow_1 in
  let result := fst (detect_anomalies cw threshold_multiplier utcnow_1 utcnow_2) in
  (forall a : anomaly,
     In a result -> type a = "high_error_rate" ->
     current_value a = error_rate m
     /\ threshold a = error_threshold_of threshold_multiplier rates
     /\ error_rate m > error_threshold_of threshold_multiplier rates
     /\ error_rate m > 5)
  /\ (error_rate m <= 5 -> of_type "high_error_rate" result = []).
Proof.
  intros m rates result. unfold result. rewrite detect_anomalies_result.
  fold m. fold rates. split.
  - intros a [H | H]%in_app_or T.
    + apply in_usage_check in H as [-> _]. discriminate.
    + destruct (Py.gtb (total_invocations m) 0); [| contradiction].
      apply in_error_check in H as (-> & _ & H1 & H2).
      repeat split; assumption.
  - intros H. rewrite of_type_app.
    rewrite (proj2 (of_type_usage_check _ _ _ _)).
    destruct (Py.gtb (total_invocations m) 0); [| reflexivity].
    now rewrite error_check_low.
Qed.

(** Two percent of errors against a baseline without any: above the
    statistical threshold, below the floor, not emitted. *)
Lemma high_error_rate_needs_five_percent_witness :
  error_rate (window_metrics two_percent (current_window (days 7))) <= 5
  /\ error_rate (window_metrics two_percent (current_window (days 7)))
     > error_threshold_of 2 (baseline_error_rates_of two_percent (days 7 - days 7)%Z (days 7))
  /\ of_type "high_error_rate" (fst (detect_anomalies two_percent 2 (days 7) (days 7))) = [].
Proof.
  assert (H : error_rate (window_metrics two_percent (current_window (days 7))) <= 5).
  { rewrite two_percent_current. lra. }
  split; [exact H |]. split.
  - rewrite two_percent_current, two_percent_error_rates.
    rewrite error_threshold_of_repeat by lia. lra.
  - exact (proj2 (high_error_rate_needs_five_percent two_percent 2 (days 7) (days 7)) H).
Defined.

(** ** The usage anomaly *)

(** C4. On a baseline of at least 24 invocation counts, whose mean and
    deviation are then defined, a [high_usage] anomaly is emitted if and only
    if the current value is strictly greater than the mean plus the
    multiplier times the deviation; its severity is [high] exactly when the
    current value is strictly greater than 1.5 times that threshold, and
    [medium] otherwise. *)
Theorem high_usage_iff_above_threshold (cw : cloudwatch) (threshold_multiplier : R)
    (start_time end_time utcnow : Z) (baseline_metrics : list R) :
  (24 <= length baseline_metrics)%nat ->
  let value := total_invocations (window_metrics cw (current_window utcnow)) in
  let thr := usage_threshold threshold_multiplier baseline_metrics in
  let result :=
    fst (detect_anomalies_from cw threshold_multiplier start_time end_time utcnow
           baseline_metrics) in
  Py.mean baseline_metrics = inr (mean_of baseline_metrics)
  /\ Py.stdev baseline_metrics = inr (stdev_of baseline_metrics)
  /\ ((exists a : anomaly, In a result /\ type a = "high_usage") <-> value > thr)
  /\ (forall a : anomaly,
        In a result -> type a = "high_usage" ->
        current_value a = value
        /\ threshold a = thr
        /\ baseline_mean a = mean_of baseline_metrics
        /\ (severity a = "high" <-> value > thr * 1.5)
        /\ (severity a = "medium" <-> ~ value > thr * 1.5)).
Proof.
  intros L value thr result.
  split; [apply mean_defined; lia |].
  split; [apply stdev_defined; lia |].
  unfold result. rewrite detect_anomalies_from_long by exact L.
  cbn [fst]. fold value. split; [split |].
  - intros (a & [H | H]%in_app_or & T).
    + now apply in_usage_check in H as [_ H].
    + destruct (Py.gtb value 0); [| contradiction].
      apply in_error_check in H as [-> _]. discriminate.
  - intros H.
    exists (usage_record threshold_multiplier baseline_metrics
              (window_metrics cw (current_window utcnow)) (fst (current_window utcnow))).
    split; [| reflexivity].
    apply in_or_app. left. unfold usage_check. fold value. fold thr.
    apply gtb_true in H. rewrite H. now left.
  - intros a [H | H]%in_app_or T.
    + apply in_usage_check in H as [-> _].
      cbn [current_value threshold baseline_mean severity usage_record].
      fold value. fold thr.
      repeat split; try apply severity_of_cases.
    + destruct (Py.gtb value 0); [| contradiction].
      apply in_error_check in H as [-> _]. discriminate.
Qed.

(** The baseline [[10]*24]: threshold 10; a current value of 10 is not
    flagged, one of 31 is flagged with severity [high]. *)
Lemma high_usage_iff_above_threshold_witness :
  (24 <= length (repeat 10 24))%nat
  /\ usage_threshold 2 (repeat 10 24) = 10
  /\ fst (detect_anomalies_from ten_then_thirty_one 2 0 0 0 (repeat 10 24)) = []
  /\ ~ (exists a : anomaly,
          In a (fst (detect_anomalies_from ten_then_thirty_one 2 0 0 0 (repeat 10 24)))
          /\ type a = "high_usage")
  /\ (exists a : anomaly,
        In a (fst (detect_anomalies_from ten_then_thirty_one 2 0 0 (hours 1)
                     (repeat 10 24)))
        /\ type a = "high_usage" /\ current_value a = 31 /\ severity a = "high").
Proof.
  assert (L : (24 <= length (repeat 10 24))%nat) by (rewrite repeat_length; apply Nat.le_refl).
  assert (T : usage_threshold 2 (repeat 10 24) = 10)
    by (apply usage_threshold_repeat; apply Nat.lt_0_succ).
  split; [exact L |]. split; [exact T |]. split; [exact flat_baseline_at_ten |].
  split.
  - destruct (high_usage_iff_above_threshold ten_then_thirty_one 2 0 0 0
                (repeat 10 24) L) as (_ & _ & [E _] & _).
    intros H. apply E in H. rewrite T, ten_then_thirty_one_metrics in H.
    change (fst (current_window 0) =? 0)%Z with true in H. cbv iota in H. lra.
  - destruct (high_usage_iff_above_threshold ten_then_thirty_one 2 0 0 (hours 1)
                (repeat 10 24) L) as (_ & _ & [_ E] & S).
    rewrite T, ten_then_thirty_one_metrics in E, S.
    change (fst (current_window (hours 1)) =? 0)%Z with false in E, S.
    cbv iota in E, S.
    destruct E as (a & Ha & Ta); [lra |].
    exists a. destruct (S a Ha Ta) as (V & _ & _ & [_ Hi] & _).
    repeat split; [exact Ha | exact Ta | exact V | apply Hi; lra].
Defined.

(** ** Windows without invocations *)

(** C5. Neither [collect_usage_metrics] nor [detect_anomalies] raises in its
    [try] block, so no division by zero occurs; when the invocations of the
    window are 0, [collect_usage_metrics] reports a [success_rate] of 0, and
    when those of the current hour are 0, [detect_anomalies] skips the
    error-rate check: no [high_error_rate] anomaly, and on a sufficient
    baseline the run is the usage check and the collection of the current
    hour alone. When it is the windows of the baseline that have no
    invocations, no [high_error_rate] anomaly is emitted either. *)
Theorem zero_invocations_short_circuit (cw : cloudwatch) (threshold_multiplier : R)
    (start_time end_time utcnow utcnow_1 : Z) (baseline_metrics : list R)
    (w : Z * Z) :
  let current := window_metrics cw (current_window utcnow) in
  let run :=
    detect_anomalies_from cw threshold_multiplier start_time end_time utcnow
      baseline_metrics in
  fst (fst (collect_usage_metrics_try cw (fst w) (snd w) metrics_init)) = inr tt
  /\ (total_invocations (window_metrics cw w) = 0 ->
      success_rate (window_metrics cw w) = Some 0)
  /\ fst (fst (detect_anomalies_checks cw threshold_multiplier start_time end_time
                 utcnow baseline_metrics [])) = inr tt
  /\ fst (fst (detect_anomalies_try cw threshold_multiplier utcnow_1 utcnow [])) = inr tt
  /\ (total_invocations current = 0 ->
      of_type "high_error_rate" (fst run) = []
      /\ ((24 <= length baseline_metrics)%nat ->
          run = (usage_check threshold_multiplier baseline_metrics current
                   (fst (current_window utcnow)),
                 window_log cw (current_window utcnow))))
  /\ ((forall v : Z * Z,
         In v (error_windows start_time end_time) ->
         total_invocations (window_metrics cw v) = 0) ->
      of_type "high_error_rate" (fst run) = []).
Proof.
  intros current run.
  split; [now rewrite collect_usage_metrics_try_run |].
  split.
  { unfold window_metrics.
    rewrite collect_usage_metrics_run, collect_usage_metrics_try_run.
    cbn [fst snd total_invocations success_rate].
    intros ->. now rewrite gtb_0_0. }
  split; [apply detect_anomalies_checks_completes |].
  split; [apply detect_anomalies_try_completes |].
  split.
  - intros Z0. split.
    + unfold run. rewrite detect_anomalies_from_cases.
      destruct (length baseline_metrics <? 24)%nat; [reflexivity |].
      fold current. rewrite Z0, gtb_0_0, app_nil_r.
      apply of_type_usage_check.
    + intros L. unfold run. rewrite detect_anomalies_from_long by exact L.
      fold current. rewrite Z0, gtb_0_0, !app_nil_r. reflexivity.
  - intros Z0. unfold run. rewrite detect_anomalies_from_cases.
    destruct (length baseline_metrics <? 24)%nat; [reflexivity |].
    rewrite of_type_app, (proj2 (of_type_usage_check _ _ _ _)).
    destruct (Py.gtb _ 0); [| reflexivity].
    replace (baseline_error_rates_of cw start_time end_time) with (@nil R);
      [reflexivity |].
    symmetry. unfold baseline_error_rates_of, error_rates. apply flat_map_nil.
    intros m [v [<- Hv]]%in_map_iff. now rewrite (Z0 v Hv), gtb_0_0.
Qed.

(** A source without datapoints. *)
Lemma zero_invocations_short_circuit_witness :
  total_invocations (window_metrics silent (0%Z, hours 1)) = 0
  /\ total_invocations (window_metrics silent (current_window 0)) = 0
  /\ success_rate (window_metrics silent (0%Z, hours 1)) = Some 0
  /\ detect_anomalies_from silent 2 0 0 0 (repeat 10 24)
     = (usage_check 2 (repeat 10 24) (window_metrics silent (current_window 0))
          (fst (current_window 0)),
        window_log silent (current_window 0)).
Proof.
  pose proof (proj1 (silent_metrics (0%Z, hours 1))) as Z1.
  pose proof (proj1 (silent_metrics (current_window 0))) as Z2.
  destruct (zero_invocations_short_circuit silent 2 0 0 0 0 (repeat 10 24)
              (0%Z, hours 1)) as (_ & S & _ & _ & D & _).
  split; [exact Z1 |]. split; [exact Z2 |]. split; [exact (S Z1) |].
  apply (proj2 (D Z2)). rewrite repeat_length. apply Nat.le_refl.
Defined.

(** ** The insufficient baseline *)

(** C6, as stated, fails: a run on a baseline that is too short and a run on
    a sufficient baseline that finds nothing return the same value. *)
Lemma insufficient_returns_like_nothing_found :
  (length (@nil R) < 24)%nat
  /\ (24 <= length (repeat 10 24))%nat
  /\ fst (detect_anomalies_from silent 2 0 0 0 []) = []
  /\ fst (detect_anomalies_from silent 2 0 0 0 (repeat 10 24)) = []
  /\ fst (detect_anomalies_from silent 2 0 0 0 [])
     = fst (detect_anomalies_from silent 2 0 0 0 (repeat 10 24)).
Proof.
  assert (S : fst (detect_anomalies_from silent 2 0 0 0 []) = []).
  { rewrite detect_anomalies_from_short; [reflexivity | simpl; lia]. }
  assert (N : fst (detect_anomalies_from silent 2 0 0 0 (repeat 10 24)) = []).
  { rewrite detect_anomalies_from_long by (rewrite repeat_length; lia).
    cbn [fst]. unfold usage_check.
    rewrite (proj1 (silent_metrics (current_window 0))), gtb_0_0.
    rewrite usage_threshold_repeat by lia.
    replace (Py.gtb 0 10) with false by (symmetry; apply gtb_false; lra).
    reflexivity. }
  split; [simpl; lia |].
  split; [rewrite repeat_length; lia |].
  split; [exact S |].
  split; [exact N |].
  now rewrite S, N.
Qed.

(** C6, as amended. On a baseline that is too short the run returns the empty
    list, the value it also returns when nothing is found, and logs one
    warning; a run on a sufficient baseline never logs that warning (it logs
    errors only), so the log alone tells the two outcomes apart. *)
Theorem insufficient_baseline_is_only_logged (cw : cloudwatch)
    (threshold_multiplier : R) (start_time end_time utcnow : Z)
    (baseline_metrics : list R) :
  let run :=
    detect_anomalies_from cw threshold_multiplier start_time end_time utcnow
      baseline_metrics in
  ((length baseline_metrics < 24)%nat ->
   run = ([], [(WARNING, "Insufficient data for anomaly detection")]))
  /\ ((24 <= length baseline_metrics)%nat ->
      Forall (fun r : log_record => fst r = ERROR) (snd run)
      /\ ~ In (WARNING, "Insufficient data for anomaly detection") (snd run)).
Proof.
  intros run. split.
  - apply detect_anomalies_from_short.
  - intros L.
    assert (E : Forall (fun r : log_record => fst r = ERROR) (snd run)).
    { unfold run. rewrite detect_anomalies_from_long by exact L. cbn [snd].
      apply Forall_app. split; [apply window_log_errors |].
      destruct (Py.gtb _ 0); [apply windows_log_errors | constructor]. }
    split; [exact E |].
    intros H. rewrite Forall_forall in E. specialize (E _ H). discriminate.
Qed.

(** The empty baseline. *)
Lemma insufficient_baseline_is_only_logged_witness :
  (length (@nil R) < 24)%nat
  /\ detect_anomalies_from silent 2 0 0 0 []
     = ([], [(WARNING, "Insufficient data for anomaly detection")]).
Proof.
  assert (L : (length (@nil R) < 24)%nat) by apply Nat.lt_0_succ.
  split; [exact L |].
  exact (proj1 (insufficient_baseline_is_only_logged silent 2 0 0 0 []) L).
Defined.

(** ** Failed fetches *)

(** C7, as stated, fails: when every fetch of the week raises, the baseline
    still has its 168 samples, all of them 0, and five invocations in the
    current hour are flagged against them. *)
Lemma failed_windows_keep_their_samples :
  Forall (fun w : Z * Z =>
            outage_until (hours 168) "AWS/Bedrock" "Invocations" (fst w) (snd w)
              300%Z "Sum" = Raises "ThrottlingException")
         (baseline_windows (days 7))
  /\ baseline_metrics_of (outage_until (hours 168)) (days 7) = repeat 0 168
  /\ ~ (length (baseline_metrics_of (outage_until (hours 168)) (days 7)) < 168)%nat
  /\ exists a : anomaly,
       fst (detect_anomalies (outage_until (hours 168)) 2 (days 7) (days 7)) = [a]
       /\ type a = "high_usage" /\ current_value a = 5 /\ threshold a = 0.
Proof.
  split; [| split; [| split]].
  - rewrite baseline_windows_whole. apply Forall_forall.
    intros w [i [<- Hi%in_seq]]%in_map_iff. cbn [fst snd]. unfold outage_until.
    replace (days 7 - days 7 + hours (Z.of_nat i) <? hours 168)%Z with true
      by (symmetry; apply Z.ltb_lt; unfold days, hours; lia).
    reflexivity.
  - apply outage_baseline.
  - rewrite baseline_metrics_length. lia.
  - eexists. split; [apply outage_false_alarm |].
    cbn [type current_value threshold usage_record]. repeat split.
    + apply outage_until_answered. rewrite current_window_days_7. cbn [fst]. lia.
    + apply usage_threshold_repeat. lia.
Qed.

(** C7, as amended. A fetch that raises is caught in
    [_get_cloudwatch_metric], logged, and answered as no datapoints, so that
    the metric asked for counts as 0 in the dictionary that this call of
    [collect_usage_metrics] returns: [total_invocations = 0] where the
    request for [Invocations] raised, and such a dictionary adds no error
    rate in the second loop; [total_errors = 0], with the invocations as they
    were fetched, where the request for [Errors] raised, which with
    invocations is an error rate of 0; and 0 in its entry for a failed
    request for the tokens or the duration. The run is not aborted: the
    [try] block of [detect_anomalies] runs to its end, so no such error is
    propagated, also when the source answers the second loop otherwise than
    it answered the first. The baseline loop appends the total of every
    window it asked for: 168 samples, whatever failed. *)
Theorem fetch_failure_counts_as_zero (cw : cloudwatch) (threshold_multiplier : R)
    (utcnow_1 utcnow_2 : Z) :
  (forall (namespace metric_name statistic msg : string) (start_time end_time : Z),
     cw namespace metric_name start_time end_time 300%Z statistic = Raises msg ->
     _get_cloudwatch_metric cw namespace metric_name start_time end_time statistic
     = ([], [(ERROR, ("Error getting CloudWatch metric " ++ metric_name ++ ": " ++ msg)%string)]))
  /\ (forall (w : Z * Z) (msg : string),
        cw "AWS/Bedrock" "Invocations" (fst w) (snd w) 300%Z "Sum" = Raises msg ->
        total_invocations (window_metrics cw w) = 0
        /\ error_rates [window_metrics cw w] = [])
  /\ (forall (w : Z * Z) (msg : string),
        cw "AWS/Bedrock" "Errors" (fst w) (snd w) 300%Z "Sum" = Raises msg ->
        total_errors (window_metrics cw w) = 0
        /\ (total_invocations (window_metrics cw w) > 0 ->
            error_rates [window_metrics cw w] = [0]))
  /\ (forall (w : Z * Z) (msg : string),
        (cw "AWS/Bedrock" "InputTokens" (fst w) (snd w) 300%Z "Sum" = Raises msg ->
         total_input_tokens (window_metrics cw w) = 0)
        /\ (cw "AWS/Bedrock" "OutputTokens" (fst w) (snd w) 300%Z "Sum" = Raises msg ->
            total_output_tokens (window_metrics cw w) = 0)
        /\ (cw "AWS/Bedrock" "Duration" (fst w) (snd w) 300%Z "Average" = Raises msg ->
            avg_duration (window_metrics cw w) = 0))
  /\ (forall (w : Z * Z) (points : list R),
        cw "AWS/Bedrock" "Invocations" (fst w) (snd w) 300%Z "Sum" = Datapoints points ->
        total_invocations (window_metrics cw w) = Py.sum points)
  /\ length (baseline_metrics_of cw utcnow_1) = 168%nat
  /\ fst (fst (detect_anomalies_try cw threshold_multiplier utcnow_1 utcnow_2 []))
     = inr tt
  /\ (forall cw_later : cloudwatch,
        fst (fst (detect_anomalies_checks cw_later threshold_multiplier
                    (utcnow_1 - days 7)%Z utcnow_1 utcnow_2
                    (baseline_metrics_of cw utcnow_1) []))
        = inr tt).
Proof.
  split; [| split; [| split; [| split; [| split; [| split; [| split]]]]]].
  - intros namespace metric_name statistic msg start_time end_time H.
    unfold _get_cloudwatch_metric. now rewrite H.
  - intros w msg H.
    assert (Z0 : total_invocations (window_metrics cw w) = 0).
    { unfold window_metrics.
      rewrite collect_usage_metrics_run, collect_usage_metrics_try_run.
      cbn [fst snd total_invocations]. unfold _get_cloudwatch_metric.
      now rewrite H. }
    split; [exact Z0 |].
    unfold error_rates. cbn [flat_map]. now rewrite Z0, gtb_0_0.
  - intros w msg H.
    assert (E0 : total_errors (window_metrics cw w) = 0).
    { unfold window_metrics.
      rewrite collect_usage_metrics_run, collect_usage_metrics_try_run.
      cbn [fst snd total_errors]. unfold _get_cloudwatch_metric.
      now rewrite H. }
    split; [exact E0 |].
    intros P. unfold error_rates, error_rate. cbn [flat_map].
    replace (Py.gtb (total_invocations (window_metrics cw w)) 0) with true
      by (symmetry; apply gtb_true; exact P).
    rewrite E0. cbn [app]. f_equal. field. lra.
  - intros w msg. unfold window_metrics.
    rewrite collect_usage_metrics_run, collect_usage_metrics_try_run.
    cbn [fst snd total_input_tokens total_output_tokens avg_duration].
    unfold _get_cloudwatch_metric.
    split; [| split]; intros H; now rewrite H.
  - intros w points H. unfold window_metrics.
    rewrite collect_usage_metrics_run, collect_usage_metrics_try_run.
    cbn [fst snd total_invocations]. unfold _get_cloudwatch_metric.
    now rewrite H.
  - apply baseline_metrics_length.
  - apply detect_anomalies_try_completes.
  - intros cw_later. apply detect_anomalies_checks_completes.
Qed.

(** The first hour of a week-long outage, where no request is answered, and
    an hour of ten invocations whose errors cannot be read. *)
Lemma fetch_failure_counts_as_zero_witness :
  outage_until (hours 168) "AWS/Bedrock" "Invocations" 0%Z (hours 1) 300%Z "Sum"
  = Raises "ThrottlingException"
  /\ total_invocations (window_metrics (outage_until (hours 168)) (0%Z, hours 1)) = 0
  /\ error_rates [window_metrics (outage_until (hours 168)) (0%Z, hours 1)] = []
  /\ errors_unavailable "AWS/Bedrock" "Errors" 0%Z (hours 1) 300%Z "Sum"
     = Raises "AccessDenied"
  /\ total_invocations (window_metrics errors_unavailable (0%Z, hours 1)) > 0
  /\ error_rates [window_metrics errors_unavailable (0%Z, hours 1)] = [0].
Proof.
  assert (H : outage_until (hours 168) "AWS/Bedrock" "Invocations" 0%Z (hours 1)
                300%Z "Sum" = Raises "ThrottlingException") by reflexivity.
  assert (E : errors_unavailable "AWS/Bedrock" "Errors" 0%Z (hours 1) 300%Z "Sum"
              = Raises "AccessDenied") by reflexivity.
  assert (P : total_invocations (window_metrics errors_unavailable (0%Z, hours 1)) > 0).
  { rewrite errors_unavailable_invocations. lra. }
  destruct (fetch_failure_counts_as_zero (outage_until (hours 168)) 2 (days 7) (days 7))
    as (_ & F & _).
  destruct (fetch_failure_counts_as_zero errors_unavailable 2 (days 7) (days 7))
    as (_ & _ & G & _).
  destruct (F (0%Z, hours 1) "ThrottlingException" H) as [F1 F2].
  split; [exact H |]. split; [exact F1 |]. split; [exact F2 |].
  split; [exact E |]. split; [exact P |].
  exact (proj2 (G (0%Z, hours 1) "AccessDenied" E) P).
Defined.

(** ** Determinism *)

(** C8. The result of a detection run depends only on what was fetched: two
    sources that answer alike on the baseline windows and on the window of
    the current hour give, for the same threshold multiplier and the same
    readings of the clock, the same anomalies in the same order (and the same
    log). *)
Theorem detection_depends_on_fetched_data (cw_1 cw_2 : cloudwatch)
    (threshold_multiplier : R) (utcnow_1 utcnow_2 : Z) :
  (forall w : Z * Z,
     In w (current_window utcnow_2 :: baseline_windows utcnow_1) ->
     agree_on cw_1 cw_2 w) ->
  detect_anomalies cw_1 threshold_multiplier utcnow_1 utcnow_2
  = detect_anomalies cw_2 threshold_multiplier utcnow_1 utcnow_2.
Proof.
  intros H.
  assert (C : window_metrics cw_1 (current_window utcnow_2)
              = window_metrics cw_2 (current_window utcnow_2)
              /\ window_log cw_1 (current_window utcnow_2)
                 = window_log cw_2 (current_window utcnow_2)).
  { apply agree_on_window, H. now left. }
  assert (B : forall w, In w (baseline_windows utcnow_1) ->
                window_metrics cw_1 w = window_metrics cw_2 w
                /\ window_log cw_1 w = window_log cw_2 w).
  { intros w Hw. apply agree_on_window, H. now right. }
  assert (E : forall w, In w (error_windows (utcnow_1 - days 7)%Z utcnow_1) ->
                window_metrics cw_1 w = window_metrics cw_2 w
                /\ window_log cw_1 w = window_log cw_2 w).
  { intros w Hw. apply B, error_windows_incl, Hw. }
  rewrite !detect_anomalies_unfold.
  rewrite !detect_anomalies_from_long by (rewrite baseline_metrics_length; lia).
  cbn [fst snd]. destruct C as [-> ->].
  assert (BM : baseline_metrics_of cw_1 utcnow_1 = baseline_metrics_of cw_2 utcnow_1).
  { unfold baseline_metrics_of. apply map_ext_in. intros w Hw.
    now rewrite (proj1 (B w Hw)). }
  assert (ER : baseline_error_rates_of cw_1 (utcnow_1 - days 7)%Z utcnow_1
               = baseline_error_rates_of cw_2 (utcnow_1 - days 7)%Z utcnow_1).
  { unfold baseline_error_rates_of. f_equal. apply map_ext_in. intros w Hw.
    apply (E w Hw). }
  assert (BL : flat_map (window_log cw_1) (baseline_windows utcnow_1)
               = flat_map (window_log cw_2) (baseline_windows utcnow_1)).
  { apply flat_map_ext_in. intros w Hw. apply (B w Hw). }
  assert (EL : flat_map (window_log cw_1) (error_windows (utcnow_1 - days 7)%Z utcnow_1)
               = flat_map (window_log cw_2) (error_windows (utcnow_1 - days 7)%Z utcnow_1)).
  { apply flat_map_ext_in. intros w Hw. apply (E w Hw). }
  now rewrite BM, ER, BL, EL.
Qed.

(** Two sources that differ outside the namespace that is read only. *)
Lemma detection_depends_on_fetched_data_witness :
  (forall w : Z * Z,
     In w (current_window (days 7) :: baseline_windows (days 7)) ->
     agree_on silent silent_bedrock_only w)
  /\ detect_anomalies silent 2 (days 7) (days 7)
     = detect_anomalies silent_bedrock_only 2 (days 7) (days 7).
Proof.
  assert (H : forall w : Z * Z,
            In w (current_window (days 7) :: baseline_windows (days 7)) ->
            agree_on silent silent_bedrock_only w).
  { intros w _ metric_name statistic. reflexivity. }
  split; [exact H |].
  exact (detection_depends_on_fetched_data silent silent_bedrock_only 2
           (days 7) (days 7) H).
Defined.

(** ** Alerts *)

(** C9. [send_alert] returns a boolean and does not raise: without a topic
    ARN (unset or empty) it returns [False] and publishes nothing; with one
    it makes one publish request and returns [True] exactly when the publish
    succeeds, [False] when it raises. The handler reports the number of
    anomalies that [detect_anomalies] returned, whatever SNS does. *)
Theorem send_alert_reports_success (sns_topic_arn : option string) (sns_client : sns)
    (message subject : string) (cw : cloudwatch) (format_number format_2f : R -> string)
    (publish_custom_metrics : metrics -> bool * list log_record)
    (analyze_user_behavior : Z * list log_record) (utcnow_0 utcnow_1 utcnow_2 : Z) :
  let sent := send_alert sns_topic_arn sns_client message subject in
  let handled :=
    lambda_handler sns_topic_arn sns_client cw format_number format_2f
      publish_custom_metrics analyze_user_behavior utcnow_0 utcnow_1 utcnow_2 in
  (sns_topic_arn = None \/ sns_topic_arn = Some EmptyString ->
   returned sent = false /\ published sent = [])
  /\ (forall arn : string,
        sns_topic_arn = Some arn -> arn <> EmptyString ->
        published sent = [(arn, message, subject)]
        /\ (returned sent = true <-> sns_client (arn, message, subject) = Published)
        /\ (forall msg : string,
              sns_client (arn, message, subject) = PublishRaises msg ->
              returned sent = false))
  /\ anomalies_detected (response handled)
     = length (fst (detect_anomalies cw 2 utcnow_1 utcnow_2))
  /\ statusCode (response handled) = 200%Z.
Proof.
  intros sent handled. split; [| split; [| split]].
  - unfold sent, send_alert. intros [-> | ->]; split; reflexivity.
  - intros arn -> N. unfold sent, send_alert.
    destruct arn as [| c arn]; [contradiction |].
    destruct (sns_client (String c arn, message, subject)) eqn:P; cbn.
    + repeat split; try reflexivity. intros msg. discriminate.
    + repeat split; try reflexivity; discriminate.
  - unfold handled, lambda_handler.
    destruct (collect_usage_metrics cw (utcnow_0 - hours 1) utcnow_0) as [m l1].
    destruct (publish_custom_metrics m) as [b l2].
    destruct (detect_anomalies cw 2 utcnow_1 utcnow_2) as [anomalies l3].
    destruct analyze_user_behavior as [users l4]. reflexivity.
  - unfold handled, lambda_handler.
    destruct (collect_usage_metrics cw (utcnow_0 - hours 1) utcnow_0) as [m l1].
    destruct (publish_custom_metrics m) as [b l2].
    destruct (detect_anomalies cw 2 utcnow_1 utcnow_2) as [anomalies l3].
    destruct analyze_user_behavior as [users l4]. reflexivity.
Qed.

(** A publish that raises, and a monitor without a topic. *)
Lemma send_alert_reports_success_witness :
  sns_down ("arn:aws:sns:us-east-1:123456789012:bedrock-alerts"%string,
            "Detected 1 anomalies"%string, "Bedrock Usage Anomaly Detected"%string)
  = PublishRaises "EndpointConnectionError"
  /\ returned (send_alert (Some "arn:aws:sns:us-east-1:123456789012:bedrock-alerts"%string)
                 sns_down "Detected 1 anomalies" "Bedrock Usage Anomaly Detected")
     = false
  /\ returned (send_alert None sns_up "Detected 1 anomalies"
                 "Bedrock Usage Anomaly Detected") = false.
Proof.
  split; [reflexivity |]. split.
  - destruct (send_alert_reports_success
                (Some "arn:aws:sns:us-east-1:123456789012:bedrock-alerts"%string)
                sns_down "Detected 1 anomalies" "Bedrock Usage Anomaly Detected"
                silent (fun _ => EmptyString) (fun _ => EmptyString)
                (fun _ => (true, [])) (0%Z, []) 0 0 0) as (_ & S & _).
    destruct (S _ eq_refl) as (_ & _ & F); [discriminate |].
    exact (F _ eq_refl).
  - destruct (send_alert_reports_success None sns_up "Detected 1 anomalies"
                "Bedrock Usage Anomaly Detected"
                silent (fun _ => EmptyString) (fun _ => EmptyString)
                (fun _ => (true, [])) (0%Z, []) 0 0 0) as (N & _).
    exact (proj1 (N (or_introl eq_refl))).
Defined.

(** * Further properties of the code *)

(** ** The batches of [publish_custom_metrics] *)

Lemma range_step_0 (step : nat) : (0 < step)%nat -> range_step 0 step = [].
Proof.
  intros H. unfold range_step.
  replace ((0 + step - 1) / step)%nat with 0%nat; [reflexivity |].
  symmetry. apply Nat.div_small. lia.
Qed.

Lemma batches_count_step (n : nat) :
  (0 < n)%nat -> ((n + 19) / 20 = S ((n - 20 + 19) / 20))%nat.
Proof.
  intros H. destruct (Nat.le_gt_cases n 20) as [L | L].
  - replace (n - 20)%nat with 0%nat by lia.
    replace ((0 + 19) / 20)%nat with 0%nat by reflexivity.
    assert (D : ((n + 19) / 20 < 2)%nat)
      by (apply Nat.Div0.div_lt_upper_bound; lia).
    assert (D' : (1 <= (n + 19) / 20)%nat)
      by (apply Nat.div_le_lower_bound; lia).
    lia.
  - replace (n + 19)%nat with ((n - 20 + 19) + 1 * 20)%nat by lia.
    rewrite Nat.div_add by lia. lia.
Qed.

Lemma batches_of_nil : batches_of [] = [].
Proof. reflexivity. Qed.

(** The batches, read as the loop runs: the first twenty entries, then the
    batches of what is left. *)
Lemma batches_of_step (metric_data : list metric_datum) :
  (0 < length metric_data)%nat ->
  batches_of metric_data
  = firstn 20 metric_data :: batches_of (skipn 20 metric_data).
Proof.
  intros H. unfold batches_of, range_step.
  rewrite length_skipn.
  replace (length metric_data + 20 - 1)%nat with (length metric_data + 19)%nat by lia.
  replace (length metric_data - 20 + 20 - 1)%nat
    with (length metric_data - 20 + 19)%nat by lia.
  rewrite (batches_count_step _ H).
  cbn [seq map]. f_equal.
  rewrite <- seq_shift, !map_map. apply map_ext. intros j.
  unfold slice.
  replace (S j * 20 + 20 - S j * 20)%nat with 20%nat by lia.
  replace (j * 20 + 20 - j * 20)%nat with 20%nat by lia.
  rewrite skipn_skipn. f_equal. f_equal. lia.
Qed.

Lemma batches_of_spec (n : nat) :
  forall metric_data : list metric_datum,
    (length metric_data <= n)%nat ->
    concat (batches_of metric_data) = metric_data
    /\ Forall (fun batch => (1 <= length batch <= 20)%nat) (batches_of metric_data)
    /\ length (batches_of metric_data) = ((length metric_data + 19) / 20)%nat.
Proof.
  induction n as [| n IH]; intros metric_data L.
  - destruct metric_data; [| simpl in L; lia].
    repeat split. constructor.
  - destruct metric_data as [| d metric_data]; [repeat split; constructor |].
    rewrite batches_of_step by (simpl; lia).
    destruct (IH (skipn 20 (d :: metric_data))) as (C & F & N).
    { rewrite length_skipn. simpl length in *. lia. }
    split; [| split].
    + cbn [concat]. rewrite C. apply firstn_skipn.
    + constructor; [| exact F].
      rewrite length_firstn. simpl length. lia.
    + cbn [length]. rewrite N, length_skipn.
      change (S (length metric_data)) with (length (d :: metric_data)).
      now rewrite (batches_count_step (length (d :: metric_data))) by (simpl; lia).
Qed.

Section Publishing.

Variable environment : string.
Variable put_metric_data : cloudwatch_put.

Lemma put_batches_spec (batches : list (list metric_datum)) :
  match put_batches put_metric_data batches with
  | (made, None) =>
      made = map (pair "Custom/Bedrock") batches /\ Forall (accepts put_metric_data) batches
  | (made, Some msg) =>
      exists (before : list (list metric_datum)) (batch : list metric_datum)
             (after : list (list metric_datum)),
        batches = before ++ batch :: after
        /\ Forall (accepts put_metric_data) before
        /\ put_metric_data ("Custom/Bedrock", batch) = PutRaises msg
        /\ made = map (pair "Custom/Bedrock") (before ++ [batch])
  end.
Proof.
  induction batches as [| batch rest IH]; cbn [put_batches].
  - split; [reflexivity | constructor].
  - destruct (put_metric_data ("Custom/Bedrock", batch)) as [| msg] eqn:P.
    + destruct (put_batches put_metric_data rest) as [made [msg |]].
      * destruct IH as (before & b & after & E & F & R & M).
        exists (batch :: before), b, after. subst rest made.
        repeat split; try assumption. constructor; assumption.
      * destruct IH as [M F]. subst made. split; [reflexivity |].
        constructor; assumption.
    + exists [], batch, rest. repeat split; try assumption. constructor.
Qed.

(** X1. When CloudWatch accepts every request, [publish_custom_metrics]
    returns [True] and its requests carry, in order, batches that put together
    are [metric_data]: nothing is lost, repeated or reordered; every batch
    has between 1 and 20 entries, and there are [ceil(n / 20)] of them. *)
Theorem publish_batches_partition (metrics : list (string * value)) :
  let metric_data := metric_data_of environment metrics in
  let result := publish_custom_metrics environment put_metric_data metrics in
  Forall (accepts put_metric_data) (batches_of metric_data) ->
  publish_returned result = true
  /\ map fst (put_requests result) = repeat "Custom/Bedrock" (length (put_requests result))
  /\ concat (map snd (put_requests result)) = metric_data
  /\ Forall (fun request => (1 <= length (snd request) <= 20)%nat) (put_requests result)
  /\ length (put_requests result) = ((length metric_data + 19) / 20)%nat.
Proof.
  intros metric_data result A. unfold result, publish_custom_metrics.
  fold metric_data.
  pose proof (put_batches_spec (batches_of metric_data)) as S.
  destruct (batches_of_spec (length metric_data) metric_data (Nat.le_refl _))
    as (C & F & N).
  destruct (put_batches put_metric_data (batches_of metric_data)) as [made [msg |]].
  - destruct S as (before & batch & after & E & _ & R & _).
    rewrite E in A. apply Forall_app in A as [_ A].
    apply Forall_inv in A. unfold accepts in A. congruence.
  - destruct S as [-> _]. cbn [publish_returned put_requests].
    rewrite !map_map, length_map. cbn [fst snd]. rewrite map_id.
    repeat split; try assumption.
    + clear. induction (batches_of metric_data) as [| b bs IH]; simpl; congruence.
    + apply Forall_map. exact F.
Qed.

(** X2. [publish_custom_metrics] returns [True] exactly when CloudWatch
    accepts every batch. When a request raises, that request is the last one
    made: the batches before it were accepted and stay published, those after
    it are never sent, and the call logs the error and returns [False]. *)
Theorem publish_stops_at_first_failure (metrics : list (string * value)) :
  let metric_data := metric_data_of environment metrics in
  let result := publish_custom_metrics environment put_metric_data metrics in
  (publish_returned result = true <-> Forall (accepts put_metric_data) (batches_of metric_data))
  /\ (publish_returned result = false ->
      exists (before : list (list metric_datum)) (batch : list metric_datum)
             (after : list (list metric_datum)) (msg : string),
        batches_of metric_data = before ++ batch :: after
        /\ Forall (accepts put_metric_data) before
        /\ put_metric_data ("Custom/Bedrock", batch) = PutRaises msg
        /\ put_requests result = map (pair "Custom/Bedrock") (before ++ [batch])
        /\ publish_log result
           = [(ERROR, ("Error publishing custom metrics: " ++ msg)%string)]).
Proof.
  intros metric_data result. unfold result, publish_custom_metrics.
  fold metric_data.
  pose proof (put_batches_spec (batches_of metric_data)) as S.
  destruct (put_batches put_metric_data (batches_of metric_data)) as [made [msg |]];
    cbn [publish_returned put_requests publish_log].
  - destruct S as (before & batch & after & E & F & R & M). split.
    + split; [discriminate |]. intros A. rewrite E in A.
      apply Forall_app in A as [_ A]. apply Forall_inv in A.
      unfold accepts in A. congruence.
    + intros _. exists before, batch, after, msg. repeat split; assumption.
  - destruct S as [_ F]. split.
    + split; [intros _; exact F | reflexivity].
    + discriminate.
Qed.

End Publishing.

(** Forty-five metrics go out in three requests. *)
Lemma publish_batches_partition_witness :
  Forall (accepts put_accepting)
    (batches_of (metric_data_of "prod" forty_five_metrics))
  /\ publish_returned (publish_custom_metrics "prod" put_accepting forty_five_metrics)
     = true
  /\ concat (map snd (put_requests
                        (publish_custom_metrics "prod" put_accepting forty_five_metrics)))
     = metric_data_of "prod" forty_five_metrics.
Proof.
  assert (A : Forall (accepts put_accepting)
                (batches_of (metric_data_of "prod" forty_five_metrics))).
  { apply Forall_forall. intros batch _. reflexivity. }
  split; [exact A |].
  destruct (publish_batches_partition "prod" put_accepting forty_five_metrics A)
    as (T & _ & C & _).
  split; [exact T | exact C].
Defined.

(** The dictionary of an idle window against a throttling CloudWatch. *)
Lemma publish_stops_at_first_failure_witness :
  publish_returned
    (publish_custom_metrics "prod" put_throttling (metrics_items metrics_init)) = false
  /\ exists (before : list (list metric_datum)) (batch : list metric_datum)
            (after : list (list metric_datum)) (msg : string),
       batches_of (metric_data_of "prod" (metrics_items metrics_init))
       = before ++ batch :: after
       /\ Forall (accepts put_throttling) before
       /\ put_throttling ("Custom/Bedrock", batch) = PutRaises msg
       /\ put_requests
            (publish_custom_metrics "prod" put_throttling (metrics_items metrics_init))
          = map (pair "Custom/Bedrock") (before ++ [batch])
       /\ publish_log
            (publish_custom_metrics "prod" put_throttling (metrics_items metrics_init))
          = [(ERROR, ("Error publishing custom metrics: " ++ msg)%string)].
Proof.
  assert (F : publish_returned
                (publish_custom_metrics "prod" put_throttling
                   (metrics_items metrics_init)) = false) by reflexivity.
  split; [exact F |].
  exact (proj2 (publish_stops_at_first_failure "prod" put_throttling
                  (metrics_items metrics_init)) F).
Defined.

(** ** The metrics that the handler publishes *)

Lemma collected_success_rate (cw : cloudwatch) (w : Z * Z) :
  exists rate : R, success_rate (window_metrics cw w) = Some rate.
Proof.
  unfold window_metrics.
  rewrite collect_usage_metrics_run, collect_usage_metrics_try_run.
  cbn [fst snd success_rate]. eexists. reflexivity.
Qed.

(** X3. Of the nine entries of the dictionary that [collect_usage_metrics]
    returns, [publish_custom_metrics] sends the six numbers (the five totals
    and [success_rate]) in one request, and none of the three [defaultdict]
    entries; it returns [True] exactly when CloudWatch accepts that
    request. *)
Theorem publish_collected_metrics (environment : string)
    (put_metric_data : cloudwatch_put) (cw : cloudwatch) (w : Z * Z) :
  let m := window_metrics cw w in
  let metric_data := metric_data_of environment (metrics_items m) in
  let result := publish_custom_metrics environment put_metric_data (metrics_items m) in
  length (metrics_items m) = 9%nat
  /\ len_metrics m = 9%nat
  /\ map MetricName metric_data
     = ["total_invocations"; "total_errors"; "total_input_tokens";
        "total_output_tokens"; "avg_duration"; "success_rate"]
  /\ put_requests result = [("Custom/Bedrock", metric_data)]
  /\ (publish_returned result = true <-> accepts put_metric_data metric_data).
Proof.
  intros m metric_data result.
  destruct (collected_success_rate cw w) as [rate S]. fold m in S.
  unfold result, publish_custom_metrics. fold metric_data.
  assert (D : metric_data
              = map (fun item : string * R =>
                       {| MetricName := fst item; Value := Number (snd item);
                          Unit := "Count";
                          Dimensions := [("Environment", environment)] |})
                    [("total_invocations", total_invocations m);
                     ("total_errors", total_errors m);
                     ("total_input_tokens", total_input_tokens m);
                     ("total_output_tokens", total_output_tokens m);
                     ("avg_duration", avg_duration m);
                     ("success_rate", rate)]).
  { unfold metric_data, metric_data_of, metrics_items. rewrite S. reflexivity. }
  split; [unfold metrics_items; now rewrite S |].
  split; [unfold len_metrics; now rewrite S |].
  split; [now rewrite D |].
  assert (B : batches_of metric_data = [metric_data]) by (now rewrite D).
  rewrite B. cbn [put_batches]. unfold accepts.
  destruct (put_metric_data ("Custom/Bedrock", metric_data)) as [| msg];
    cbn [put_requests publish_returned]; split; try reflexivity;
    split; intros H; try reflexivity; discriminate.
Qed.

(** ** The windows of the loops *)

(** The number of iterations of the loop from [current_time] to
    [end_time]. *)
Lemma hourly_count_step (current_time end_time : Z) :
  (current_time < end_time)%Z ->
  Z.to_nat ((end_time - current_time + hours 1 - 1) / hours 1)
  = S (Z.to_nat ((end_time - (current_time + hours 1) + hours 1 - 1) / hours 1)).
Proof.
  intros H.
  replace (end_time - current_time + hours 1 - 1)%Z
    with ((end_time - (current_time + hours 1) + hours 1 - 1) + 1 * hours 1)%Z by lia.
  rewrite Z.div_add by (unfold hours; lia).
  rewrite Z2Nat.inj_add; [rewrite Nat.add_1_r; reflexivity | | lia].
  apply Z.div_pos; unfold hours; lia.
Qed.

Lemma hourly_count_none (current_time end_time : Z) :
  (end_time <= current_time)%Z ->
  Z.to_nat ((end_time - current_time + hours 1 - 1) / hours 1) = 0%nat.
Proof.
  intros H.
  assert (D : ((end_time - current_time + hours 1 - 1) / hours 1 <= 0)%Z).
  { apply Z.lt_succ_r. apply Z.div_lt_upper_bound; unfold hours; lia. }
  lia.
Qed.

Lemma hourly_windows_closed (n : nat) :
  forall current_time end_time : Z,
    Z.to_nat ((end_time - current_time + hours 1 - 1) / hours 1) = n ->
    hourly_windows current_time end_time
    = map (fun i : nat =>
             ((current_time + hours (Z.of_nat i))%Z,
              (current_time + hours (Z.of_nat (S i)))%Z))
          (seq 0 n).
Proof.
  induction n as [| n IH]; intros c e N.
  - destruct (Z_lt_dec c e) as [L | L].
    + rewrite hourly_count_step in N by exact L. discriminate.
    + apply hourly_windows_ge. lia.
  - destruct (Z_lt_dec c e) as [L | L].
    + rewrite hourly_count_step in N by exact L. apply Nat.succ_inj in N.
      rewrite hourly_windows_lt by exact L. rewrite (IH _ _ N).
      cbn [seq map]. f_equal.
      * f_equal; unfold hours; lia.
      * rewrite <- seq_shift, map_map. apply map_ext. intros i.
        f_equal; unfold hours; lia.
    + rewrite hourly_count_none in N by lia. discriminate.
Qed.

(** X4. The loop [while current_time < end_time] with steps of one hour
    visits [ceil((end_time - current_time) / 1h)] windows (none when the span
    is empty or negative); the [i]-th is the hour that starts [i] hours after
    [current_time], so the windows are adjacent and in order; the last one
    ends at [end_time] or later, by less than an hour. *)
Theorem hourly_windows_cover (current_time end_time : Z) :
  let n := Z.to_nat ((end_time - current_time + hours 1 - 1) / hours 1) in
  hourly_windows current_time end_time
  = map (fun i : nat =>
           ((current_time + hours (Z.of_nat i))%Z,
            (current_time + hours (Z.of_nat (S i)))%Z))
        (seq 0 n)
  /\ ((end_time <= current_time)%Z -> hourly_windows current_time end_time = [])
  /\ ((current_time < end_time)%Z ->
      (end_time <= current_time + hours (Z.of_nat n) < end_time + hours 1)%Z).
Proof.
  intros n. split; [now apply hourly_windows_closed |].
  split; [apply hourly_windows_ge |].
  intros L. unfold n.
  assert (P : (0 <= (end_time - current_time + hours 1 - 1) / hours 1)%Z)
    by (apply Z.div_pos; unfold hours; lia).
  rewrite Z2Nat.id by exact P.
  pose proof (Z.div_mod (end_time - current_time + hours 1 - 1) (hours 1)) as D.
  pose proof (Z.mod_pos_bound (end_time - current_time + hours 1 - 1) (hours 1)) as B.
  unfold hours in *. lia.
Qed.

(** Two hours and one microsecond take three windows. *)
Lemma hourly_windows_cover_witness :
  (0 < hours 2 + 1)%Z
  /\ hourly_windows 0 (hours 2 + 1)
     = [(0%Z, hours 1); (hours 1, hours 2); (hours 2, hours 3)]
  /\ (hours 2 + 1 <= hours 3 < hours 2 + 1 + hours 1)%Z.
Proof.
  assert (L : (0 < hours 2 + 1)%Z) by reflexivity.
  destruct (hourly_windows_cover 0 (hours 2 + 1)) as (W & _ & C).
  split; [exact L |]. split; [exact W | exact (C L)].
Defined.

(** X5. The first loop of [detect_anomalies] fetches the 168 hours that end
    at the first reading of the clock; the second loop fetches the same
    windows without the last one, so the hour before the run never enters
    the error-rate series. When the run does not start on a full hour, the
    window of the current hour begins inside the last baseline window: the
    start of the hour under test is part of its own baseline. *)
Theorem baseline_windows_shape (utcnow_1 utcnow_2 : Z) :
  length (baseline_windows utcnow_1) = 168%nat
  /\ baseline_windows utcnow_1
     = error_windows (utcnow_1 - days 7)%Z utcnow_1
       ++ [((utcnow_1 - hours 1)%Z, utcnow_1)]
  /\ ((utcnow_1 mod hours 1 <> 0)%Z ->
      (utcnow_1 <= utcnow_2 < utcnow_1 - utcnow_1 mod hours 1 + hours 1)%Z ->
      (utcnow_1 - hours 1 < fst (current_window utcnow_2) < utcnow_1)%Z).
Proof.
  split; [| split].
  - now rewrite baseline_windows_whole, length_map, length_seq.
  - rewrite baseline_windows_whole, error_windows_whole.
    change (seq 0 168) with (seq 0 (167 + 1)).
    rewrite seq_app, map_app. f_equal. cbn [seq map Nat.add].
    f_equal. f_equal; unfold days, hours; lia.
  - intros M [L U]. unfold current_window, replace_minute_second_microsecond.
    cbn [fst].
    pose proof (Z.mod_pos_bound utcnow_1 (hours 1)) as B1.
    pose proof (Z.mod_pos_bound utcnow_2 (hours 1)) as B2.
    pose proof (Z.div_mod utcnow_1 (hours 1)) as D1.
    pose proof (Z.div_mod utcnow_2 (hours 1)) as D2.
    assert (Q : (utcnow_2 / hours 1 = utcnow_1 / hours 1)%Z).
    { unfold hours in *. nia. }
    unfold hours in *. lia.
Qed.

(** A run that starts at half past. *)
Lemma baseline_windows_shape_witness :
  ((days 7 + 1800000000) mod hours 1 <> 0)%Z
  /\ (days 7 + 1800000000 <= days 7 + 1800000001
      < days 7 + 1800000000 - (days 7 + 1800000000) mod hours 1 + hours 1)%Z
  /\ (days 7 + 1800000000 - hours 1
      < fst (current_window (days 7 + 1800000001))
      < days 7 + 1800000000)%Z.
Proof.
  assert (M : ((days 7 + 1800000000) mod hours 1 <> 0)%Z) by discriminate.
  assert (T : (days 7 + 1800000000 <= days 7 + 1800000001
               < days 7 + 1800000000 - (days 7 + 1800000000) mod hours 1 + hours 1)%Z)
    by (split; [discriminate | reflexivity]).
  split; [exact M |]. split; [exact T |].
  exact (proj2 (proj2 (baseline_windows_shape (days 7 + 1800000000)
                         (days 7 + 1800000001))) M T).
Defined.

(** ** The multiplier *)

Lemma stdev_of_nonneg (xs : list R) : 0 <= stdev_of xs.
Proof. unfold stdev_of. apply sqrt_pos. Qed.

Lemma usage_threshold_monotone (k1 k2 : R) (xs : list R) :
  k1 <= k2 -> usage_threshold k1 xs <= usage_threshold k2 xs.
Proof.
  intros H. unfold usage_threshold.
  pose proof (stdev_of_nonneg xs). nra.
Qed.

Lemma error_threshold_monotone (k1 k2 : R) (xs : list R) :
  k1 <= k2 -> error_threshold_of k1 xs <= error_threshold_of k2 xs.
Proof.
  intros H. unfold error_threshold_of.
  destruct (1 <? length xs)%nat.
  - pose proof (stdev_of_nonneg xs). nra.
  - lra.
Qed.

Lemma usage_check_fires (k : R) (series : list R) (m : metrics) (stamp : Z) :
  total_invocations m > usage_threshold k series ->
  usage_check k series m stamp = [usage_record k series m stamp].
Proof.
  intros H%gtb_true. unfold usage_check. now rewrite H.
Qed.

Lemma error_check_fires (k : R) (series : list R) (m : metrics) (stamp : Z) :
  (1 <= length series)%nat ->
  error_rate m > error_threshold_of k series ->
  error_rate m > 5 ->
  error_check k series m stamp = [error_record k series m stamp].
Proof.
  intros L H1%gtb_true H2%gtb_true. unfold error_check.
  destruct series as [| r rates]; [simpl in L; lia |].
  now rewrite H1, H2.
Qed.

(** X6. Raising the threshold multiplier never adds an anomaly: whatever a
    run reports with the larger multiplier, the run with the smaller one
    reports too, for the same value and against a threshold that is not
    higher. *)
Theorem raising_multiplier_never_adds (cw : cloudwatch) (k1 k2 : R)
    (utcnow_1 utcnow_2 : Z) :
  k1 <= k2 ->
  forall a2 : anomaly,
    In a2 (fst (detect_anomalies cw k2 utcnow_1 utcnow_2)) ->
    exists a1 : anomaly,
      In a1 (fst (detect_anomalies cw k1 utcnow_1 utcnow_2))
      /\ type a1 = type a2
      /\ current_value a1 = current_value a2
      /\ threshold a1 <= threshold a2.
Proof.
  intros K a2. rewrite !detect_anomalies_result.
  set (m := window_metrics cw (current_window utcnow_2)).
  set (stamp := fst (current_window utcnow_2)).
  set (series := baseline_metrics_of cw utcnow_1).
  set (rates := baseline_error_rates_of cw (utcnow_1 - days 7)%Z utcnow_1).
  intros [H | H]%in_app_or.
  - apply in_usage_check in H as [-> G].
    pose proof (usage_threshold_monotone k1 k2 series K) as T.
    exists (usage_record k1 series m stamp). split.
    + apply in_or_app. left. rewrite usage_check_fires by lra. now left.
    + repeat split. exact T.
  - destruct (Py.gtb (total_invocations m) 0); [| contradiction].
    apply in_error_check in H as (-> & L & G1 & G2).
    pose proof (error_threshold_monotone k1 k2 rates K) as T.
    exists (error_record k1 rates m stamp). split.
    + apply in_or_app. right. rewrite error_check_fires by (try lra; exact L).
      now left.
    + repeat split. exact T.
Qed.

(** What the week with one active hour reports at 3 deviations, it reports
    at 2. *)
Lemma raising_multiplier_never_adds_witness :
  2 <= 3
  /\ forall a2 : anomaly,
       In a2 (fst (detect_anomalies quiet_week 3 (days 7) (days 7))) ->
       exists a1 : anomaly,
         In a1 (fst (detect_anomalies quiet_week 2 (days 7) (days 7)))
         /\ type a1 = type a2
         /\ current_value a1 = current_value a2
         /\ threshold a1 <= threshold a2.
Proof.
  assert (K : 2 <= 3) by lra.
  split; [exact K |].
  exact (raising_multiplier_never_adds quiet_week 2 3 (days 7) (days 7) K).
Defined.

(** ** A flat baseline *)

(** X7. When every hour of the baseline week had the same number of
    invocations, the deviation is 0 and the multiplier has no effect: a
    [high_usage] anomaly is emitted exactly when the current hour has more
    invocations than that number, and it is [high] exactly above one and a
    half times it. After an idle week (or a week of failed fetches, which
    count as 0) any invocation at all is reported with severity [high]. *)
Theorem flat_baseline_flags_any_excess (cw : cloudwatch) (threshold_multiplier c : R)
    (utcnow_1 utcnow_2 : Z) :
  (forall w : Z * Z,
     In w (baseline_windows utcnow_1) -> total_invocations (window_metrics cw w) = c) ->
  let value := total_invocations (window_metrics cw (current_window utcnow_2)) in
  let result := fst (detect_anomalies cw threshold_multiplier utcnow_1 utcnow_2) in
  ((exists a : anomaly, In a result /\ type a = "high_usage") <-> value > c)
  /\ (forall a : anomaly,
        In a result -> type a = "high_usage" ->
        threshold a = c /\ baseline_mean a = c
        /\ (severity a = "high" <-> value > c * 1.5))
  /\ (c = 0 -> value > 0 ->
      exists a : anomaly,
        In a result /\ type a = "high_usage" /\ severity a = "high").
Proof.
  intros F value result.
  assert (B : baseline_metrics_of cw utcnow_1 = repeat c 168).
  { unfold baseline_metrics_of. rewrite (map_constant _ _ _ c _ F).
    f_equal. now rewrite baseline_windows_whole, length_map, length_seq. }
  assert (T : usage_threshold threshold_multiplier (repeat c 168) = c)
    by (apply usage_threshold_repeat; lia).
  assert (M : mean_of (repeat c 168) = c) by (apply mean_of_repeat; lia).
  unfold result. rewrite detect_anomalies_result, B. fold value.
  set (m := window_metrics cw (current_window utcnow_2)).
  set (stamp := fst (current_window utcnow_2)).
  assert (U : forall a, In a (usage_check threshold_multiplier (repeat c 168) m stamp
                              ++ (if Py.gtb value 0
                                  then error_check threshold_multiplier
                                         (baseline_error_rates_of cw
                                            (utcnow_1 - days 7)%Z utcnow_1) m stamp
                                  else [])) ->
                       type a = "high_usage" ->
                       a = usage_record threshold_multiplier (repeat c 168) m stamp
                       /\ value > c).
  { intros a [H | H]%in_app_or Ty.
    - apply in_usage_check in H as [-> G]. rewrite T in G. now split.
    - destruct (Py.gtb value 0); [| contradiction].
      apply in_error_check in H as [-> _]. discriminate. }
  assert (Fire : value > c ->
                 In (usage_record threshold_multiplier (repeat c 168) m stamp)
                    (usage_check threshold_multiplier (repeat c 168) m stamp
                     ++ (if Py.gtb value 0
                         then error_check threshold_multiplier
                                (baseline_error_rates_of cw
                                   (utcnow_1 - days 7)%Z utcnow_1) m stamp
                         else []))).
  { intros G. apply in_or_app. left.
    rewrite usage_check_fires by (rewrite T; exact G). now left. }
  split; [split |]; [| | split].
  - intros (a & H & Ty). now destruct (U a H Ty).
  - intros G. eexists. split; [exact (Fire G) | reflexivity].
  - intros a H Ty. destruct (U a H Ty) as [-> _].
    cbn [threshold baseline_mean severity usage_record]. rewrite T, M.
    repeat split; apply severity_of_cases.
  - intros -> G. eexists. split; [exact (Fire G) |]. split; [reflexivity |].
    cbn [severity usage_record]. rewrite T. apply severity_of_cases.
    unfold m in *. fold value. lra.
Qed.

(** A week of failed fetches, then five invocations. *)
Lemma flat_baseline_flags_any_excess_witness :
  (forall w : Z * Z,
     In w (baseline_windows (days 7)) ->
     total_invocations (window_metrics (outage_until (hours 168)) w) = 0)
  /\ exists a : anomaly,
       In a (fst (detect_anomalies (outage_until (hours 168)) 2 (days 7) (days 7)))
       /\ type a = "high_usage" /\ severity a = "high".
Proof.
  assert (F : forall w : Z * Z,
            In w (baseline_windows (days 7)) ->
            total_invocations (window_metrics (outage_until (hours 168)) w) = 0).
  { intros w Hw. rewrite baseline_windows_whole in Hw.
    apply in_map_iff in Hw as [i [<- Hi%in_seq]].
    apply outage_until_failed. cbn [fst]. unfold days, hours. lia. }
  split; [exact F |].
  apply (proj2 (proj2 (flat_baseline_flags_any_excess (outage_until (hours 168)) 2 0
                         (days 7) (days 7) F)) eq_refl).
  rewrite outage_until_answered.
  - lra.
  - rewrite current_window_days_7. cbn [fst]. apply Z.le_refl.
Defined.

(** ** The success rate *)

(** X8. For a window with invocations, [collect_usage_metrics] reports a
    [success_rate] that lies between 0 and 100 whenever the errors lie
    between 0 and the invocations; it is 100 when the window has no errors,
    and 0 when every invocation failed. A request for [Errors] that raises
    leaves [total_errors] at 0, so such a window is reported with a success
    rate of 100. *)
Theorem success_rate_is_a_percentage (cw : cloudwatch) (w : Z * Z) :
  let m := window_metrics cw w in
  total_invocations m > 0 ->
  exists rate : R,
    success_rate m = Some rate
    /\ (0 <= total_errors m <= total_invocations m -> 0 <= rate <= 100)
    /\ (total_errors m = 0 -> rate = 100)
    /\ (total_errors m = total_invocations m -> rate = 0)
    /\ (forall msg : string,
          cw "AWS/Bedrock" "Errors" (fst w) (snd w) 300%Z "Sum" = Raises msg ->
          rate = 100).
Proof.
  intros m G.
  assert (S : success_rate m
              = Some ((total_invocations m - total_errors m) / total_invocations m * 100)).
  { unfold m, window_metrics in *.
    rewrite collect_usage_metrics_run, collect_usage_metrics_try_run in *.
    cbn [fst snd total_invocations total_errors success_rate] in *.
    now rewrite (proj2 (gtb_true _ _) G). }
  assert (Z0 : total_errors m = 0 ->
               (total_invocations m - total_errors m) / total_invocations m * 100 = 100).
  { intros ->. field. lra. }
  exists ((total_invocations m - total_errors m) / total_invocations m * 100).
  split; [exact S |]. split; [| split; [exact Z0 | split]].
  - intros [L U].
    assert (Q : 0 <= (total_invocations m - total_errors m) / total_invocations m <= 1).
    { split.
      - apply Rmult_le_pos; [lra | left; apply Rinv_0_lt_compat; lra].
      - apply (Rmult_le_reg_r (total_invocations m)); [lra |].
        unfold Rdiv. rewrite Rmult_assoc, Rinv_l by lra. lra. }
    lra.
  - intros ->. unfold Rdiv. rewrite Rminus_diag. lra.
  - intros msg H. apply Z0. unfold m, window_metrics.
    rewrite collect_usage_metrics_run, collect_usage_metrics_try_run.
    cbn [fst snd total_errors]. unfold _get_cloudwatch_metric. now rewrite H.
Qed.

(** Ten invocations whose errors cannot be read: a success rate of 100. *)
Lemma success_rate_is_a_percentage_witness :
  total_invocations (window_metrics errors_unavailable (0%Z, hours 1)) > 0
  /\ success_rate (window_metrics errors_unavailable (0%Z, hours 1)) = Some 100.
Proof.
  assert (G : total_invocations (window_metrics errors_unavailable (0%Z, hours 1)) > 0).
  { rewrite errors_unavailable_invocations. lra. }
  split; [exact G |].
  destruct (success_rate_is_a_percentage errors_unavailable (0%Z, hours 1) G)
    as (rate & S & _ & _ & _ & F).
  rewrite S. f_equal. apply (F "AccessDenied"). reflexivity.
Defined.

(** ** The alert of the handler *)

(** X9. A run of the handler publishes at most one message. Without
    anomalies, or without a topic, it publishes nothing; with anomalies and a
    topic it makes exactly one publish request, whose text is the alert
    message over all the anomalies of the run. The response reports status
    200 and nine collected metrics in every case. *)
Theorem handler_alerts_once (sns_topic_arn : option string) (sns_client : sns)
    (cw : cloudwatch) (format_number format_2f : R -> string)
    (publish : metrics -> bool * list log_record)
    (user_behavior : Z * list log_record) (utcnow_0 utcnow_1 utcnow_2 : Z) :
  let anomalies := fst (detect_anomalies cw 2 utcnow_1 utcnow_2) in
  let handled :=
    lambda_handler sns_topic_arn sns_client cw format_number format_2f
      publish user_behavior utcnow_0 utcnow_1 utcnow_2 in
  (anomalies = [] -> alerts handled = [])
  /\ (sns_topic_arn = None \/ sns_topic_arn = Some EmptyString -> alerts handled = [])
  /\ (forall arn : string,
        sns_topic_arn = Some arn -> arn <> EmptyString -> anomalies <> [] ->
        alerts handled
        = [(arn, alert_message format_number format_2f anomalies,
            "Bedrock Usage Anomaly Detected")])
  /\ (length (alerts handled) <= 1)%nat
  /\ statusCode (response handled) = 200%Z
  /\ metrics_collected (response handled) = 9%nat.
Proof.
  intros anomalies handled. unfold handled, lambda_handler, anomalies.
  pose proof (collected_success_rate cw ((utcnow_0 - hours 1)%Z, utcnow_0)) as [rate S].
  unfold window_metrics in S. cbn [fst snd] in S.
  destruct (collect_usage_metrics cw (utcnow_0 - hours 1) utcnow_0) as [m l1].
  cbn [fst] in S.
  destruct (publish m) as [b l2].
  destruct (detect_anomalies cw 2 utcnow_1 utcnow_2) as [found l3].
  destruct user_behavior as [users l4]. cbn [fst alerts response].
  split; [| split; [| split; [| split; [| split]]]].
  - intros ->. reflexivity.
  - intros [-> | ->]; destruct found; reflexivity.
  - intros arn -> N F. destruct found as [| a found]; [contradiction |].
    unfold send_alert. destruct arn as [| c arn]; [contradiction |].
    destruct (sns_client _); reflexivity.
  - destruct found as [| a found]; [simpl; lia |].
    unfold send_alert. destruct sns_topic_arn as [[| c arn] |]; try (simpl; lia).
    destruct (sns_client _); simpl; lia.
  - reflexivity.
  - cbn [metrics_collected]. unfold len_metrics. now rewrite S.
Qed.

(** The week with one active hour, a topic, and SNS down. *)
Lemma handler_alerts_once_witness :
  fst (detect_anomalies quiet_week 2 (days 7) (days 7)) <> []
  /\ alerts (lambda_handler (Some "arn:aws:sns:us-east-1:123456789012:bedrock-alerts")
               sns_down quiet_week (fun _ => "x") (fun _ => "x")
               (fun _ => (true, [])) (0%Z, []) (days 7) (days 7) (days 7))
     = [("arn:aws:sns:us-east-1:123456789012:bedrock-alerts",
         alert_message (fun _ => "x") (fun _ => "x")
           (fst (detect_anomalies quiet_week 2 (days 7) (days 7))),
         "Bedrock Usage Anomaly Detected")].
Proof.
  assert (N : fst (detect_anomalies quiet_week 2 (days 7) (days 7)) <> []).
  { intros E. pose proof quiet_week_anomaly as H. rewrite E in H. exact H. }
  split; [exact N |].
  destruct (handler_alerts_once
              (Some "arn:aws:sns:us-east-1:123456789012:bedrock-alerts")
              sns_down quiet_week (fun _ => "x") (fun _ => "x")
              (fun _ => (true, [])) (0%Z, []) (days 7) (days 7) (days 7))
    as (_ & _ & A & _).
  apply (A _ eq_refl); [discriminate | exact N].
Defined.

(** ** The order of the baseline *)

Lemma fold_left_Rplus (xs : list R) :
  forall a : R, fold_left Rplus xs a = a + fold_left Rplus xs 0.
Proof.
  induction xs as [| x xs IH]; intros a; simpl.
  - lra.
  - rewrite IH, (IH (0 + x)). lra.
Qed.

Lemma sum_cons (x : R) (xs : list R) : Py.sum (x :: xs) = x + Py.sum xs.
Proof.
  unfold Py.sum. simpl. rewrite fold_left_Rplus. lra.
Qed.

Lemma sum_permutation (xs ys : list R) :
  Permutation xs ys -> Py.sum xs = Py.sum ys.
Proof.
  induction 1 as [| x xs ys _ IH | x y xs | xs ys zs _ IH1 _ IH2].
  - reflexivity.
  - now rewrite !sum_cons, IH.
  - rewrite !sum_cons. lra.
  - now rewrite IH1.
Qed.

Lemma mean_of_permutation (xs ys : list R) :
  Permutation xs ys -> mean_of xs = mean_of ys.
Proof.
  intros P. unfold mean_of.
  now rewrite (sum_permutation _ _ P), (Permutation_length P).
Qed.

Lemma stdev_of_permutation (xs ys : list R) :
  Permutation xs ys -> stdev_of xs = stdev_of ys.
Proof.
  intros P. unfold stdev_of.
  rewrite (mean_of_permutation _ _ P), (Permutation_length P).
  f_equal. f_equal. apply sum_permutation. now apply Permutation_map.
Qed.

(** X10. The detector looks at the baseline as a bag of samples: a run from
    the same samples in any other order returns the same anomalies and the
    same log. Neither the time of day nor a trend within the week plays a
    part in the decision. *)
Theorem baseline_order_is_irrelevant (cw : cloudwatch) (threshold_multiplier : R)
    (start_time end_time utcnow : Z) (baseline_1 baseline_2 : list R) :
  Permutation baseline_1 baseline_2 ->
  detect_anomalies_from cw threshold_multiplier start_time end_time utcnow baseline_1
  = detect_anomalies_from cw threshold_multiplier start_time end_time utcnow baseline_2.
Proof.
  intros P. pose proof (Permutation_length P) as L.
  destruct (Nat.lt_ge_cases (length baseline_1) 24) as [S | S].
  - rewrite !detect_anomalies_from_short by lia. reflexivity.
  - rewrite !detect_anomalies_from_long by lia.
    unfold usage_check, usage_record, usage_threshold.
    now rewrite (mean_of_permutation _ _ P), (stdev_of_permutation _ _ P).
Qed.

(** Twenty-three quiet hours and a busy one, the busy one first or last. *)
Lemma baseline_order_is_irrelevant_witness :
  Permutation (100 :: repeat 10 23) (repeat 10 23 ++ [100])
  /\ detect_anomalies_from ten_then_thirty_one 2 0 0 (hours 1) (100 :: repeat 10 23)
     = detect_anomalies_from ten_then_thirty_one 2 0 0 (hours 1) (repeat 10 23 ++ [100]).
Proof.
  assert (P : Permutation (100 :: repeat 10 23) (repeat 10 23 ++ [100]))
    by apply Permutation_cons_append.
  split; [exact P |].
  exact (baseline_order_is_irrelevant ten_then_thirty_one 2 0 0 (hours 1) _ _ P).
Defined.

(** ** The guard on the length of the baseline *)

(** X11. In [detect_anomalies] the test [len(baseline_metrics) < 24] never
    succeeds: the first loop appends one sample per hour of the week, 168 in
    all, whether the fetches succeed or raise. So a run never logs the
    warning about insufficient data; all that it logs are the errors of
    failed fetches. *)
Theorem insufficient_data_is_never_reported (cw : cloudwatch)
    (threshold_multiplier : R) (utcnow_1 utcnow_2 : Z) :
  length (baseline_metrics_of cw utcnow_1) = 168%nat
  /\ fst (fst (collect_baseline cw (S := list anomaly) (baseline_windows utcnow_1) [] []))
     = inr (baseline_metrics_of cw utcnow_1)
  /\ Forall (fun r : log_record => fst r = ERROR)
       (snd (detect_anomalies cw threshold_multiplier utcnow_1 utcnow_2))
  /\ ~ In (WARNING, "Insufficient data for anomaly detection")
          (snd (detect_anomalies cw threshold_multiplier utcnow_1 utcnow_2)).
Proof.
  assert (E : Forall (fun r : log_record => fst r = ERROR)
                (snd (detect_anomalies cw threshold_multiplier utcnow_1 utcnow_2))).
  { rewrite detect_anomalies_unfold. cbn [snd].
    rewrite detect_anomalies_from_long by (rewrite baseline_metrics_length; lia).
    cbn [snd]. apply Forall_app. split; [apply windows_log_errors |].
    apply Forall_app. split; [apply window_log_errors |].
    destruct (Py.gtb _ 0); [apply windows_log_errors | constructor]. }
  split; [apply baseline_metrics_length |].
  split; [rewrite collect_baseline_run; reflexivity |].
  split; [exact E |].
  intros H. rewrite Forall_forall in E. specialize (E _ H). discriminate.
Qed.

(** ** The cost estimate *)

Lemma average_prices :
  Py.mean (map (fun p => input (snd p)) model_pricing) = inr 0.000010455
  /\ Py.mean (map (fun p => output (snd p)) model_pricing) = inr 0.00001607.
Proof.
  unfold model_pricing, Py.mean, Py.sum. cbn [map snd input output fold_left length].
  split; f_equal; simpl INR; lra.
Qed.

Lemma generate_cost_analysis_try_run (cw : cloudwatch) (start_time end_time : Z) :
  let m := window_metrics cw (start_time, end_time) in
  generate_cost_analysis_try cw start_time end_time cost_analysis_init
  = (inr tt,
     {| total_estimated_cost :=
          total_input_tokens m * 0.000010455 + total_output_tokens m * 0.00001607;
        cost_by_model := []; cost_by_day := [];
        token_usage := {| input_tokens := total_input_tokens m;
                          output_tokens := total_output_tokens m |};
        input_token_cost := Some (total_input_tokens m * 0.000010455);
        output_token_cost := Some (total_output_tokens m * 0.00001607) |},
     window_log cw (start_time, end_time)).
Proof.
  intros m. unfold generate_cost_analysis_try.
  destruct average_prices as [I O]. rewrite I, O.
  unfold m, window_metrics, window_log. cbn [fst snd].
  destruct (collect_usage_metrics cw start_time end_time) as [metrics l].
  unfold bind, call, modify, eval. cbn [fst snd].
  now rewrite !app_nil_r.
Qed.

(** X12. [generate_cost_analysis] does not raise. Its estimate prices every
    input token at 0.000010455 and every output token at 0.00001607, the
    averages of the four list prices, whichever model the tokens went to;
    the total is the sum of the two costs; the breakdowns by model and by day
    stay empty. When the token counts are not negative, neither is the
    estimate. *)
Theorem cost_estimate_uses_average_prices (cw : cloudwatch) (days_back utcnow : Z) :
  let m := window_metrics cw ((utcnow - days days_back)%Z, utcnow) in
  let c := fst (generate_cost_analysis cw days_back utcnow) in
  fst (fst (generate_cost_analysis_try cw (utcnow - days days_back)%Z utcnow
              cost_analysis_init)) = inr tt
  /\ input_tokens (token_usage c) = total_input_tokens m
  /\ output_tokens (token_usage c) = total_output_tokens m
  /\ input_token_cost c = Some (total_input_tokens m * 0.000010455)
  /\ output_token_cost c = Some (total_output_tokens m * 0.00001607)
  /\ total_estimated_cost c
     = total_input_tokens m * 0.000010455 + total_output_tokens m * 0.00001607
  /\ cost_by_model c = [] /\ cost_by_day c = []
  /\ (0 <= total_input_tokens m -> 0 <= total_output_tokens m ->
      0 <= total_estimated_cost c).
Proof.
  intros m c. unfold c, generate_cost_analysis, try_except.
  rewrite generate_cost_analysis_try_run. fold m.
  cbn [fst snd token_usage input_tokens output_tokens input_token_cost
       output_token_cost total_estimated_cost cost_by_model cost_by_day].
  repeat split. intros I O. nra.
Qed.

(** A thousand tokens each way cost a little more than two and a half
    cents. *)
Lemma cost_estimate_uses_average_prices_witness :
  0 <= total_input_tokens (window_metrics steady_tokens ((days 7 - days 7)%Z, days 7))
  /\ 0 <= total_output_tokens (window_metrics steady_tokens ((days 7 - days 7)%Z, days 7))
  /\ 0 <= total_estimated_cost (fst (generate_cost_analysis steady_tokens 7 (days 7))).
Proof.
  assert (T : total_input_tokens
                (window_metrics steady_tokens ((days 7 - days 7)%Z, days 7)) = 1000
              /\ total_output_tokens
                   (window_metrics steady_tokens ((days 7 - days 7)%Z, days 7)) = 1000).
  { unfold window_metrics.
    rewrite collect_usage_metrics_run, collect_usage_metrics_try_run.
    cbn [fst snd total_input_tokens total_output_tokens].
    split; apply sum_one. }
  destruct T as [I O].
  assert (PI : 0 <= total_input_tokens
                      (window_metrics steady_tokens ((days 7 - days 7)%Z, days 7)))
    by (rewrite I; lra).
  assert (PO : 0 <= total_output_tokens
                      (window_metrics steady_tokens ((days 7 - days 7)%Z, days 7)))
    by (rewrite O; lra).
  split; [exact PI |]. split; [exact PO |].
  destruct (cost_estimate_uses_average_prices steady_tokens 7 (days 7))
    as (_ & _ & _ & _ & _ & _ & _ & _ & N).
  exact (N PI PO).
Defined.

(** X13. When the two token fetches of the period raise, the estimate is a
    cost of 0 for 0 tokens, with both cost keys present: the dictionary that
    a period without any usage gives. *)
Theorem failed_token_fetch_costs_nothing (cw : cloudwatch) (days_back utcnow : Z)
    (msg_in msg_out : string) :
  cw "AWS/Bedrock" "InputTokens" (utcnow - days days_back)%Z utcnow 300%Z "Sum"
  = Raises msg_in ->
  cw "AWS/Bedrock" "OutputTokens" (utcnow - days days_back)%Z utcnow 300%Z "Sum"
  = Raises msg_out ->
  fst (generate_cost_analysis cw days_back utcnow)
  = {| total_estimated_cost := 0 * 0.000010455 + 0 * 0.00001607;
       cost_by_model := []; cost_by_day := [];
       token_usage := {| input_tokens := 0; output_tokens := 0 |};
       input_token_cost := Some (0 * 0.000010455);
       output_token_cost := Some (0 * 0.00001607) |}
  /\ total_estimated_cost (fst (generate_cost_analysis cw days_back utcnow)) = 0
  /\ In (ERROR, ("Error getting CloudWatch metric InputTokens: " ++ msg_in)%string)
        (snd (generate_cost_analysis cw days_back utcnow))
  /\ fst (generate_cost_analysis silent days_back utcnow)
     = fst (generate_cost_analysis cw days_back utcnow).
Proof.
  intros HI HO.
  assert (T : total_input_tokens
                (window_metrics cw ((utcnow - days days_back)%Z, utcnow)) = 0
              /\ total_output_tokens
                   (window_metrics cw ((utcnow - days days_back)%Z, utcnow)) = 0).
  { unfold window_metrics.
    rewrite collect_usage_metrics_run, collect_usage_metrics_try_run.
    cbn [fst snd total_input_tokens total_output_tokens].
    unfold _get_cloudwatch_metric. now rewrite HI, HO. }
  destruct T as [I O].
  assert (S : total_input_tokens
                (window_metrics silent ((utcnow - days days_back)%Z, utcnow)) = 0
              /\ total_output_tokens
                   (window_metrics silent ((utcnow - days days_back)%Z, utcnow)) = 0).
  { unfold window_metrics.
    rewrite collect_usage_metrics_run, collect_usage_metrics_try_run.
    split; reflexivity. }
  destruct S as [SI SO].
  unfold generate_cost_analysis, try_except.
  rewrite !generate_cost_analysis_try_run. cbn [fst snd].
  rewrite I, O, SI, SO. cbn [total_estimated_cost].
  split; [reflexivity |]. split; [lra |]. split; [| reflexivity].
  unfold window_log. rewrite collect_usage_metrics_run, collect_usage_metrics_try_run.
  cbn [fst snd]. unfold _get_cloudwatch_metric at 3. rewrite HI. cbn [snd].
  apply in_or_app. right. apply in_or_app. right. apply in_or_app. left. now left.
Qed.

(** The first day of a week-long outage. *)
Lemma failed_token_fetch_costs_nothing_witness :
  outage_until (hours 168) "AWS/Bedrock" "InputTokens" (days 1 - days 1)%Z (days 1)
    300%Z "Sum" = Raises "ThrottlingException"
  /\ total_estimated_cost
       (fst (generate_cost_analysis (outage_until (hours 168)) 1 (days 1))) = 0.
Proof.
  assert (HI : outage_until (hours 168) "AWS/Bedrock" "InputTokens"
                 (days 1 - days 1)%Z (days 1) 300%Z "Sum"
               = Raises "ThrottlingException") by reflexivity.
  assert (HO : outage_until (hours 168) "AWS/Bedrock" "OutputTokens"
                 (days 1 - days 1)%Z (days 1) 300%Z "Sum"
               = Raises "ThrottlingException") by reflexivity.
  split; [exact HI |].
  exact (proj1 (proj2 (failed_token_fetch_costs_nothing (outage_until (hours 168))
                         1 (days 1) _ _ HI HO))).
Defined.

(** ** Dates in range *)

Lemma timedelta_days_small (n : Z) :
  (Z.abs n <= 999999999)%Z -> timedelta_days n = inr (days n).
Proof.
  intros H. unfold timedelta_days.
  now rewrite (proj2 (Z.leb_le _ _) H).
Qed.

Lemma datetime_add_in_range (t delta : Z) :
  (datetime_min <= t + delta <= datetime_max)%Z ->
  datetime_add t delta = inr (t + delta)%Z.
Proof.
  intros [L U]. unfold datetime_add.
  now rewrite (proj2 (Z.leb_le _ _) L), (proj2 (Z.leb_le _ _) U).
Qed.

Lemma datetime_add_overflow (t delta : Z) :
  ~ (datetime_min <= t + delta <= datetime_max)%Z ->
  datetime_add t delta = inl OverflowError.
Proof.
  intros H. unfold datetime_add.
  destruct (Z.leb_spec datetime_min (t + delta)) as [L | L];
    destruct (Z.leb_spec (t + delta) datetime_max) as [U | U];
    try reflexivity.
  exfalso. apply H. split; assumption.
Qed.

(** A step back of [i + 1] days from a date is a date exactly when it does
    not pass [datetime.min]. *)
Lemma day_window_in_range (now : Z) (i : nat) :
  (datetime_min <= now <= datetime_max)%Z ->
  (datetime_min <= now - days (Z.of_nat i + 1))%Z ->
  day_window now i
  = inr ((now - days (Z.of_nat i + 1))%Z, (now - days (Z.of_nat i + 1) + days 1)%Z).
Proof.
  intros [L U] B. unfold day_window, datetime_sub.
  assert (S : (Z.abs (Z.of_nat i + 1) <= 999999999)%Z).
  { unfold datetime_min, datetime_max, days in *. lia. }
  rewrite (timedelta_days_small _ S). cbn [and_then].
  rewrite datetime_add_in_range by (unfold days in *; lia). cbn [and_then].
  rewrite timedelta_days_small by (cbn; lia). cbn [and_then].
  replace (now + - days (Z.of_nat i + 1))%Z with (now - days (Z.of_nat i + 1))%Z by lia.
  rewrite datetime_add_in_range by (unfold days in *; lia). reflexivity.
Qed.

Lemma day_window_overflow (now : Z) (i : nat) :
  (now - days (Z.of_nat i + 1) < datetime_min)%Z ->
  day_window now i = inl OverflowError.
Proof.
  intros B. unfold day_window, datetime_sub, timedelta_days.
  destruct (Z.abs (Z.of_nat i + 1) <=? 999999999)%Z; [| reflexivity].
  cbn [and_then]. rewrite datetime_add_overflow by lia. reflexivity.
Qed.

(** ** The error trend *)

Lemma nth_map_seq (A : Type) (f : nat -> A) (n i : nat) (d : A) :
  (i < n)%nat -> nth i (map f (seq 0 n)) d = f i.
Proof.
  intros H.
  rewrite (nth_indep _ d (f 0%nat)) by (rewrite length_map, length_seq; exact H).
  rewrite (map_nth f (seq 0 n) 0%nat i), seq_nth by exact H. reflexivity.
Qed.

Lemma error_rates_cons (m : metrics) (ms : list metrics) :
  error_rates (m :: ms)
  = (if Py.gtb (total_invocations m) 0 then [error_rate m] else []) ++ error_rates ms.
Proof. reflexivity. Qed.

Section ErrorTrend.

Variable cw : cloudwatch.
Variable utcnow : nat -> Z.

Hypothesis clock : forall i : nat, (datetime_min <= utcnow i <= datetime_max)%Z.

(** While no date leaves the range, the loop is the second loop of
    [detect_anomalies] over the days. *)
Lemma daily_error_rates_loop_run (iterations : list nat) :
  forall acc : list R,
    (forall i : nat, In i iterations ->
                     (datetime_min <= utcnow i - days (Z.of_nat i + 1))%Z) ->
    daily_error_rates_loop cw utcnow iterations acc
    = (inr (acc ++ error_rates (map (window_metrics cw) (map (day_of utcnow) iterations))),
       flat_map (window_log cw) (map (day_of utcnow) iterations)).
Proof.
  induction iterations as [| i rest IH]; intros acc H; cbn [daily_error_rates_loop].
  - cbn. now rewrite app_nil_r.
  - rewrite day_window_in_range by (try apply clock; apply H; now left).
    replace (collect_usage_metrics cw (utcnow i - days (Z.of_nat i + 1))
               (utcnow i - days (Z.of_nat i + 1) + days 1))
      with (window_metrics cw (day_of utcnow i), window_log cw (day_of utcnow i))
      by (unfold window_metrics, window_log, day_of; cbn [fst snd];
          now destruct (collect_usage_metrics cw _ _)).
    cbn [map flat_map]. rewrite error_rates_cons.
    destruct (Py.gtb (total_invocations (window_metrics cw (day_of utcnow i))) 0) eqn:G.
    + rewrite (div_positive _ _ G), IH by (intros j Hj; apply H; now right).
      unfold error_rate. now rewrite <- app_assoc.
    + rewrite IH by (intros j Hj; apply H; now right). reflexivity.
Qed.

(** The loop ends in an exception exactly when a step back passes
    [datetime.min]. *)
Lemma daily_error_rates_loop_raises (iterations : list nat) :
  forall acc : list R,
    (exists e, fst (daily_error_rates_loop cw utcnow iterations acc) = inl e)
    <-> exists i : nat,
          In i iterations /\ (utcnow i - days (Z.of_nat i + 1) < datetime_min)%Z.
Proof.
  induction iterations as [| i rest IH]; intros acc; cbn [daily_error_rates_loop].
  - split; [intros [e H]; discriminate | intros (i & [] & _)].
  - destruct (Z.lt_ge_cases (utcnow i - days (Z.of_nat i + 1)) datetime_min) as [B | B].
    + rewrite day_window_overflow by exact B. split.
      * intros _. exists i. split; [now left | exact B].
      * intros _. exists OverflowError. reflexivity.
    + rewrite day_window_in_range by (try apply clock; exact B).
      destruct (collect_usage_metrics cw _ _) as [daily_metrics l].
      destruct (Py.gtb (total_invocations daily_metrics) 0) eqn:G.
      * rewrite (div_positive _ _ G).
        specialize (IH (acc ++ [total_errors daily_metrics
                                / total_invocations daily_metrics * 100])).
        destruct (daily_error_rates_loop cw utcnow rest _) as [r l'].
        cbn [fst] in *. rewrite IH. split.
        -- intros (j & Hj & Bj). exists j. split; [now right | exact Bj].
        -- intros (j & [<- | Hj] & Bj); [lia | exists j; split; assumption].
      * specialize (IH acc).
        destruct (daily_error_rates_loop cw utcnow rest _) as [r l'].
        cbn [fst] in *. rewrite IH. split.
        -- intros (j & Hj & Bj). exists j. split; [now right | exact Bj].
        -- intros (j & [<- | Hj] & Bj); [lia | exists j; split; assumption].
Qed.

End ErrorTrend.

Lemma calculate_error_trend_cases (cw : cloudwatch) (utcnow : nat -> Z) (days_back : Z) :
  (forall i : nat, (datetime_min <= utcnow i <= datetime_max)%Z) ->
  let rates := error_rates (map (window_metrics cw) (day_windows utcnow days_back)) in
  ((exists i : nat,
      (i < Z.to_nat days_back)%nat
      /\ (utcnow i - days (Z.of_nat i + 1) < datetime_min)%Z) ->
   fst (_calculate_error_trend cw utcnow days_back) = "Unknown")
  /\ ((forall i : nat,
         (i < Z.to_nat days_back)%nat ->
         (datetime_min <= utcnow i - days (Z.of_nat i + 1))%Z) ->
      fst (_calculate_error_trend cw utcnow days_back)
      = if (2 <=? length rates)%nat
        then
          if Py.gtb (nth 0 rates 0) (last rates 0) then "Improving"
          else if Py.gtb (last rates 0) (nth 0 rates 0) then "Worsening"
          else "Stable"
        else "Insufficient Data").
Proof.
  intros clock rates. unfold _calculate_error_trend. split.
  - intros (i & Hi & B).
    destruct (proj2 (daily_error_rates_loop_raises cw utcnow clock
                       (seq 0 (Z.to_nat days_back)) [])) as [e E].
    { exists i. split; [apply in_seq; lia | exact B]. }
    destruct (daily_error_rates_loop cw utcnow _ _) as [[e' | r] l];
      [reflexivity | discriminate].
  - intros H.
    rewrite (daily_error_rates_loop_run cw utcnow clock)
      by (intros i Hi%in_seq; apply H; lia).
    reflexivity.
Qed.


Lemma worse_yesterday_rates :
  error_rates (map (window_metrics worse_yesterday) (day_windows day_ten 2)) = [50; 10].
Proof.
  unfold error_rates, day_windows, day_of, day_ten.
  change (Z.to_nat 2) with 2%nat. cbn [seq map flat_map].
  unfold worse_yesterday, error_rate.
  repeat match goal with
  | |- context [window_metrics (source ?f ?g) ?w] =>
      let I := fresh "I" in let E := fresh "E" in
      destruct (source_metrics f g w) as (I & E & _); rewrite ?I, ?E; clear I E
  end.
  cbn [fst].
  change ((days 10 - days (Z.of_nat 0 + 1) =? days 9)%Z) with true.
  change ((days 10 - days (Z.of_nat 1 + 1) =? days 9)%Z) with false.
  cbv iota. rewrite !sum_one.
  replace (Py.gtb 100 0) with true by (symmetry; apply gtb_true; lra).
  cbn [app]. f_equal; [lra | f_equal; lra].
Qed.

Lemma day_ten_in_range :
  (forall i : nat, (datetime_min <= day_ten i <= datetime_max)%Z)
  /\ (forall i : nat,
        (i < Z.to_nat 2)%nat ->
        (datetime_min <= day_ten i - days (Z.of_nat i + 1))%Z).
Proof.
  unfold day_ten, datetime_min, datetime_max, days. split; intros i; lia.
Qed.

Lemma worse_yesterday_trend :
  fst (_calculate_error_trend worse_yesterday day_ten 2) = "Improving".
Proof.
  destruct day_ten_in_range as [C B].
  rewrite (proj2 (calculate_error_trend_cases worse_yesterday day_ten 2 C) B).
  rewrite worse_yesterday_rates. cbn [length Nat.leb nth last].
  now replace (Py.gtb 50 10) with true by (symmetry; apply gtb_true; lra).
Qed.


(** ** The cost trend *)

Lemma period_in_range_dec (utcnow days_back : Z) :
  {period_in_range utcnow days_back} + {~ period_in_range utcnow days_back}.
Proof.
  unfold period_in_range.
  destruct (Z_le_dec (Z.abs days_back) 999999999);
    destruct (Z_le_dec datetime_min (utcnow - days days_back));
    destruct (Z_le_dec (utcnow - days days_back) datetime_max);
    try (left; repeat split; assumption); right; intros (A & B & C); contradiction.
Qed.

Lemma generate_cost_analysis_call_in_range (cw : cloudwatch) (days_back utcnow : Z) :
  period_in_range utcnow days_back ->
  generate_cost_analysis_call cw days_back utcnow
  = inr (generate_cost_analysis cw days_back utcnow).
Proof.
  intros (A & B). unfold generate_cost_analysis_call, datetime_sub.
  rewrite (timedelta_days_small _ A). cbn [and_then].
  rewrite datetime_add_in_range by lia. reflexivity.
Qed.

Lemma generate_cost_analysis_call_overflow (cw : cloudwatch) (days_back utcnow : Z) :
  ~ period_in_range utcnow days_back ->
  generate_cost_analysis_call cw days_back utcnow = inl OverflowError.
Proof.
  intros N. unfold generate_cost_analysis_call, datetime_sub, timedelta_days.
  destruct (Z.leb_spec (Z.abs days_back) 999999999) as [A | A]; [| reflexivity].
  cbn [and_then]. rewrite datetime_add_overflow; [reflexivity |].
  intros B. apply N. split; [exact A | lia].
Qed.

Lemma calculate_cost_trend_cases (cw : cloudwatch) (utcnow_1 utcnow_2 days_back : Z) :
  let current := total_estimated_cost (fst (generate_cost_analysis cw days_back utcnow_1)) in
  let doubled :=
    total_estimated_cost (fst (generate_cost_analysis cw (days_back * 2)%Z utcnow_2)) in
  (~ (period_in_range utcnow_1 days_back /\ period_in_range utcnow_2 (days_back * 2)) ->
   fst (_calculate_cost_trend cw utcnow_1 utcnow_2 days_back) = "Unknown")
  /\ (period_in_range utcnow_1 days_back ->
      period_in_range utcnow_2 (days_back * 2) ->
      fst (_calculate_cost_trend cw utcnow_1 utcnow_2 days_back)
      = if Py.gtb (doubled / 2) 0
        then
          if Py.gtb ((current - doubled / 2) / (doubled / 2) * 100) 10 then "Increasing"
          else if Py.gtb (-10) ((current - doubled / 2) / (doubled / 2) * 100)
          then "Decreasing"
          else "Stable"
        else "Insufficient Data").
Proof.
  intros current doubled. unfold _calculate_cost_trend. split.
  - intros N.
    destruct (period_in_range_dec utcnow_1 days_back) as [P1 | P1].
    + rewrite (generate_cost_analysis_call_in_range _ _ _ P1).
      rewrite generate_cost_analysis_call_overflow; [reflexivity |].
      intros P2. apply N. split; assumption.
    + now rewrite (generate_cost_analysis_call_overflow _ _ _ P1).
  - intros P1 P2.
    rewrite (generate_cost_analysis_call_in_range _ _ _ P1),
      (generate_cost_analysis_call_in_range _ _ _ P2).
    cbn [fst]. fold current. fold doubled.
    destruct (Py.gtb (doubled / 2) 0) eqn:G; [| reflexivity].
    now rewrite (div_positive _ _ G).
Qed.


Lemma steady_tokens_cost (d t : Z) :
  total_estimated_cost (fst (generate_cost_analysis steady_tokens d t))
  = 1000 * 0.000010455 + 1000 * 0.00001607.
Proof.
  unfold generate_cost_analysis, try_except.
  rewrite generate_cost_analysis_try_run. cbn [fst total_estimated_cost].
  unfold window_metrics.
  rewrite collect_usage_metrics_run, collect_usage_metrics_try_run.
  cbn [fst snd total_input_tokens total_output_tokens].
  unfold _get_cloudwatch_metric, steady_tokens. cbn [fst String.eqb Ascii.eqb Bool.eqb].
  now rewrite !sum_one.
Qed.


(** ** Dictionaries and sets *)

Lemma dict_set_total (k : string) (c : Z) (d : dict Z) :
  values_total (dict_set k (dict_get k 0 d + c)%Z d) = (values_total d + c)%Z.
Proof.
  unfold values_total, dict_get.
  induction d as [| [k' v'] rest IH]; cbn [dict_set dict_find].
  - simpl. lia.
  - destruct (String.eqb k k') eqn:E.
    + simpl. lia.
    + cbn [map snd fold_right]. rewrite IH. lia.
Qed.

Lemma dict_set_keys (V : Type) (k : string) (v : V) (d : dict V) :
  map fst (dict_set k v d)
  = if existsb (String.eqb k) (map fst d) then map fst d else map fst d ++ [k].
Proof.
  induction d as [| [k' v'] rest IH]; cbn [dict_set map fst existsb].
  - reflexivity.
  - destruct (String.eqb k k') eqn:E.
    + apply String.eqb_eq in E. subst k'. reflexivity.
    + cbn [map fst orb]. rewrite IH.
      destruct (existsb (String.eqb k) (map fst rest)); reflexivity.
Qed.

Lemma existsb_eqb_false (x : string) (s : list string) :
  existsb (String.eqb x) s = false -> ~ In x s.
Proof.
  intros E H. assert (T : existsb (String.eqb x) s = true).
  { apply existsb_exists. exists x. split; [exact H | apply String.eqb_refl]. }
  congruence.
Qed.

Lemma nodup_snoc (x : string) (s : list string) :
  NoDup s -> ~ In x s -> NoDup (s ++ [x]).
Proof.
  intros N H. apply NoDup_app; [exact N | constructor; [intros [] | constructor] |].
  intros y Hy [<- | []]. contradiction.
Qed.

Lemma dict_set_nodup (V : Type) (k : string) (v : V) (d : dict V) :
  NoDup (map fst d) -> NoDup (map fst (dict_set k v d)).
Proof.
  intros N. rewrite dict_set_keys.
  destruct (existsb (String.eqb k) (map fst d)) eqn:E; [exact N |].
  apply nodup_snoc; [exact N | now apply existsb_eqb_false].
Qed.

Lemma dict_set_length (V : Type) (k : string) (v : V) (d : dict V) :
  (1 <= length (dict_set k v d) <= S (length d))%nat.
Proof.
  rewrite <- !(length_map fst), dict_set_keys.
  destruct (existsb (String.eqb k) (map fst d)) eqn:E.
  - destruct d as [| p d]; [discriminate |]. simpl. lia.
  - rewrite length_app. simpl. lia.
Qed.

Lemma set_add_nodup (x : string) (s : list string) :
  NoDup s -> NoDup (set_add x s).
Proof.
  intros N. unfold set_add.
  destruct (existsb (String.eqb x) s) eqn:E; [exact N |].
  apply nodup_snoc; [exact N | now apply existsb_eqb_false].
Qed.

Lemma set_add_length (x : string) (s : list string) :
  (1 <= length (set_add x s) <= S (length s))%nat.
Proof.
  unfold set_add. destruct (existsb (String.eqb x) s) eqn:E.
  - destruct s as [| y s]; [discriminate |]. simpl. lia.
  - rewrite length_app. simpl. lia.
Qed.

(** ** The rows of a query *)

Section Rows.

Variable int : string -> string + Z.

(** What the loop over the rows keeps, when it reaches its end. *)
Lemma process_rows_invariant (rows : list result_row) :
  forall b b' : Behavior.building,
    process_rows int rows b = inr b' ->
    (Behavior.requests b' - Behavior.requests b
     = values_total (Behavior.preferences b') - values_total (Behavior.preferences b))%Z
    /\ Behavior.rows_read b' = Behavior.rows_read b ++ map row_data_of rows
    /\ (NoDup (map fst (Behavior.preferences b)) ->
        NoDup (map fst (Behavior.preferences b')))
    /\ (NoDup (Behavior.users b) -> NoDup (Behavior.users b'))
    /\ (length (Behavior.users b') <= length (Behavior.users b) + length rows)%nat
    /\ (length (Behavior.preferences b')
        <= length (Behavior.preferences b) + length rows)%nat
    /\ (rows <> [] ->
        (1 <= length (Behavior.users b'))%nat
        /\ (1 <= length (Behavior.preferences b'))%nat)
    /\ (length (Behavior.users b) <= length (Behavior.users b'))%nat
    /\ (length (Behavior.preferences b) <= length (Behavior.preferences b'))%nat
    /\ Forall (fun row => exists count, request_count int (row_data_of row) = inr count)
         rows.
Proof.
  induction rows as [| row rows IH]; intros b b'; cbn [process_rows].
  - intros [= <-]. rewrite app_nil_r.
    repeat split; try tauto; try lia. constructor.
  - destruct (request_count int (row_data_of row)) as [msg | count] eqn:C;
      [discriminate |].
    intros H. apply IH in H.
    cbn [Behavior.requests Behavior.preferences Behavior.rows_read Behavior.users] in H.
    destruct H as (T & R & NP & NU & LU & LP & _ & MU & MP & F).
    rewrite dict_set_total in T.
    pose proof (dict_set_length Z
                  (dict_get "requestParameters.modelId" "unknown" (row_data_of row))
                  (dict_get
                     (dict_get "requestParameters.modelId" "unknown" (row_data_of row))
                     0 (Behavior.preferences b) + count)%Z
                  (Behavior.preferences b)) as DL.
    pose proof (set_add_length
                  (dict_get "userIdentity.userName" "unknown" (row_data_of row))
                  (Behavior.users b)) as SL.
    split; [lia |].
    split; [rewrite R, <- app_assoc; reflexivity |].
    split; [intros N; apply NP, dict_set_nodup, N |].
    split; [intros N; apply NU, set_add_nodup, N |].
    cbn [length].
    split; [lia |]. split; [lia |]. split; [intros _; lia |].
    split; [| split].
    + unfold set_add in MU.
      destruct (existsb _ (Behavior.users b));
        [exact MU | rewrite length_app in MU; simpl in MU; lia].
    + rewrite <- (length_map fst (dict_set _ _ _)), dict_set_keys in MP.
      rewrite <- (length_map fst (Behavior.preferences b)).
      destruct (existsb _ (map fst (Behavior.preferences b)));
        [exact MP | rewrite length_app in MP; simpl in MP; lia].
    + constructor; [exists count; exact C | exact F].
Qed.

(** The loop stops at a count that is not a number. *)
Lemma process_rows_bad_row (rows : list result_row) :
  forall b : Behavior.building,
    (exists row msg, In row rows /\ request_count int (row_data_of row) = inl msg) ->
    exists msg, process_rows int rows b = inl msg.
Proof.
  induction rows as [| row rows IH]; intros b (bad & msg & H & C).
  - contradiction.
  - cbn [process_rows].
    destruct (request_count int (row_data_of row)) as [msg' | count] eqn:C'.
    + exists msg'. reflexivity.
    + destruct H as [-> | H]; [congruence |].
      apply IH. exists bad, msg. split; assumption.
Qed.

End Rows.

(** ** Polling *)

Section Polling.

Variable logs_client : logs.
Variable query_id : string.

Lemma wait_for_results_pending (fuel : nat) :
  forall n : nat,
    (forall i : nat, get_query_results logs_client i query_id = QueryPending) ->
    wait_for_results logs_client query_id fuel n = None.
Proof.
  induction fuel as [| fuel IH]; intros n P; cbn [wait_for_results].
  - reflexivity.
  - rewrite P. apply IH, P.
Qed.

Lemma wait_for_results_answer (k : nat) :
  forall (fuel n : nat) (answer : query_poll),
    (forall i : nat, (i < k)%nat ->
                     get_query_results logs_client (n + i) query_id = QueryPending) ->
    get_query_results logs_client (n + k) query_id = answer ->
    answer <> QueryPending ->
    (k < fuel)%nat ->
    wait_for_results logs_client query_id fuel n = Some answer.
Proof.
  induction k as [| k IH]; intros fuel n answer P A N F.
  - destruct fuel as [| fuel]; [lia |]. cbn [wait_for_results].
    rewrite Nat.add_0_r in A. rewrite A. destruct answer; congruence.
  - destruct fuel as [| fuel]; [lia |]. cbn [wait_for_results].
    pose proof (P 0%nat ltac:(lia)) as P0. rewrite Nat.add_0_r in P0. rewrite P0.
    apply IH; [| | exact N | lia].
    + intros i Hi. replace (S n + i)%nat with (n + S i)%nat by lia.
      apply P. lia.
    + replace (S n + k)%nat with (n + S k)%nat by lia. exact A.
Qed.

Lemma wait_for_results_found (fuel : nat) :
  forall (n : nat) (answer : query_poll),
    wait_for_results logs_client query_id fuel n = Some answer ->
    exists k : nat,
      get_query_results logs_client k query_id = answer /\ answer <> QueryPending.
Proof.
  induction fuel as [| fuel IH]; intros n answer; cbn [wait_for_results].
  - discriminate.
  - destruct (get_query_results logs_client n query_id) eqn:E; intros H;
      try (injection H as <-; exists n; split; [exact E | discriminate]).
    apply IH in H. exact H.
Qed.

End Polling.

(** X16. When [analyze_user_behavior] returns its dictionary, the entries
    agree with one another: [total_requests] is the sum of the counts in
    [model_preferences], whose keys are distinct; [top_users] has one entry
    per row of the query; [unique_users] and the number of models are at
    most the number of rows, and at least 1 when there is a row. Nothing is
    logged. *)
Theorem user_behavior_totals_agree (logs_client : logs)
    (parse : string -> string + Z) (environment : string) (utcnow hours_back : Z)
    (fuel : nat) (b : Behavior.t) (l : list log_record) :
  analyze_user_behavior logs_client parse environment utcnow hours_back fuel
  = Some (Some b, l) ->
  Behavior.total_requests b = values_total (Behavior.model_preferences b)
  /\ NoDup (map fst (Behavior.model_preferences b))
  /\ (Behavior.unique_users b <= length (Behavior.top_users b))%nat
  /\ (length (Behavior.model_preferences b) <= length (Behavior.top_users b))%nat
  /\ (Behavior.top_users b <> [] ->
      (1 <= Behavior.unique_users b)%nat
      /\ (1 <= length (Behavior.model_preferences b))%nat)
  /\ (exists (query_id : string) (n : nat) (rows : list result_row),
        get_query_results logs_client n query_id = QueryComplete rows
        /\ Behavior.top_users b = map row_data_of rows
        /\ Forall (fun row => exists count,
                     request_count parse (row_data_of row) = inr count) rows)
  /\ l = [].
Proof.
  unfold analyze_user_behavior.
  destruct (start_query logs_client _ _ _ _) as [query_id | msg]; [| discriminate].
  destruct (wait_for_results logs_client query_id fuel 0) as [answer |] eqn:W;
    [| discriminate].
  destruct answer as [rows | | | msg]; try discriminate.
  destruct (process_rows parse rows _) as [msg | done] eqn:P; [discriminate |].
  intros [= <- <-].
  apply process_rows_invariant in P.
  cbn [Behavior.requests Behavior.preferences Behavior.rows_read Behavior.users
       Behavior.total_requests Behavior.model_preferences Behavior.top_users
       Behavior.unique_users] in *.
  destruct P as (T & R & NP & NU & LU & LP & NE & _ & _ & F).
  cbn [app length] in *.
  change (values_total []) with 0%Z in T.
  rewrite R, length_map.
  split; [lia |]. split; [apply NP; constructor |].
  split; [lia |]. split; [lia |]. split.
  - intros N. apply NE. intros ->. apply N. reflexivity.
  - split; [| reflexivity].
    apply wait_for_results_found in W as (n & G & _).
    exists query_id, n, rows. repeat split; assumption.
Qed.

(** Three rows of two users and two models, complete at the third poll. *)
Lemma user_behavior_totals_agree_witness :
  analyze_user_behavior (logs_with example_rows) int_of_example "prod" 0 24 3
  = Some (Some {| Behavior.top_users := map row_data_of example_rows;
                  Behavior.model_preferences := [("claude", 8%Z); ("titan", 4%Z)];
                  Behavior.unique_users := 2;
                  Behavior.total_requests := 12 |},
          [])
  /\ 12%Z = values_total [("claude", 8%Z); ("titan", 4%Z)].
Proof.
  assert (H : analyze_user_behavior (logs_with example_rows) int_of_example "prod" 0 24 3
              = Some (Some {| Behavior.top_users := map row_data_of example_rows;
                              Behavior.model_preferences :=
                                [("claude", 8%Z); ("titan", 4%Z)];
                              Behavior.unique_users := 2;
                              Behavior.total_requests := 12 |},
                      [])) by reflexivity.
  split; [exact H |].
  exact (proj1 (user_behavior_totals_agree _ _ _ _ _ _ _ _ H)).
Defined.

(** X17. A single row whose [requestCount] is not an integer literal makes
    [analyze_user_behavior] return the empty dictionary: the rows that were
    read before it, and those after it, are discarded, and one error is
    logged. *)
Theorem one_bad_count_discards_all (logs_client : logs)
    (parse : string -> string + Z) (environment : string) (utcnow hours_back : Z)
    (fuel : nat) (query_id : string) (rows : list result_row) :
  (forall (group : string) (s e : Z) (q : string),
     start_query logs_client group s e q = Started query_id) ->
  wait_for_results logs_client query_id fuel 0 = Some (QueryComplete rows) ->
  (exists (row : result_row) (msg : string),
     In row rows /\ request_count parse (row_data_of row) = inl msg) ->
  exists msg : string,
    analyze_user_behavior logs_client parse environment utcnow hours_back fuel
    = Some (None, [(ERROR, ("Error analyzing user behavior: " ++ msg)%string)]).
Proof.
  intros S W B. unfold analyze_user_behavior. rewrite S, W.
  destruct (process_rows_bad_row parse rows
              {| Behavior.rows_read := []; Behavior.preferences := [];
                 Behavior.users := []; Behavior.requests := 0 |} B) as [msg P].
  exists msg. now rewrite P.
Qed.

(** Three good rows and a fourth with the count "many". *)
Lemma one_bad_count_discards_all_witness :
  (forall (group : string) (s e : Z) (q : string),
     start_query (logs_with broken_rows) group s e q = Started "q-1")
  /\ wait_for_results (logs_with broken_rows) "q-1" 3 0 = Some (QueryComplete broken_rows)
  /\ (exists (row : result_row) (msg : string),
        In row broken_rows /\ request_count int_of_example (row_data_of row) = inl msg)
  /\ exists msg : string,
       analyze_user_behavior (logs_with broken_rows) int_of_example "prod" 0 24 3
       = Some (None, [(ERROR, ("Error analyzing user behavior: " ++ msg)%string)]).
Proof.
  assert (S : forall (group : string) (s e : Z) (q : string),
            start_query (logs_with broken_rows) group s e q = Started "q-1")
    by reflexivity.
  assert (W : wait_for_results (logs_with broken_rows) "q-1" 3 0
              = Some (QueryComplete broken_rows)) by reflexivity.
  assert (B : exists (row : result_row) (msg : string),
            In row broken_rows
            /\ request_count int_of_example (row_data_of row) = inl msg).
  { exists [("userIdentity.userName", "cy"); ("requestCount", "many")].
    eexists. split; [| reflexivity].
    unfold broken_rows. apply in_or_app. right. now left. }
  split; [exact S |]. split; [exact W |]. split; [exact B |].
  exact (one_bad_count_discards_all (logs_with broken_rows) int_of_example "prod"
           0 24 3 "q-1" broken_rows S W B).
Defined.

(** X18. [analyze_user_behavior] polls without a limit. While the query
    stays in a status other than [Complete] and [Failed], no number of polls
    makes the method return; once an answer comes, the outcome is the same
    however many polls came before it, and a failed query gives the empty
    dictionary and a logged error. *)
Theorem polling_has_no_limit (logs_client : logs) (parse : string -> string + Z)
    (environment : string) (utcnow hours_back : Z) (query_id : string) :
  (forall (group : string) (s e : Z) (q : string),
     start_query logs_client group s e q = Started query_id) ->
  ((forall n : nat, get_query_results logs_client n query_id = QueryPending) ->
   forall fuel : nat,
     analyze_user_behavior logs_client parse environment utcnow hours_back fuel = None)
  /\ (forall (k : nat) (answer : query_poll),
        (forall i : nat, (i < k)%nat ->
                         get_query_results logs_client i query_id = QueryPending) ->
        get_query_results logs_client k query_id = answer ->
        answer <> QueryPending ->
        forall fuel : nat,
          (k < fuel)%nat ->
          wait_for_results logs_client query_id fuel 0 = Some answer
          /\ analyze_user_behavior logs_client parse environment utcnow hours_back fuel
             <> None
          /\ analyze_user_behavior logs_client parse environment utcnow hours_back fuel
             = analyze_user_behavior logs_client parse environment utcnow hours_back (S k)
          /\ (answer = QueryFailed ->
              analyze_user_behavior logs_client parse environment utcnow hours_back fuel
              = Some (None, [(ERROR, "CloudWatch Insights query failed")]))).
Proof.
  intros S. split.
  - intros P fuel. unfold analyze_user_behavior.
    rewrite S, wait_for_results_pending by exact P. reflexivity.
  - intros k answer P A N fuel F.
    assert (W : forall f : nat, (k < f)%nat ->
                  wait_for_results logs_client query_id f 0 = Some answer).
    { intros f Hf. apply (wait_for_results_answer logs_client query_id k); auto. }
    split; [apply W, F |].
    unfold analyze_user_behavior. rewrite S, !W by lia.
    split; [| split].
    + destruct answer as [rows | | | msg]; try discriminate; try congruence.
      destruct (process_rows parse rows _); discriminate.
    + reflexivity.
    + intros ->. reflexivity.
Qed.

(** A query that stays pending, followed for a thousand polls. *)
Lemma polling_has_no_limit_witness :
  (forall (group : string) (s e : Z) (q : string),
     start_query logs_pending group s e q = Started "q-1")
  /\ (forall n : nat, get_query_results logs_pending n "q-1" = QueryPending)
  /\ analyze_user_behavior logs_pending int_of_example "prod" 0 24 1000 = None.
Proof.
  assert (S : forall (group : string) (s e : Z) (q : string),
            start_query logs_pending group s e q = Started "q-1") by reflexivity.
  assert (P : forall n : nat, get_query_results logs_pending n "q-1" = QueryPending)
    by reflexivity.
  split; [exact S |]. split; [exact P |].
  exact (proj1 (polling_has_no_limit logs_pending int_of_example "prod" 0 24 "q-1" S)
           P 1000%nat).
Defined.

(** ** Recommendations *)

(** X19. [_generate_recommendations] never returns an empty list, and at most
    five entries. The entry "System performing well - continue monitoring"
    stands alone: it is the whole list exactly when none of the five
    conditions holds, and is absent otherwise. For the metrics of a window
    without invocations, whose [success_rate] [collect_usage_metrics] sets to
    0, the list asks to investigate error patterns. *)
Theorem recommendations_never_empty (m : metrics) (user_behavior : option Behavior.t)
    (c : cost_analysis) (cw : cloudwatch) (w : Z * Z) :
  let well := "System performing well - continue monitoring" in
  let recommendations := _generate_recommendations m user_behavior c in
  (1 <= length recommendations <= 5)%nat
  /\ (In well recommendations <-> recommendations = [well])
  /\ (recommendations = [well] <->
      ~ 95 > match success_rate m with Some rate => rate | None => 100 end
      /\ ~ total_invocations m > 10000
      /\ ~ total_estimated_cost c > 1000
      /\ length match user_behavior with
                | Some b => Behavior.model_preferences b
                | None => []
                end <> 1%nat
      /\ ~ avg_duration m > 30000)
  /\ (~ total_invocations (window_metrics cw w) > 0 ->
      In "Investigate error patterns - success rate below 95%"
         (_generate_recommendations (window_metrics cw w) user_behavior c)).
Proof.
  intros well recommendations.
  assert (I : ~ total_invocations (window_metrics cw w) > 0 ->
              In "Investigate error patterns - success rate below 95%"
                 (_generate_recommendations (window_metrics cw w) user_behavior c)).
  { intros Z0. unfold _generate_recommendations.
    assert (S : success_rate (window_metrics cw w) = Some 0).
    { unfold window_metrics in *.
      rewrite collect_usage_metrics_run, collect_usage_metrics_try_run in *.
      cbn [fst snd total_invocations success_rate] in *.
      destruct (Py.gtb _ 0) eqn:G; [apply gtb_true in G; contradiction | reflexivity]. }
    rewrite S. replace (Py.gtb 95 0) with true by (symmetry; apply gtb_true; lra).
    cbn [app]. now left. }
  cut ((1 <= length recommendations <= 5)%nat
       /\ (In well recommendations <-> recommendations = [well])
       /\ (recommendations = [well] <->
           ~ 95 > match success_rate m with Some rate => rate | None => 100 end
           /\ ~ total_invocations m > 10000
           /\ ~ total_estimated_cost c > 1000
           /\ length match user_behavior with
                     | Some b => Behavior.model_preferences b
                     | None => []
                     end <> 1%nat
           /\ ~ avg_duration m > 30000)).
  { intros (A1 & A2 & A3).
    split; [exact A1 | split; [exact A2 | split; [exact A3 | exact I]]]. }
  clear I. unfold recommendations, _generate_recommendations, well.
  set (rate := match success_rate m with Some rate => rate | None => 100 end).
  set (prefs := match user_behavior with
                | Some b => Behavior.model_preferences b
                | None => []
                end).
  destruct (Py.gtb 95 rate) eqn:G1;
    destruct (Py.gtb (total_invocations m) 10000) eqn:G2;
    destruct (Py.gtb (total_estimated_cost c) 1000) eqn:G3;
    destruct (Nat.eqb_spec (length prefs) 1) as [G4 | G4];
    destruct (Py.gtb (avg_duration m) 30000) eqn:G5;
    try apply gtb_true in G1; try apply gtb_false in G1;
    try apply gtb_true in G2; try apply gtb_false in G2;
    try apply gtb_true in G3; try apply gtb_false in G3;
    try apply gtb_true in G5; try apply gtb_false in G5;
    cbn [app length In];
    (split; [lia |]);
    (split; [split; [intros H; repeat destruct H as [H | H]; try discriminate;
                     try contradiction; reflexivity
                    | intros H; try discriminate; now left] |]);
    (split; [intros H; try discriminate; repeat split; try lra; assumption
            | intros (H1 & H2 & H3 & H4 & H5);
              try lra; try contradiction; reflexivity]).
Qed.

(** An idle hour. *)
Lemma recommendations_never_empty_witness :
  ~ total_invocations (window_metrics silent (0%Z, hours 1)) > 0
  /\ In "Investigate error patterns - success rate below 95%"
        (_generate_recommendations (window_metrics silent (0%Z, hours 1)) None
           cost_analysis_init).
Proof.
  assert (Z0 : ~ total_invocations (window_metrics silent (0%Z, hours 1)) > 0).
  { rewrite (proj1 (silent_metrics _)). lra. }
  split; [exact Z0 |].
  exact (proj2 (proj2 (proj2 (recommendations_never_empty metrics_init None
                                cost_analysis_init silent (0%Z, hours 1)))) Z0).
Defined.
